(** * pg_repack client: a shallow embedding of bin/pg_repack.c

    The client is a sequential C program that drives a PostgreSQL server
    through libpq.  It is embedded here as a state-and-outcome monad over
    an explicit environment: the replies the server will give, the clock
    readings [time(NULL)] will return, and the trace of everything the
    client has done so far (statements sent, sleeps, messages). *)

From Stdlib Require Import ZArith List String Ascii Bool Lia DecimalString
  DecimalPos.
Import ListNotations.

Local Open Scope string_scope.
Local Open Scope Z_scope.

(** ** C library pieces used by the client *)

Module C.

Definition INT_MIN : Z := - 2 ^ 31.
Definition INT_MAX : Z := 2 ^ 31 - 1.
Definition LONG_MIN : Z := - 2 ^ 63.
Definition LONG_MAX : Z := 2 ^ 63 - 1.
Definition ULONG_MAX : Z := 2 ^ 64 - 1.

(** [int] arithmetic, two's complement on 32 bits. *)
Definition wrap_int (z : Z) : Z := (z + 2 ^ 31) mod 2 ^ 32 - 2 ^ 31.

(** [unsigned int] (and [Oid]) arithmetic. *)
Definition wrap_uint (z : Z) : Z := z mod 2 ^ 32.

Definition in_int (z : Z) : Prop := INT_MIN <= z <= INT_MAX.

(** [Min(a, b)] of c.h. *)
Definition Min (a b : Z) : Z := if a <? b then a else b.

(** ["%d"] and ["%u"]. *)
Definition fmt_d (z : Z) : string := NilZero.string_of_int (Z.to_int z).
Definition fmt_u (z : Z) : string := fmt_d (wrap_uint z).

(** [snprintf(buf, size, ...)]: at most [size - 1] bytes of the
    formatted text are stored. *)
Definition snprintf (size : nat) (formatted : string) : string :=
  substring 0 (size - 1) formatted.

Definition isspace (a : ascii) : bool :=
  let n := nat_of_ascii a in
  ((n =? 32) || ((9 <=? n) && (n <=? 13)))%nat.

Definition digit_of (a : ascii) : option Z :=
  let n := Z.of_nat (nat_of_ascii a) in
  if (48 <=? n) && (n <=? 57) then Some (n - 48) else None.

Fixpoint skip_space (s : string) : string :=
  match s with
  | String a r => if isspace a then skip_space r else s
  | EmptyString => s
  end.

Fixpoint digits (acc : Z) (s : string) : Z :=
  match s with
  | String a r =>
      match digit_of a with
      | Some d => digits (10 * acc + d) r
      | None => acc
      end
  | EmptyString => acc
  end.

Definition sign_split (s : string) : bool * string :=
  match s with
  | String "-" r => (true, r)
  | String "+" r => (false, r)
  | _ => (false, s)
  end.

(** [strtoul(s, NULL, 10)] with a 64-bit [unsigned long]. *)
Definition strtoul (s : string) : Z :=
  let '(neg, r) := sign_split (skip_space s) in
  let v := digits 0 r in
  if v >? ULONG_MAX then ULONG_MAX
  else if neg then (2 ^ 64 - v) mod 2 ^ 64 else v.

(** [strtol(s, NULL, 10)] with a 64-bit [long]. *)
Definition strtol (s : string) : Z :=
  let '(neg, r) := sign_split (skip_space s) in
  let v := digits 0 r in
  if neg then Z.max (- v) LONG_MIN else Z.min v LONG_MAX.

(** [atoi(s)], that is [(int) strtol(s, NULL, 10)]. *)
Definition atoi (s : string) : Z := wrap_int (strtol s).

(** [strcmp(a, b) == 0]. *)
Definition streq (a b : string) : bool := String.eqb a b.

(** [strstr(hay, needle) != NULL]. *)
Fixpoint contains (needle hay : string) : bool :=
  prefix needle hay ||
  match hay with
  | String _ r => contains needle r
  | EmptyString => false
  end.

End C.

(** ** libpq results *)

Inductive ExecStatusType : Set :=
| PGRES_EMPTY_QUERY
| PGRES_COMMAND_OK
| PGRES_TUPLES_OK
| PGRES_COPY_OUT
| PGRES_COPY_IN
| PGRES_BAD_RESPONSE
| PGRES_NONFATAL_ERROR
| PGRES_FATAL_ERROR.

Definition ExecStatusType_eqb (a b : ExecStatusType) : bool :=
  match a, b with
  | PGRES_EMPTY_QUERY, PGRES_EMPTY_QUERY
  | PGRES_COMMAND_OK, PGRES_COMMAND_OK
  | PGRES_TUPLES_OK, PGRES_TUPLES_OK
  | PGRES_COPY_OUT, PGRES_COPY_OUT
  | PGRES_COPY_IN, PGRES_COPY_IN
  | PGRES_BAD_RESPONSE, PGRES_BAD_RESPONSE
  | PGRES_NONFATAL_ERROR, PGRES_NONFATAL_ERROR
  | PGRES_FATAL_ERROR, PGRES_FATAL_ERROR => true
  | _, _ => false
  end.

(** What the server answers to one statement.  A NULL field of a tuple is
    [None]; [sqlstate] is the [PG_DIAG_SQLSTATE] error field, absent on a
    result that is not an error; [errmsg] is what [PQerrorMessage] of the
    connection gives once this result has arrived. *)
Record PGresult : Type := mkPGresult {
  status : ExecStatusType;
  tuples : list (list (option string));
  sqlstate : option string;
  errmsg : string
}.

Definition command_ok : PGresult :=
  mkPGresult PGRES_COMMAND_OK [] None EmptyString.

Definition tuples_ok (rows : list (list (option string))) : PGresult :=
  mkPGresult PGRES_TUPLES_OK rows None EmptyString.

Definition server_error (state msg : string) : PGresult :=
  mkPGresult PGRES_FATAL_ERROR [] (Some state) msg.

Definition PQresultStatus (res : PGresult) : ExecStatusType := status res.

Definition PQntuples (res : PGresult) : Z := Z.of_nat (List.length (tuples res)).

(** The field at ([row], [col]), when both are in range. *)
Definition field (res : PGresult) (row col : nat) : option (option string) :=
  match nth_error (tuples res) row with
  | Some r => nth_error r col
  | None => None
  end.

(** [PQgetisnull]: out-of-range positions count as NULL. *)
Definition PQgetisnull (res : PGresult) (row col : nat) : bool :=
  match field res row col with
  | Some (Some _) => false
  | _ => true
  end.

(** [PQgetvalue]: a NULL pointer ([None]) out of range, the empty string
    for a NULL field. *)
Definition PQgetvalue (res : PGresult) (row col : nat) : option string :=
  match field res row col with
  | Some (Some v) => Some v
  | Some None => Some EmptyString
  | None => None
  end.

Definition PQresultErrorField_SQLSTATE (res : PGresult) : option string :=
  sqlstate res.

Definition Oid : Set := Z.
Definition InvalidOid : Oid := 0.

(** result is not copied *)
Definition getstr (res : PGresult) (row col : nat) : option string :=
  if PQgetisnull res row col then None else PQgetvalue res row col.

Definition getoid (res : PGresult) (row col : nat) : Oid :=
  if PQgetisnull res row col then InvalidOid
  else match PQgetvalue res row col with
       | Some v => C.wrap_uint (C.strtoul v)
       | None => InvalidOid
       end.

(** ** The environment and the client's state *)

(** [const char *]: a NULL pointer or a text. *)
Definition cstring : Type := option string.

(** A libpq session.  Each successful [reconnect] opens a new one;
    [conn_good] is [PQstatus(conn) == CONNECTION_OK]. *)
Record PGconn : Type := mkPGconn {
  conn_id : nat;
  conn_good : bool
}.

Inductive elevel : Set := DEBUG2 | INFO | NOTICE | WARNING | ERROR.

Inductive errcode : Set := EINVAL | E_PG_COMMAND | E_PG_CONNECT | E_ERROR.

(** per-table information *)
Record repack_table : Type := mkTable {
  target_name : cstring;     (* target: relname *)
  target_oid : Oid;          (* target: OID *)
  target_toast : Oid;        (* target: toast OID *)
  target_tidx : Oid;         (* target: toast index OID *)
  pkid : Oid;                (* target: PK OID *)
  ckid : Oid;                (* target: CK OID *)
  create_pktype : cstring;   (* CREATE TYPE pk *)
  create_log : cstring;      (* CREATE TABLE log *)
  create_trigger : cstring;  (* CREATE TRIGGER z_repack_trigger *)
  enable_trigger : cstring;  (* ALTER TABLE ENABLE ALWAYS TRIGGER z_repack_trigger *)
  create_table : cstring;    (* CREATE TABLE table AS SELECT *)
  drop_columns : cstring;    (* ALTER TABLE DROP COLUMNs *)
  delete_log : cstring;      (* DELETE FROM log *)
  lock_table : cstring;      (* LOCK TABLE table *)
  sql_peek : cstring;        (* SQL used in flush *)
  sql_insert : cstring;      (* SQL used in flush *)
  sql_delete : cstring;      (* SQL used in flush *)
  sql_update : cstring;      (* SQL used in flush *)
  sql_pop : cstring          (* SQL used in flush *)
}.

(** per-index information *)
Record repack_index : Type := mkIndex {
  index_target_oid : Oid;    (* target: OID *)
  create_index : cstring     (* CREATE INDEX *)
}.

(** What the client does that the outside can see.  [Query c sql params]
    is one statement sent with [PQexecParams] on session [c]. *)
Inductive event : Type :=
| Connect (c : nat) (db : cstring)
| Disconnect (c : nat)
| Query (c : nat) (sql : string) (params : list cstring)
| Sleep (seconds : Z)
| Elog (level : elevel) (msg : string)
| Printf (msg : string)
| Fprintf_stderr (msg : string)
| AtexitPush (table : repack_table)
| AtexitPop (table : repack_table).

Record state : Type := mkState {
  replies : list PGresult;       (* what the server answers, in order *)
  clock : list Z;                (* what time(NULL) returns, in order *)
  accepting : bool;              (* do connection attempts succeed *)
  server_version : Z;            (* PQserverVersion(connection) *)
  sessions : nat;                (* sessions opened so far *)
  connection : option PGconn;    (* the global [connection] *)
  dbname : cstring;              (* the global [dbname] *)
  atexit : list repack_table;    (* pgut's stack of cleanup callbacks *)
  trace : list event
}.

Definition set_replies (rs : list PGresult) (s : state) : state :=
  mkState rs (clock s) (accepting s) (server_version s) (sessions s)
          (connection s) (dbname s) (atexit s) (trace s).

Definition set_clock (ck : list Z) (s : state) : state :=
  mkState (replies s) ck (accepting s) (server_version s) (sessions s)
          (connection s) (dbname s) (atexit s) (trace s).

Definition set_connection (c : option PGconn) (n : nat) (s : state) : state :=
  mkState (replies s) (clock s) (accepting s) (server_version s) n
          c (dbname s) (atexit s) (trace s).

Definition set_dbname (d : cstring) (s : state) : state :=
  mkState (replies s) (clock s) (accepting s) (server_version s) (sessions s)
          (connection s) d (atexit s) (trace s).

Definition set_atexit (l : list repack_table) (s : state) : state :=
  mkState (replies s) (clock s) (accepting s) (server_version s) (sessions s)
          (connection s) (dbname s) l (trace s).

Definition log_event (e : event) (s : state) : state :=
  mkState (replies s) (clock s) (accepting s) (server_version s) (sessions s)
          (connection s) (dbname s) (atexit s) (trace s ++ [e])%list.

(** How the process ends when it does not return from [main]. *)
Inductive termination : Type :=
| exit_status (code : Z)                        (* exit(code) *)
| ereport_ERROR (code : errcode) (msg : string) (* ereport(ERROR, ...) *).

(** The result of running a piece of the client from a state. *)
Inductive outcome (A : Type) : Type :=
| Ok (a : A) (s : state)               (* it returned [a] *)
| Exit (how : termination) (s : state) (* the process ended; [s] is the
                                          state at the call, before pgut
                                          runs the hooks of [atexit s] *)
| Undefined (s : state)                (* undefined behaviour in C *)
| Running (s : state).                 (* still at work when the script
                                          of the environment ran out *)

Arguments Ok {A} a s.
Arguments Exit {A} how s.
Arguments Undefined {A} s.
Arguments Running {A} s.

Definition final {A} (o : outcome A) : state :=
  match o with
  | Ok _ s | Exit _ s | Undefined s | Running s => s
  end.

Definition M (A : Type) : Type := state -> outcome A.

Definition ret {A} (a : A) : M A := fun s => Ok a s.

Definition bind {A B} (m : M A) (k : A -> M B) : M B :=
  fun s =>
    match m s with
    | Ok a s' => k a s'
    | Exit how s' => Exit how s'
    | Undefined s' => Undefined s'
    | Running s' => Running s'
    end.

Declare Scope repack_scope.
Delimit Scope repack_scope with repack.
Notation "x <- m ;; k" := (bind m (fun x => k))
  (at level 61, m at next level, right associativity) : repack_scope.
Notation "m ;; k" := (bind m (fun _ => k))
  (at level 61, right associativity) : repack_scope.
Local Open Scope repack_scope.

Definition get {A} (f : state -> A) : M A := fun s => Ok (f s) s.
Definition modify (f : state -> state) : M unit := fun s => Ok tt (f s).
Definition emit (e : event) : M unit := modify (log_event e).
Definition undefined {A} : M A := fun s => Undefined s.
Definition running {A} : M A := fun s => Running s.

(** [exit(code)]. *)
Definition exit {A} (code : Z) : M A := fun s => Exit (exit_status code) s.

(** [ereport(ERROR, (errcode(code), errmsg(msg)))]: the process ends. *)
Definition ereport_error {A} (code : errcode) (msg : string) : M A :=
  fun s => Exit (ereport_ERROR code msg) s.

(** [elog(level, msg)] below ERROR.  [DEBUG2] is under the default log
    threshold: such a message leaves no event, and the [DEBUG2] dumps of
    the source are left out. *)
Definition elog (level : elevel) (msg : string) : M unit :=
  match level with
  | DEBUG2 => ret tt
  | _ => emit (Elog level msg)
  end.

Definition printf (msg : string) : M unit := emit (Printf msg).

Definition sleep (seconds : Z) : M unit := emit (Sleep seconds).

(** [time(NULL)]. *)
Definition time : M Z :=
  fun s =>
    match clock s with
    | t :: ck => Ok t (set_clock ck s)
    | [] => Running s
    end.

(** A ["%s"] argument must not be NULL. *)
Definition arg_s (a : cstring) : M string :=
  match a with
  | Some v => ret v
  | None => undefined
  end.

(** ["3F000"] and ["57014"] *)
Definition SQLSTATE_INVALID_SCHEMA_NAME : string := "3F000".
Definition SQLSTATE_QUERY_CANCELED : string := "57014".

(** [strcmp] on the result's SQLSTATE field, which is a NULL pointer when
    the result carries no error. *)
Definition sqlstate_equals (res : PGresult) (state : string) : M bool :=
  match PQresultErrorField_SQLSTATE res with
  | Some st => ret (C.streq st state)
  | None => undefined
  end.

(** buffer should have at least 11 bytes *)
Definition utoa (value : Z) : string := C.fmt_u value.

(** ** pgut's front end

    [pgut/pgut-fe.h] declares the globals [connection] and [dbname] and
    the calls below; they take no connection argument and work on the one
    global [connection]. *)

(** [PQexecParams(NULL, ...)] and [PQexecParams(conn, NULL, ...)] give a
    NULL result, which libpq reads as a fatal error without fields. *)
Definition null_result : PGresult :=
  mkPGresult PGRES_FATAL_ERROR [] None EmptyString.

(** One statement on [connection]: it is sent, and the next reply of the
    server is its result. *)
Definition PQexecParams (query : cstring) (params : list cstring) : M PGresult :=
  fun s =>
    match connection s, query with
    | Some c, Some q =>
        let s' := log_event (Query (conn_id c) q params) s in
        match replies s with
        | r :: rs => Ok r (set_replies rs s')
        | [] => Running s'
        end
    | _, _ => Ok null_result s
    end.

Definition query_succeeded (res : PGresult) : bool :=
  match PQresultStatus res with
  | PGRES_TUPLES_OK | PGRES_COMMAND_OK | PGRES_COPY_IN => true
  | _ => false
  end.

(** Modelled from the spec: pgut's [execute_elevel] is not under src/.
    A failed statement is reported at the given level and its result is
    handed back; at ERROR the report ends the process ("Enumeration
    failures ... skip the database", "errors during shadow build or copy
    surface to the orchestrator"). *)
Definition execute_elevel (query : cstring) (params : list cstring)
    (level : elevel) : M PGresult :=
  res <- PQexecParams query params ;;
  if query_succeeded res then ret res
  else
    match level with
    | ERROR => ereport_error E_PG_COMMAND ("query failed: " ++ errmsg res)
    | _ => elog level ("query failed: " ++ errmsg res) ;; ret res
    end.

(** Modelled from the spec: pgut's [execute] is not under src/.  It is
    [execute_elevel] at ERROR. *)
Definition execute (query : cstring) (params : list cstring) : M PGresult :=
  execute_elevel query params ERROR.

(** Modelled from the spec: pgut's [command] is not under src/.  As
    [execute], with the result dropped. *)
Definition command (query : cstring) (params : list cstring) : M unit :=
  execute query params ;; ret tt.

(** Modelled from the spec: pgut's [disconnect] is not under src/.  It
    closes [connection] when there is one. *)
Definition disconnect : M unit :=
  c <- get connection ;;
  match c with
  | Some c =>
      emit (Disconnect (conn_id c)) ;;
      n <- get sessions ;;
      modify (set_connection None n)
  | None => ret tt
  end.

(** Modelled from the spec: pgut's [reconnect(ERROR)] is not under src/.
    It drops the current session and opens a new one to [dbname]; a
    refused connection is a hard error. *)
Definition reconnect : M unit :=
  disconnect ;;
  ok <- get accepting ;;
  db <- get dbname ;;
  if ok then
    n <- get sessions ;;
    emit (Connect n db) ;;
    modify (set_connection (Some (mkPGconn n true)) (S n))
  else ereport_error E_PG_CONNECT "could not connect to database".

Definition PQserverVersion : M Z :=
  c <- get connection ;;
  match c with
  | Some _ => get server_version
  | None => ret 0
  end.

(** [PQstatus(connection) == CONNECTION_OK] *)
Definition PQstatus_ok : M bool :=
  c <- get connection ;;
  match c with
  | Some c => ret (conn_good c)
  | None => ret false
  end.

(** Modelled from the spec: pgut's [pgut_atexit_push] and
    [pgut_atexit_pop] are not under src/.  They register and remove the
    cleanup hook bound to a table ("From this point register the cleanup
    hook bound to this TableJob", "Remove the cleanup hook only after drop
    succeeds"). *)
Definition pgut_atexit_push (table : repack_table) : M unit :=
  emit (AtexitPush table) ;;
  l <- get atexit ;;
  modify (set_atexit (table :: l)).

Definition pgut_atexit_pop (table : repack_table) : M unit :=
  emit (AtexitPop table) ;;
  l <- get atexit ;;
  modify (set_atexit (tl l)).

(** ** The statements the client composes itself *)

Definition nl : string := String (ascii_of_nat 10) EmptyString.
Definition dquote : string := String (ascii_of_nat 34) EmptyString.

(* The '1/1, -1/0' lock skipped is from the bgwriter on newly promoted
   servers. See GH ticket #1. *)
Definition SQL_XID_SNAPSHOT : string :=
  "SELECT repack.array_accum(virtualtransaction) FROM pg_locks" ++
  " WHERE locktype = 'virtualxid' AND pid <> pg_backend_pid()" ++
  " AND (virtualxid, virtualtransaction) <> ('1/1', '-1/0')".

Definition SQL_XID_ALIVE : string :=
  "SELECT pid FROM pg_locks WHERE locktype = 'virtualxid'" ++
  " AND pid <> pg_backend_pid() AND virtualtransaction = ANY($1)".

Definition SQL_TERMINATE : string :=
  "SELECT pg_terminate_backend(pid) FROM pg_locks" ++
  " WHERE locktype = 'relation'" ++
  "   AND relation = $1 AND pid <> pg_backend_pid()".

Definition SQL_CANCEL : string :=
  "SELECT pg_cancel_backend(pid) FROM pg_locks" ++
  " WHERE locktype = 'relation'" ++
  "   AND relation = $1 AND pid <> pg_backend_pid()".

Definition SQL_BEGIN_READ_COMMITTED : string :=
  "BEGIN ISOLATION LEVEL READ COMMITTED".

Definition SQL_BEGIN_SERIALIZABLE : string :=
  "BEGIN ISOLATION LEVEL SERIALIZABLE".

Definition SQL_SET_WORK_MEM : string :=
  "SELECT set_config('work_mem', current_setting('maintenance_work_mem'), true)".

Definition SQL_APPLY : string :=
  "SELECT repack.repack_apply($1, $2, $3, $4, $5, $6)".

Definition SQL_INDEXES : string :=
  "SELECT indexrelid," ++
  " repack.repack_indexdef(indexrelid, indrelid)," ++
  " indisvalid," ++
  " pg_get_indexdef(indexrelid)" ++
  " FROM pg_index WHERE indrelid = $1".

(*
 * APPLY_COUNT: Number of applied logs per transaction. Larger values
 * could be faster, but will be long transactions in the REDO phase.
 *)
Definition APPLY_COUNT : Z := 1000.

(** ** The client *)

Inductive loop_step : Set := Break | Continue.

Section Client.

(** [PROGRAM_NAME] comes from pgut and [PROGRAM_VERSION] from the build
    ([REPACK_VERSION]); [analyze], [wait_timeout] are the option
    globals once [pgut_getopt] has run; [verbose] is
    [pgut_log_level >= INFO]. *)
Variables (PROGRAM_NAME PROGRAM_VERSION : string).
Variable analyze : bool.
Variable wait_timeout : Z.   (* in seconds *)
Variable verbose : bool.

(** *** lock_exclusive

    The body of its [for (i = 1; ; i++)] in three pieces, in the order
    of the source. *)

(** Lines 680-702: cancel or terminate the conflicting backends once
    [duration] has passed [wait_timeout]. *)
Definition escalate (duration : Z) (relid : string) : M unit :=
  if duration >? wait_timeout then
    version <- PQserverVersion ;;
    cancel_query <-
      (if (version >=? 80400) && (duration >? C.wrap_int (wait_timeout * 2))
       then
         elog WARNING "terminating conflicted backends" ;;
         ret SQL_TERMINATE
       else
         elog WARNING "canceling conflicted backends" ;;
         ret SQL_CANCEL) ;;
    command (Some cancel_query) [Some relid]
  else ret tt.

(** Lines 677-702: open the transaction of the attempt and escalate. *)
Definition begin_attempt (start : Z) (relid : string) : M unit :=
  command (Some SQL_BEGIN_READ_COMMITTED) [] ;;
  now <- time ;;
  let duration := now - start in
  escalate duration relid.

Definition set_timeout_sql (wait_msec : Z) : string :=
  C.snprintf 1024 ("SET LOCAL statement_timeout = " ++ C.fmt_d wait_msec).

(** Lines 704-728: wait for a while to lock the table. *)
Definition try_lock (i : Z) (lock_query : cstring) : M loop_step :=
  let wait_msec := C.Min 1000 (C.wrap_int (i * 100)) in
  command (Some (set_timeout_sql wait_msec)) [] ;;
  res <- execute_elevel lock_query [] DEBUG2 ;;
  if ExecStatusType_eqb (PQresultStatus res) PGRES_COMMAND_OK then
    ret Break
  else
    canceled <- sqlstate_equals res SQLSTATE_QUERY_CANCELED ;;
    if canceled then
      (* retry if lock conflicted *)
      command (Some "ROLLBACK") [] ;;
      ret Continue
    else
      (* exit otherwise *)
      printf (errmsg res) ;;
      exit 1.

Definition lock_attempt (start i : Z) (relid : string)
    (lock_query : cstring) : M loop_step :=
  begin_attempt start relid ;;
  try_lock i lock_query.

Fixpoint lock_exclusive_loop (fuel : nat) (start i : Z) (relid : string)
    (lock_query : cstring) : M unit :=
  match fuel with
  | O => running
  | S fuel' =>
      step <- lock_attempt start i relid lock_query ;;
      match step with
      | Break => ret tt
      | Continue =>
          lock_exclusive_loop fuel' start (C.wrap_int (i + 1)) relid lock_query
      end
  end.

(** Try acquire a table lock but avoid long time locks when conflict.
    Every pass takes a reply of the server, so the replies left bound
    the number of passes that can be observed. *)
Definition lock_exclusive (relid : string) (lock_query : cstring) : M unit :=
  start <- time ;;
  n <- get (fun s => List.length (replies s)) ;;
  lock_exclusive_loop (S n) start 1 relid lock_query ;;
  command (Some "RESET statement_timeout") [].

(** The userdata pointing a table being re-organized. We need to cleanup
    temp objects before the program exits. *)
Definition repack_cleanup (fatal : bool) (table : repack_table) : M unit :=
  if fatal then
    emit (Fprintf_stderr
            ("!!!FATAL ERROR!!! Please refer to the manual." ++ nl ++ nl))
  else
    (* Rollback current transaction *)
    c <- get connection ;;
    (match c with
     | Some _ => command (Some "ROLLBACK") []
     | None => ret tt
     end) ;;
    (* Try reconnection if not available. *)
    good <- PQstatus_ok ;;
    (if good then ret tt else reconnect) ;;
    (* do cleanup *)
    command (Some "SELECT repack.repack_drop($1)")
            [Some (utoa (target_oid table))].

Definition apply_log (table : repack_table) (count : Z) : M Z :=
  res <- execute (Some SQL_APPLY)
           [sql_peek table; sql_insert table; sql_delete table;
            sql_update table; sql_pop table; Some (utoa count)] ;;
  match PQgetvalue res 0 0 with
  | Some v => ret (C.atoi v)
  | None => undefined
  end.

(** *** repack_one_table, step by step *)

(** 1. Setup workspaces and a trigger. *)
Definition setup_workspace (table : repack_table) : M unit :=
  lock_exclusive (utoa (target_oid table)) (lock_table table) ;;
  (* Check z_repack_trigger is the trigger executed at last so that
     other before triggers cannot modify triggered tuples. *)
  res <- execute (Some "SELECT repack.conflicted_triggers($1)")
           [Some (utoa (target_oid table))] ;;
  (if PQntuples res >? 0 then
     trigger <- arg_s (PQgetvalue res 0 0) ;;
     name <- arg_s (target_name table) ;;
     ereport_error E_PG_COMMAND
       ("trigger " ++ trigger ++ " conflicted for " ++ name)
   else ret tt) ;;
  command (create_pktype table) [] ;;
  command (create_log table) [] ;;
  command (create_trigger table) [] ;;
  command (enable_trigger table) [] ;;
  command (Some ("SELECT repack.disable_autovacuum('repack.log_"
                   ++ utoa (target_oid table) ++ "')")) [] ;;
  command (Some "COMMIT") [].

(** 2. Copy tuples into temp table.  The value is [vxid]. *)
Definition copy_tuples (table : repack_table) (orderby : cstring) : M string :=
  (* Must use SERIALIZABLE (or at least not READ COMMITTED) to avoid race
     condition between the create_table statement and rows subsequently
     being added to the log. *)
  command (Some SQL_BEGIN_SERIALIZABLE) [] ;;
  (* SET work_mem = maintenance_work_mem *)
  command (Some SQL_SET_WORK_MEM) [] ;;
  (match orderby with
   | Some EmptyString => command (Some "SET LOCAL synchronize_seqscans = off") []
   | _ => ret tt
   end) ;;
  res <- execute (Some SQL_XID_SNAPSHOT) [] ;;
  vxid <- arg_s (PQgetvalue res 0 0) ;;   (* strdup *)
  (* Delete any existing entries in the log table now, since we have not
     yet run the CREATE TABLE ... AS SELECT, which will take in all
     existing rows from the target table; if we also included prior rows
     from the log we could wind up with duplicates. *)
  command (delete_log table) [] ;;
  command (create_table table) [] ;;
  (match drop_columns table with
   | Some _ => command (drop_columns table) []
   | None => ret tt
   end) ;;
  command (Some ("SELECT repack.disable_autovacuum('repack.table_"
                   ++ utoa (target_oid table) ++ "')")) [] ;;
  command (Some "COMMIT") [] ;;
  ret vxid.

(** The body of the loop over the indexes. *)
Definition create_one_index (res : PGresult) (i : nat) : M unit :=
  let index := mkIndex (getoid res i 0) (getstr res i 1) in
  let isvalid := getstr res i 2 in
  let indexdef := getstr res i 3 in
  match isvalid with
  | Some (String "f" _) =>
      def <- arg_s indexdef ;;
      elog WARNING ("skipping invalid index: " ++ def)
  | _ =>
      (* NOTE: If we want to create multiple indexes in parallel,
         we need to call create_index in multiple connections. *)
      command (create_index index) []
  end.

Fixpoint create_indexes_from (res : PGresult) (i num : nat) : M unit :=
  match num with
  | O => ret tt
  | S num' => create_one_index res i ;; create_indexes_from res (S i) num'
  end.

(** 3. Create indexes on temp table. *)
Definition create_indexes (table : repack_table) : M unit :=
  res <- execute (Some SQL_INDEXES) [Some (utoa (target_oid table))] ;;
  create_indexes_from res 0 (List.length (tuples res)).

(** One pass of the body of the [for (;;)] of step 4; the value is the
    way the pass leaves the loop body and the new [num_waiting]. *)
Definition drain_pass (table : repack_table) (vxid : string)
    (num_waiting : Z) : M (loop_step * Z) :=
  num <- apply_log table APPLY_COUNT ;;
  if num >? 0 then
    ret (Continue, num_waiting) (* there might be still some tuples, repeat. *)
  else
    (* old transactions still alive ? *)
    res <- execute (Some SQL_XID_ALIVE) [Some vxid] ;;
    let num := PQntuples res in
    if num >? 0 then
      (* Wait for old transactions. *)
      num_waiting' <-
        (if negb (num =? num_waiting) then
           pid <- arg_s (PQgetvalue res 0 0) ;;
           elog NOTICE ("Waiting for " ++ C.fmt_d num
                          ++ " transactions to finish. First PID: " ++ pid) ;;
           ret num
         else ret num_waiting) ;;
      sleep 1 ;;
      ret (Continue, num_waiting')
    else
      (* All old transactions are finished; go to next step. *)
      ret (Break, num_waiting).

Fixpoint drain_loop (fuel : nat) (table : repack_table) (vxid : string)
    (num_waiting : Z) : M unit :=
  match fuel with
  | O => running
  | S fuel' =>
      r <- drain_pass table vxid num_waiting ;;
      match r with
      | (Break, _) => ret tt
      | (Continue, num_waiting') => drain_loop fuel' table vxid num_waiting'
      end
  end.

(** 4. Apply log to temp table until no tuples are left in the log and
    all of the old transactions are finished.  Every pass takes a reply
    of the server, so the replies left bound the passes observed. *)
Definition drain_log (table : repack_table) (vxid : string) : M unit :=
  n <- get (fun s => List.length (replies s)) ;;
  drain_loop (S n) table vxid 0.

(** 5. Swap. *)
Definition swap (table : repack_table) : M unit :=
  lock_exclusive (utoa (target_oid table)) (lock_table table) ;;
  apply_log table 0 ;;
  command (Some "SELECT repack.repack_swap($1)")
          [Some (utoa (target_oid table))] ;;
  command (Some "COMMIT") [].

(** 6. Drop. *)
Definition drop (table : repack_table) : M unit :=
  command (Some SQL_BEGIN_READ_COMMITTED) [] ;;
  command (Some "SELECT repack.repack_drop($1)")
          [Some (utoa (target_oid table))] ;;
  command (Some "COMMIT") [].

(** 7. Analyze.  Note that cleanup hook has been already uninstalled
    here because analyze is not an important operation; No clean up
    even if failed. *)
Definition analyze_table (table : repack_table) : M unit :=
  if analyze then
    command (Some SQL_BEGIN_READ_COMMITTED) [] ;;
    name <- arg_s (target_name table) ;;
    command (Some ("ANALYZE " ++ name)) [] ;;
    command (Some "COMMIT") []
  else ret tt.

(** Re-organize one table. *)
Definition repack_one_table (table : repack_table) (orderby : cstring) : M unit :=
  setup_workspace table ;;
  (* Register the table to be dropped on error. *)
  pgut_atexit_push table ;;
  vxid <- copy_tuples table orderby ;;
  create_indexes table ;;
  drain_log table vxid ;;
  swap table ;;
  drop table ;;
  pgut_atexit_pop table ;;
  analyze_table table.

(** *** repack_one_database *)

(** The body of the loop over the rows of [repack.tables], up to the call
    of [repack_one_table]: row [i] becomes a [repack_table]. *)
Definition read_table (res : PGresult) (i : nat) (orderby : cstring)
  : M repack_table :=
  let name := getstr res i 0 in
  let oid := getoid res i 1 in
  let toast := getoid res i 2 in
  let tidx := getoid res i 3 in
  let pk := getoid res i 4 in
  let ck := getoid res i 5 in
  (if pk =? 0 then
     n <- arg_s name ;;
     ereport_error E_PG_COMMAND
       ("relation " ++ dquote ++ n ++ dquote
          ++ " must have a primary key or not-null unique keys")
   else ret tt) ;;
  let pktype := getstr res i 6 in
  let log := getstr res i 7 in
  let trigger := getstr res i 8 in
  let enable := getstr res i 9 in
  let create_table := getstr res i 10 in
  let dropcols := getstr res i 11 in
  let dellog := getstr res i 12 in
  let lock := getstr res i 13 in
  let ckey := getstr res i 14 in
  sql <-
    match orderby with
    | None =>
        (* CLUSTER mode *)
        match ckey with
        | None =>
            n <- arg_s name ;;
            ereport_error E_PG_COMMAND
              ("relation " ++ dquote ++ n ++ dquote ++ " has no cluster key")
        | Some key =>
            ct <- arg_s create_table ;;
            ret (Some (ct ++ " ORDER BY " ++ key))
        end
    | Some EmptyString =>
        (* VACUUM FULL mode *)
        ret create_table
    | Some order =>
        (* User specified ORDER BY *)
        ct <- arg_s create_table ;;
        ret (Some (ct ++ " ORDER BY " ++ order))
    end ;;
  ret (mkTable name oid toast tidx pk ck pktype log trigger enable
               sql dropcols dellog lock
               (getstr res i 15) (getstr res i 16) (getstr res i 17)
               (getstr res i 18) (getstr res i 19)).

Fixpoint repack_tables_from (res : PGresult) (orderby : cstring)
    (i num : nat) : M unit :=
  match num with
  | O => ret tt
  | S num' =>
      table <- read_table res i orderby ;;
      repack_one_table table orderby ;;
      repack_tables_from res orderby (S i) num'
  end.

(** [if (errbuf) snprintf(errbuf, errsize, ...)]: [errbuf] is NULL
    ([None]) or a buffer with its present text. *)
Definition write_errbuf (errbuf : cstring) (errsize : nat) (msg : string)
  : cstring :=
  match errbuf with
  | Some _ => Some (C.snprintf errsize msg)
  | None => None
  end.

(** What is left in [errbuf] when a query of [repack_one_database] has
    failed. *)
Definition skip_reason (res : PGresult) (errbuf : cstring) (errsize : nat)
  : M cstring :=
  missing <- sqlstate_equals res SQLSTATE_INVALID_SCHEMA_NAME ;;
  if missing then
    (* Schema repack does not exist. Skip the database. *)
    ret (write_errbuf errbuf errsize
           (PROGRAM_NAME ++ " is not installed in the database"))
  else
    (* Return the error message otherwise *)
    ret (write_errbuf errbuf errsize (errmsg res)).

(** Query the extension version. Exit if no match: [Some errbuf] stands
    for [goto cleanup] with that [errbuf], [None] for falling through. *)
Definition check_version (res : PGresult) (errbuf : cstring) (errsize : nat)
  : M (option cstring) :=
  if ExecStatusType_eqb (PQresultStatus res) PGRES_TUPLES_OK then
    (* the string is something like "pg_repack 1.1.7" *)
    let buf := C.snprintf 64 (PROGRAM_NAME ++ " " ++ PROGRAM_VERSION) in
    (* check the version of the C library *)
    match getstr res 0 0 with
    | None => undefined   (* strcmp(buf, NULL) *)
    | Some libver =>
        if negb (C.streq buf libver) then
          ret (Some (write_errbuf errbuf errsize
                       ("program '" ++ buf
                          ++ "' does not match database library '"
                          ++ libver ++ "'")))
        else
          (* check the version of the SQL extension *)
          match getstr res 0 1 with
          | None => undefined
          | Some libver =>
              if negb (C.streq buf libver) then
                ret (Some (write_errbuf errbuf errsize
                             ("extension '" ++ buf
                                ++ "' required, found extension '"
                                ++ libver ++ "'")))
              else ret None
          end
    end
  else
    eb <- skip_reason res errbuf errsize ;;
    ret (Some eb).

Definition SQL_VERSION : string :=
  "select repack.version(), repack.version_sql()".

(** The statement that acquires the target tables, and its parameters. *)
Definition tables_query (orderby table : cstring) : string * list cstring :=
  let sql := "SELECT * FROM repack.tables WHERE " in
  match table with
  | Some _ => (sql ++ "relid = $1::regclass", [table])
  | None =>
      let sql := sql ++ "pkid IS NOT NULL" in
      match orderby with
      | None => (sql ++ " AND ckid IS NOT NULL", [])
      | Some _ => (sql, [])
      end
  end.

(** Call repack_one_table for the target table or each table in a
    database.  The value is the returned flag with the final [errbuf]. *)
Definition repack_one_database (orderby table errbuf : cstring)
    (errsize : nat) : M (bool * cstring) :=
  reconnect ;;
  res <- execute_elevel (Some SQL_VERSION) [] DEBUG2 ;;
  verdict <- check_version res errbuf errsize ;;
  r <-
    match verdict with
    | Some eb => ret (false, eb)
    | None =>
        (* Disable statement timeout. *)
        command (Some "SET statement_timeout = 0") [] ;;
        (* Restrict search_path to system catalog. *)
        command (Some "SET search_path = pg_catalog, pg_temp, public") [] ;;
        (* To avoid annoying "create implicit ..." messages. *)
        command (Some "SET client_min_messages = warning") [] ;;
        (* acquire target tables *)
        let '(sql, params) := tables_query orderby table in
        res <- execute_elevel (Some sql) params DEBUG2 ;;
        (* on error skip the database *)
        if negb (ExecStatusType_eqb (PQresultStatus res) PGRES_TUPLES_OK) then
          eb <- skip_reason res errbuf errsize ;;
          ret (false, eb)
        else
          repack_tables_from res orderby 0 (List.length (tuples res)) ;;
          ret (true, errbuf)
    end ;;
  disconnect ;;
  ret r.

(** [char errbuf[256]] of the callers, before anything is written. *)
Definition fresh_errbuf : cstring := Some EmptyString.

Definition repack_database_at (orderby : cstring) (result : PGresult)
    (i : nat) : M unit :=
  modify (set_dbname (PQgetvalue result i 0)) ;;
  (if verbose then
     db <- get dbname ;;
     db <- arg_s db ;;
     printf (PROGRAM_NAME ++ ": repack database " ++ dquote ++ db ++ dquote)
   else ret tt) ;;
  r <- repack_one_database orderby None fresh_errbuf 256 ;;
  if verbose then
    if fst r then printf nl
    else
      eb <- arg_s (snd r) ;;
      printf (" ... skipped: " ++ eb ++ nl)
  else ret tt.

Fixpoint repack_databases_from (orderby : cstring) (result : PGresult)
    (i num : nat) : M unit :=
  match num with
  | O => ret tt
  | S num' =>
      repack_database_at orderby result i ;;
      repack_databases_from orderby result (S i) num'
  end.

(** Call repack_one_database for each database. *)
Definition repack_all_databases (orderby : cstring) : M unit :=
  modify (set_dbname (Some "postgres")) ;;
  reconnect ;;
  result <- execute
    (Some "SELECT datname FROM pg_database WHERE datallowconn ORDER BY 1;") [] ;;
  disconnect ;;
  repack_databases_from orderby result 0 (List.length (tuples result)).

End Client.

(** *** main *)

(** The option globals as [pgut_getopt] leaves them. *)
Record options : Type := mkOptions {
  alldb : bool;        (* -a, --all *)
  table : cstring;     (* -t, --table *)
  noorder : bool;      (* -n, --no-order *)
  orderby : cstring;   (* -o, --order-by *)
  wait_timeout : Z;    (* -T, --wait-timeout, 60 by default *)
  analyze : bool       (* -Z, --no-analyze clears it *)
}.

(** [main] from the return of [pgut_getopt] on: [args] is what is left of
    [argv] from index [i]. *)
Definition main (PROGRAM_NAME PROGRAM_VERSION : string) (verbose : bool)
    (o : options) (args : list string) : M Z :=
  (match args with
   | [] => ret tt
   | [db] => modify (set_dbname (Some db))
   | _ => ereport_error EINVAL "too many arguments"
   end) ;;
  let orderby := if noorder o then Some EmptyString else orderby o in
  (if alldb o then
     (match table o with
      | Some _ =>
          ereport_error EINVAL "cannot repack a specific table in all databases"
      | None => ret tt
      end) ;;
     repack_all_databases PROGRAM_NAME PROGRAM_VERSION (analyze o)
       (wait_timeout o) verbose orderby
   else
     r <- repack_one_database PROGRAM_NAME PROGRAM_VERSION (analyze o)
            (wait_timeout o) orderby (table o) fresh_errbuf 256 ;;
     if fst r then ret tt
     else
       eb <- arg_s (snd r) ;;
       ereport_error E_ERROR eb) ;;
  ret 0.

(** ** What the two [pg_locks] queries select

    [SQL_XID_SNAPSHOT] and [SQL_XID_ALIVE] read as relational
    expressions over the rows of [pg_locks], with SQL's three-valued
    logic ([None] is NULL). *)

Module PgLocks.

Record row : Type := mkRow {
  locktype : string;
  virtualxid : option string;
  virtualtransaction : string;
  pid : option Z
}.

Definition and3 (a b : option bool) : option bool :=
  match a, b with
  | Some false, _ | _, Some false => Some false
  | Some true, Some true => Some true
  | _, _ => None
  end.

Definition or3 (a b : option bool) : option bool :=
  match a, b with
  | Some true, _ | _, Some true => Some true
  | Some false, Some false => Some false
  | _, _ => None
  end.

(** A WHERE clause keeps the rows on which it is true. *)
Definition holds (a : option bool) : bool :=
  match a with
  | Some true => true
  | _ => false
  end.

Definition text_eq (a : option string) (b : string) : option bool :=
  option_map (fun a => String.eqb a b) a.

Definition text_ne (a : option string) (b : string) : option bool :=
  option_map (fun a => negb (String.eqb a b)) a.

Definition int_ne (a : option Z) (b : Z) : option bool :=
  option_map (fun a => negb (a =? b)) a.

(** [(a1, a2) <> (b1, b2)]: true when some pair differs. *)
Definition row_ne (a1 a2 : option string) (b1 b2 : string) : option bool :=
  or3 (text_ne a1 b1) (text_ne a2 b2).

(** [a = ANY(arr)] for an array without NULLs. *)
Definition eq_any (a : string) (arr : list string) : option bool :=
  Some (existsb (String.eqb a) arr).

(** WHERE locktype = 'virtualxid' AND pid <> pg_backend_pid()
    AND (virtualxid, virtualtransaction) <> ('1/1', '-1/0') *)
Definition snapshot_where (backend_pid : Z) (r : row) : option bool :=
  and3 (and3 (text_eq (Some (locktype r)) "virtualxid")
             (int_ne (pid r) backend_pid))
       (row_ne (virtualxid r) (Some (virtualtransaction r)) "1/1" "-1/0").

(** SELECT repack.array_accum(virtualtransaction) FROM pg_locks WHERE ... *)
Definition xid_snapshot (backend_pid : Z) (pg_locks : list row) : list string :=
  map virtualtransaction
      (filter (fun r => holds (snapshot_where backend_pid r)) pg_locks).

(** WHERE locktype = 'virtualxid' AND pid <> pg_backend_pid()
    AND virtualtransaction = ANY($1) *)
Definition alive_where (backend_pid : Z) (vxids : list string) (r : row)
  : option bool :=
  and3 (and3 (text_eq (Some (locktype r)) "virtualxid")
             (int_ne (pid r) backend_pid))
       (eq_any (virtualtransaction r) vxids).

(** SELECT pid FROM pg_locks WHERE ... *)
Definition xid_alive (backend_pid : Z) (vxids : list string)
    (pg_locks : list row) : list (option Z) :=
  map pid (filter (fun r => holds (alive_where backend_pid vxids r)) pg_locks).

(** The lock of the bgwriter on newly promoted servers. *)
Definition is_sentinel (r : row) : bool :=
  match virtualxid r with
  | Some x => String.eqb x "1/1" && String.eqb (virtualtransaction r) "-1/0"
  | None => false
  end.

Definition sentinel_clause : string :=
  " AND (virtualxid, virtualtransaction) <> ('1/1', '-1/0')".

End PgLocks.

(** * Vocabulary of the properties

    Predicates on runs, the scripts the spec prescribes, and a concrete
    database to try the properties on. *)

Definition is_ok {A} (o : outcome A) : bool :=
  match o with
  | Ok _ _ => true
  | _ => false
  end.

(** The session statements go to from a state; 0 stands in when there is
    no connection, in which case nothing is sent at all. *)
Definition session_of (s : state) : nat :=
  match connection s with
  | Some c => conn_id c
  | None => 0%nat
  end.

(** An event that is no statement, or a statement sent on session [c];
    opening and closing sessions is neither. *)
Definition on_session (c : nat) (e : event) : Prop :=
  match e with
  | Query c' _ _ => c' = c
  | Connect _ _ | Disconnect _ => False
  | _ => True
  end.

(** [s'] comes after [s] in a run that kept the session, sent every
    statement on it, and took replies only from those [s] still had. *)
Definition extends (s s' : state) : Prop :=
  connection s' = connection s /\
  (List.length (replies s') <= List.length (replies s))%nat /\
  exists d, trace s' = (trace s ++ d)%list /\
            Forall (on_session (session_of s)) d.

(** [m] keeps the session, and only adds to the trace. *)
Definition steady {A} (m : M A) : Prop :=
  forall s, extends s (final (m s)).

(** From [s], [m] does the events of [L] in order, stopping early only
    when it does not return; it keeps the session. *)
Definition performs {A} (m : M A) (s : state) (L : list event) : Prop :=
  connection (final (m s)) = connection s /\
  exists k, (k <= List.length L)%nat /\
            trace (final (m s)) = (trace s ++ firstn k L)%list /\
            (is_ok (m s) = true -> k = List.length L).

(** The state once a statement has gone out on session [c] and the head
    of the replies has come back. *)
Definition answered (c : PGconn) (q : string) (ps : list cstring)
    (rs : list PGresult) (s : state) : state :=
  set_replies rs (log_event (Query (conn_id c) q ps) s).

(** The statements of a list in order on session [c], up to the first
    that is a NULL pointer: [command(NULL)] ends the process. *)
Fixpoint statements (c : nat) (qs : list cstring) : list event :=
  match qs with
  | [] => []
  | None :: _ => []
  | Some q :: qs' => Query c q [] :: statements c qs'
  end.

(** Steps 6 to 12 of the shadow builder as the spec lists them. *)
Definition copy_statements (table : repack_table) (orderby : cstring)
  : list cstring :=
  [Some SQL_BEGIN_SERIALIZABLE; Some SQL_SET_WORK_MEM] ++
  (match orderby with
   | Some EmptyString => [Some "SET LOCAL synchronize_seqscans = off"]
   | _ => []
   end) ++
  [Some SQL_XID_SNAPSHOT; delete_log table; create_table table] ++
  (match drop_columns table with
   | Some dc => [Some dc]
   | None => []
   end) ++
  [Some ("SELECT repack.disable_autovacuum('repack.table_"
           ++ utoa (target_oid table) ++ "')");
   Some "COMMIT"].

Definition copy_script (c : nat) (table : repack_table) (orderby : cstring)
  : list event :=
  statements c (copy_statements table orderby).

Definition apply_params (t : repack_table) (count : Z) : list cstring :=
  [sql_peek t; sql_insert t; sql_delete t; sql_update t; sql_pop t;
   Some (utoa count)].

(** What [apply_log] returns on the reply [r] of the server. *)
Definition apply_count (r : PGresult) : option Z :=
  option_map C.atoi (PQgetvalue r 0 0).

(** [continues t vxid nw s nw' s']: from [s] with [num_waiting = nw], some
    passes of the loop body, each ending in [continue], lead to [s'] with
    [num_waiting = nw']. *)
Inductive continues (t : repack_table) (vxid : string)
  : Z -> state -> Z -> state -> Prop :=
| continues_here nw s : continues t vxid nw s nw s
| continues_pass nw s nw1 s1 nw' s' :
    drain_pass t vxid nw s = Ok (Continue, nw1) s1 ->
    continues t vxid nw1 s1 nw' s' ->
    continues t vxid nw s nw' s'.



(** [m] adds to the trace only events that satisfy [P]. *)
Definition emits_only (P : event -> Prop) {A} (m : M A) : Prop :=
  forall s, exists d, trace (final (m s)) = (trace s ++ d)%list /\ Forall P d.

(** A statement without parameters, or an event that is no statement. *)
Definition without_parameters (e : event) : Prop :=
  match e with
  | Query _ _ (_ :: _) => False
  | _ => True
  end.

(** What [escalate] adds to the trace on session [c]. *)
Definition escalation_events (c : nat) (wait_timeout version duration : Z)
    (relid : string) : list event :=
  if duration >? wait_timeout then
    if (version >=? 80400) && (duration >? C.wrap_int (wait_timeout * 2)) then
      [Elog WARNING "terminating conflicted backends";
       Query c SQL_TERMINATE [Some relid]]
    else
      [Elog WARNING "canceling conflicted backends";
       Query c SQL_CANCEL [Some relid]]
  else [].


(** The state of an attempt once the SET LOCAL and the lock statement
    have been answered. *)
Definition lock_tried (c : PGconn) (w : Z) (lq : string)
    (rs : list PGresult) (s : state) : state :=
  answered c lq [] rs (answered c (set_timeout_sql w) [] rs s).

(** A shape of what [escalate] may add: nothing, or a warning followed
    by the cancel or the terminate query. *)
Definition is_escalation (c : nat) (relid : string) (esc : list event) : Prop :=
  esc = []
  \/ esc = [Elog WARNING "canceling conflicted backends";
            Query c SQL_CANCEL [Some relid]]
  \/ esc = [Elog WARNING "terminating conflicted backends";
            Query c SQL_TERMINATE [Some relid]].

Module SentinelExample.

Import PgLocks.

(** The lock of the bgwriter, held by backend 7. *)
Definition sentinel : row :=
  mkRow "virtualxid" (Some "1/1") "-1/0" (Some 7).

(** Another virtual xid lock of the same virtual transaction. *)
Definition other_lock : row :=
  mkRow "virtualxid" (Some "3/9") "-1/0" (Some 7).

(** [pg_locks] when the snapshot is captured, and when it is polled. *)
Definition at_capture : list row := [sentinel; other_lock].
Definition at_poll : list row := [sentinel].

End SentinelExample.

(** The state once [reconnect] has opened session [sessions s]. *)
Definition connected (s : state) : state :=
  set_connection (Some (mkPGconn (sessions s) true)) (S (sessions s))
                 (log_event (Connect (sessions s) (dbname s)) s).

Definition disconnected (s : state) : state :=
  set_connection None (sessions s)
                 (log_event (Disconnect (session_of s)) s).

Definition no_primary_key_error (name : string) : termination :=
  ereport_ERROR E_PG_COMMAND
    ("relation " ++ dquote ++ name ++ dquote
       ++ " must have a primary key or not-null unique keys").


(** The state in which [repack_one_database] starts on the rows, its
    first five statements answered. *)
Definition enumerated (orderby table : cstring) (rs : list PGresult)
    (s : state) : state :=
  let c := mkPGconn (sessions s) true in
  answered c (fst (tables_query orderby table))
    (snd (tables_query orderby table)) rs
    (answered c "SET client_min_messages = warning" [] rs
       (answered c "SET search_path = pg_catalog, pg_temp, public" [] rs
          (answered c "SET statement_timeout = 0" [] rs
             (answered c SQL_VERSION [] rs (connected s))))).

Definition opens_transaction (sql : string) : bool := prefix "BEGIN" sql.

Definition closes_transaction (sql : string) : bool :=
  String.eqb sql "COMMIT" || String.eqb sql "ROLLBACK".

(** Whether session [c] is inside a transaction after the events of
    [tr], when it was ([open = true]) or was not before them. *)
Fixpoint in_transaction (c : nat) (tr : list event) (open : bool) : bool :=
  match tr with
  | [] => open
  | Query c' sql _ :: tr' =>
      if (c' =? c)%nat then
        if opens_transaction sql then in_transaction c tr' true
        else if closes_transaction sql then in_transaction c tr' false
        else in_transaction c tr' open
      else in_transaction c tr' open
  | Connect c' _ :: tr' | Disconnect c' :: tr' =>
      if (c' =? c)%nat then in_transaction c tr' false
      else in_transaction c tr' open
  | _ :: tr' => in_transaction c tr' open
  end.

(** The claim in the words of the spec: whenever the cancel or the
    terminate query is sent, the session that carries it is not inside a
    transaction of the lock attempt. *)
Definition escalation_outside_transaction (tr : list event) : Prop :=
  forall pre c q relid post,
    tr = (pre ++ Query c q [Some relid] :: post)%list ->
    q = SQL_CANCEL \/ q = SQL_TERMINATE ->
    in_transaction c pre false = false.

Module BlockedExample.

(** A run of [lock_exclusive] with [wait_timeout = 60] that starts at
    second 0 and enters its first attempt at second 100, on session 0,
    with every statement answered at once. *)
Definition blocked : state :=
  mkState [command_ok; command_ok; command_ok; command_ok; command_ok]
          [0; 100] true 90100 1 (Some (mkPGconn 0 true)) (Some "db") [] [].

Definition job : repack_table :=
  mkTable (Some "public.t") 16384 0 0 16390 0
          (Some "CREATE TYPE repack.pk_16384 AS (id integer)")
          (Some "CREATE TABLE repack.log_16384 (id bigserial PRIMARY KEY)")
          (Some "CREATE TRIGGER z_repack_trigger BEFORE INSERT ON public.t")
          (Some "ALTER TABLE public.t ENABLE ALWAYS TRIGGER z_repack_trigger")
          (Some "CREATE TABLE repack.table_16384 AS SELECT * FROM ONLY public.t")
          None
          (Some "DELETE FROM repack.log_16384")
          (Some "LOCK TABLE public.t IN ACCESS EXCLUSIVE MODE")
          (Some "SELECT * FROM repack.log_16384 ORDER BY id LIMIT $1")
          (Some "INSERT INTO repack.table_16384 VALUES ($1.*)")
          (Some "DELETE FROM repack.table_16384 WHERE (id) = ($1.id)")
          (Some "UPDATE repack.table_16384 SET (id) = ($2.id) WHERE (id) = ($1.id)")
          (Some "DELETE FROM repack.log_16384 WHERE id <= $1").

End BlockedExample.

(** [m] only adds to the trace. *)
Definition grows {A} (m : M A) : Prop :=
  forall s, exists d, trace (final (m s)) = (trace s ++ d)%list.

Module RunExample.

(** A session already open on database "db", with the replies and the
    clock readings to come. *)
Definition serving (rs : list PGresult) (ck : list Z) : state :=
  mkState rs ck true 90100 1 (Some (mkPGconn 0 true)) (Some "db") [] [].

(** The client before it has connected. *)
Definition fresh (rs : list PGresult) (ck : list Z) : state :=
  mkState rs ck true 90100 0 None None [] [].

Definition job : repack_table := BlockedExample.job.

(** The row of [repack.tables] for [job]. *)
Definition job_row : list (option string) :=
  [target_name job; Some "16384"; None; None; Some "16390"; None;
   create_pktype job; create_log job; create_trigger job; enable_trigger job;
   create_table job; None; delete_log job; lock_table job; None;
   sql_peek job; sql_insert job; sql_delete job; sql_update job; sql_pop job].

(** A row for a table without primary key. *)
Definition nopk_row : list (option string) :=
  [Some "public.nopk"; Some "16400"; None; None; None; None].

Definition void : PGresult := tuples_ok [[None]].

Definition version_reply (lib ext : string) : PGresult :=
  tuples_ok [[Some lib; Some ext]].

Definition canceled : PGresult :=
  server_error "57014" "ERROR:  canceling statement due to statement timeout".

(** What the server answers during one whole run on [job]. *)
Definition whole_run : list PGresult :=
  [version_reply "pg_repack 1.1.8" "pg_repack 1.1.8";
   command_ok; command_ok; command_ok; tuples_ok [job_row]]
  (* setup: BEGIN, SET LOCAL, LOCK fails once, ROLLBACK, then again *)
  ++ [command_ok; command_ok; canceled; command_ok;
      command_ok; command_ok; command_ok; command_ok;
      tuples_ok []; command_ok; command_ok; command_ok; command_ok;
      void; command_ok]
  (* copy *)
  ++ [command_ok; void; command_ok; tuples_ok [[Some "{2/5}"]];
      command_ok; command_ok; void; command_ok]
  (* indexes *)
  ++ [tuples_ok [[Some "16391"; Some "CREATE UNIQUE INDEX index_16391 ON repack.table_16384 (id)";
                  Some "t"; Some "CREATE UNIQUE INDEX t_pkey ON public.t (id)"]];
      command_ok]
  (* drain *)
  ++ [tuples_ok [[Some "5"]]; tuples_ok [[Some "0"]]; tuples_ok [[Some "77"]];
      tuples_ok [[Some "0"]]; tuples_ok []]
  (* swap *)
  ++ [command_ok; command_ok; command_ok; command_ok;
      tuples_ok [[Some "0"]]; void; command_ok]
  (* drop *)
  ++ [command_ok; void; command_ok]
  (* analyze *)
  ++ [command_ok; command_ok; command_ok].

Definition both_order_options : options :=
  mkOptions false (Some "public.t") true (Some "id DESC") 60 true.

End RunExample.

(** The reason [repack_one_database] gives for skipping a database on a
    failed query [r] whose SQLSTATE is [st]. *)
Definition skip_message (PROGRAM_NAME : string) (r : PGresult) (st : string)
  : string :=
  if String.eqb st "3F000"
  then PROGRAM_NAME ++ " is not installed in the database"
  else errmsg r.

(** The database [main] connects to: the one named on the command line,
    or the one [dbname] already holds. *)
Definition target_database (args : list string) (s : state) : cstring :=
  match args with
  | [db] => Some db
  | _ => dbname s
  end.

(** The reason given for skipping a database whose probe got the failed
    reply [r]. *)
Definition reason_of (PROGRAM_NAME : string) (r : PGresult) : string :=
  match sqlstate r with
  | Some st => skip_message PROGRAM_NAME r st
  | None => EmptyString
  end.

(** What [repack_all_databases] leaves in the trace for a database [db]
    that it skips on session [k], its probe answered by [r]. *)
Definition skipped_visit (PROGRAM_NAME : string) (verbose : bool) (k : nat)
    (db : string) (r : PGresult) : list event :=
  ((if verbose
    then [Printf (PROGRAM_NAME ++ ": repack database "
                    ++ dquote ++ db ++ dquote)]
    else [])
   ++ [Connect k (Some db); Query k SQL_VERSION []; Disconnect k]
   ++ (if verbose
       then [Printf (" ... skipped: "
                       ++ C.snprintf 256 (reason_of PROGRAM_NAME r) ++ nl)]
       else []))%list.

Fixpoint skipped_visits (PROGRAM_NAME : string) (verbose : bool) (k : nat)
    (dbs : list string) (rs : list PGresult) : list event :=
  match dbs, rs with
  | db :: dbs', r :: rs' =>
      (skipped_visit PROGRAM_NAME verbose k db r
         ++ skipped_visits PROGRAM_NAME verbose (S k) dbs' rs')%list
  | _, _ => []
  end.

(** A failed reply that carries an SQLSTATE. *)
Definition failed_with_sqlstate (r : PGresult) : Prop :=
  PQresultStatus r <> PGRES_TUPLES_OK /\ sqlstate r <> None.

Definition SQL_DATABASES : string :=
  "SELECT datname FROM pg_database WHERE datallowconn ORDER BY 1;".

(** [m] leaves pgut's stack of cleanup callbacks as it found it. *)
Definition keeps_hooks {A} (m : M A) : Prop :=
  forall s, atexit (final (m s)) = atexit s.

Definition SQL_CONFLICTED_TRIGGERS : string :=
  "SELECT repack.conflicted_triggers($1)".

(** Steps 2 to 6 of [repack_one_table]: what runs between the
    registration of the cleanup hook and its removal. *)
Definition guarded_steps (wait_timeout : Z) (t : repack_table)
    (orderby : cstring) : M unit :=
  vxid <- copy_tuples t orderby ;;
  create_indexes t ;;
  drain_log t vxid ;;
  swap wait_timeout t ;;
  drop t.

(** The text of column [col] of a row, when it is there and not NULL. *)
Definition text_at (row : list (option string)) (col : nat) : cstring :=
  match nth_error row col with
  | Some (Some v) => Some v
  | _ => None
  end.

(** What [create_indexes] does with one row of the index query on
    session [c]: a warning for an index that is not valid, the statement
    that rebuilds it otherwise; nothing when the text it needs is NULL,
    and the process stops there. *)
Definition index_event (c : nat) (row : list (option string)) : option event :=
  match text_at row 2 with
  | Some (String "f" _) =>
      match text_at row 3 with
      | Some def => Some (Elog WARNING ("skipping invalid index: " ++ def))
      | None => None
      end
  | _ =>
      match text_at row 1 with
      | Some sql => Some (Query c sql [])
      | None => None
      end
  end.

Fixpoint index_script (c : nat) (rows : list (list (option string)))
  : list event :=
  match rows with
  | [] => []
  | row :: rows' =>
      match index_event c row with
      | Some e => e :: index_script c rows'
      | None => []
      end
  end.

Module SwapExample.

(** The server lets the lock through at the first attempt and reports
    an empty log. *)
Definition ready : state :=
  RunExample.serving
    [command_ok; command_ok; command_ok; command_ok;
     tuples_ok [[Some "0"]]; RunExample.void; command_ok] [0; 0].

End SwapExample.

(** A reply of [repack_apply] that reports nothing applied. *)
Definition log_empty (r : PGresult) : Prop :=
  query_succeeded r = true /\ exists k, apply_count r = Some k /\ k <= 0.

(** A reply of the poll for old transactions that shows [n] of them. *)
Definition polls (n : Z) (r : PGresult) : Prop :=
  query_succeeded r = true /\ PQntuples r = n.

(** The replies to some passes of the drain loop, one pair a pass. *)
Definition pass_replies (ps : list (PGresult * PGresult)) : list PGresult :=
  flat_map (fun p => [fst p; snd p]) ps.

(** The two statements of a pass of the drain loop that polls. *)
Definition poll_pass (c : nat) (t : repack_table) (vxid : string)
  : list event :=
  [Query c SQL_APPLY (apply_params t APPLY_COUNT);
   Query c SQL_XID_ALIVE [Some vxid]].

(** [k] passes that poll and sleep without a message. *)
Fixpoint quiet_passes (c : nat) (t : repack_table) (vxid : string) (k : nat)
  : list event :=
  match k with
  | O => []
  | S k' => (poll_pass c t vxid ++ [Sleep 1]
               ++ quiet_passes c t vxid k')%list
  end.

Module WaitExample.

Definition empty_log : PGresult := tuples_ok [[Some "0"]].
Definition one_old : PGresult := tuples_ok [[Some "4242"]].
Definition none_old : PGresult := tuples_ok [].

(** Two polls find the old transaction of backend 4242, the third finds
    none. *)
Definition waiting : state :=
  RunExample.serving
    [empty_log; one_old; empty_log; one_old; empty_log; none_old] [].

End WaitExample.

(** The value of [i] in pass [k] (from 0) of the loop of
    [lock_exclusive]. *)
Definition attempt_number (k : nat) : Z :=
  Nat.iter k (fun i => C.wrap_int (i + 1)) 1.

(** An attempt of [lock_exclusive] that was canceled and rolled back. *)
Definition failed_attempt (c : nat) (lock : string) (i : Z)
    (esc : list event) : list event :=
  ([Query c SQL_BEGIN_READ_COMMITTED []] ++ esc
     ++ [Query c (set_timeout_sql (C.Min 1000 (C.wrap_int (i * 100)))) [];
         Query c lock [];
         Query c "ROLLBACK" []])%list.

(** The failed attempts from pass [k] on, one for each element of
    [escs], which is what the escalation added to it. *)
Fixpoint retries (c : nat) (lock : string) (k : nat)
    (escs : list (list event)) : list event :=
  match escs with
  | [] => []
  | esc :: escs' =>
      (failed_attempt c lock (attempt_number k) esc
         ++ retries c lock (S k) escs')%list
  end.

Module RetryExample.

(** The lock statement is canceled once and goes through at the second
    attempt. *)
Definition contended : state :=
  RunExample.serving
    [command_ok; command_ok; RunExample.canceled; command_ok;
     command_ok; command_ok; command_ok; command_ok] [0; 0; 0].

Definition locked : state :=
  final (lock_exclusive 60 "16384" (lock_table RunExample.job) contended).

End RetryExample.

Definition SQL_REPACK_DROP : string := "SELECT repack.repack_drop($1)".

(** Step 7 on session [c]: nothing unless [analyze] is set. *)
Definition analyze_script (c : nat) (analyze : bool) (name : string)
  : list event :=
  if analyze then
    [Query c SQL_BEGIN_READ_COMMITTED [];
     Query c ("ANALYZE " ++ name) [];
     Query c "COMMIT" []]
  else [].

Module SetupExample.

(** The lock goes through at the first attempt, no trigger conflicts,
    and every statement of the setup is accepted. *)
Definition ready : state :=
  RunExample.serving
    [command_ok; command_ok; command_ok; command_ok;
     tuples_ok []; command_ok; command_ok; command_ok;
     command_ok; RunExample.void; command_ok] [0; 0].

Definition prepared : state :=
  final (setup_workspace 60 RunExample.job ready).

End SetupExample.

Module TableExample.

(** The part of [RunExample.whole_run] that answers the work on the one
    table, in a session that is already open. *)
Definition start : state :=
  RunExample.serving (skipn 5 RunExample.whole_run) [0; 0; 0; 0; 0].

Definition done : state :=
  final (repack_one_table true 60 RunExample.job (Some EmptyString) start).

End TableExample.











(** The SET LOCAL of attempt [i] in the words of the spec. *)
Definition set_timeout_by_spec (i : Z) : string :=
  "SET LOCAL statement_timeout = " ++ C.fmt_d (Z.min 1000 (i * 100)).

(** The canceled attempts from attempt [i] on, in the words of the
    spec. *)
Fixpoint retries_by_spec (c : nat) (lock : string) (i : Z)
    (escs : list (list event)) : list event :=
  match escs with
  | [] => []
  | esc :: escs' =>
      ([Query c SQL_BEGIN_READ_COMMITTED []] ++ esc
         ++ [Query c (set_timeout_by_spec i) [];
             Query c lock [];
             Query c "ROLLBACK" []]
         ++ retries_by_spec c lock (i + 1) escs')%list
  end.

(** What an attempt does once its lock statement is answered by [r]
    (lines 710-728). *)
Definition after_lock (r : PGresult) : M loop_step :=
  if ExecStatusType_eqb (PQresultStatus r) PGRES_COMMAND_OK then ret Break
  else
    canceled <- sqlstate_equals r SQLSTATE_QUERY_CANCELED ;;
    if canceled then command (Some "ROLLBACK") [] ;; ret Continue
    else printf (errmsg r) ;; exit 1.

Module EscalationExample.


(** The first attempt, 10 seconds after the start, is canceled; the
    second begins 100 seconds after the start. *)
Definition contended : state :=
  RunExample.serving
    [command_ok; command_ok; RunExample.canceled; command_ok;
     command_ok; command_ok; command_ok; command_ok; command_ok]
    [0; 10; 100].



End EscalationExample.

Module LostConnectionExample.



End LostConnectionExample.

Module RetryScript.



End RetryScript.

(** Which of the replies left at the start of the copy step answers the
    snapshot query: BEGIN, the work_mem setting and, in vacuum-full mode,
    the synchronize_seqscans setting come before it. *)
Definition snapshot_position (orderby : cstring) : nat :=
  match orderby with
  | Some EmptyString => 3
  | _ => 2
  end.

Module CopyExample.

Definition ready : state :=
  RunExample.serving
    [command_ok; RunExample.void; tuples_ok [[Some "{2/5}"]];
     command_ok; command_ok; RunExample.void; command_ok] [].

End CopyExample.


Module NoOrderExample.

(** The run of [RunExample.whole_run] under --no-order and
    --order-by "id DESC". *)
Definition start : state :=
  RunExample.fresh RunExample.whole_run [0; 0; 1; 7; 7].


End NoOrderExample.

(** What [repack_all_databases] leaves in the trace for a database [db]
    on session [k] when the run stops at its probe. *)
Definition stopped_visit (PROGRAM_NAME : string) (verbose : bool) (k : nat)
    (db : string) : list event :=
  ((if verbose
    then [Printf (PROGRAM_NAME ++ ": repack database "
                    ++ dquote ++ db ++ dquote)]
    else [])
   ++ [Connect k (Some db); Query k SQL_VERSION []])%list.

(** A row of the index query that carries the text the loop reads from
    it. *)
Definition has_index_text (row : list (option string)) : Prop :=
  index_event 0 row <> None.

(** * Properties *)

(** ** Reasoning about runs *)

Lemma extends_refl s : extends s s.
Proof.
  split; [reflexivity|]. split; [apply le_n|].
  exists []. now rewrite app_nil_r.
Qed.

Lemma extends_trans s1 s2 s3 : extends s1 s2 -> extends s2 s3 -> extends s1 s3.
Proof.
  intros [C1 [L1 [d1 [T1 F1]]]] [C2 [L2 [d2 [T2 F2]]]].
  split; [congruence|]. split; [lia|].
  exists (d1 ++ d2)%list. split; [now rewrite T2, T1, app_assoc|].
  apply Forall_app. split; [assumption|].
  unfold session_of in *. now rewrite C1 in F2.
Qed.

Lemma bind_Ok_inv {A B} (m : M A) (k : A -> M B) s b s' :
  bind m k s = Ok b s' -> exists a s1, m s = Ok a s1 /\ k a s1 = Ok b s'.
Proof.
  unfold bind. destruct (m s) as [a s1| | |]; try discriminate. eauto.
Qed.

Lemma bind_Ok {A B} (m : M A) (k : A -> M B) s a s1 :
  m s = Ok a s1 -> bind m k s = k a s1.
Proof. unfold bind. now intros ->. Qed.

Lemma bind_not_ok {A B} (m : M A) (k : A -> M B) s :
  is_ok (m s) = false ->
  final (bind m k s) = final (m s) /\ is_ok (bind m k s) = false.
Proof. unfold bind. destruct (m s); simpl; intros; try discriminate; auto. Qed.

Lemma steady_ret {A} (a : A) : steady (ret a).
Proof. intros s. apply extends_refl. Qed.

Lemma steady_bind {A B} (m : M A) (k : A -> M B) :
  steady m -> (forall a, steady (k a)) -> steady (bind m k).
Proof.
  intros Hm Hk s. specialize (Hm s). unfold bind.
  destruct (m s) as [a s1| | |]; simpl in *; auto.
  eapply extends_trans; [exact Hm | apply Hk].
Qed.

Lemma steady_get {A} (f : state -> A) : steady (get f).
Proof. intros s. apply extends_refl. Qed.

Lemma steady_emit e : (forall c, on_session c e) -> steady (emit e).
Proof.
  intros H s. split; [reflexivity|]. split; [apply le_n|].
  exists [e]. split; [reflexivity|].
  constructor; [apply H | constructor].
Qed.

Lemma steady_undefined {A} : steady (@undefined A).
Proof. intros s. apply extends_refl. Qed.

Lemma steady_running {A} : steady (@running A).
Proof. intros s. apply extends_refl. Qed.

Lemma steady_exit {A} code : steady (@exit A code).
Proof. intros s. apply extends_refl. Qed.

Lemma steady_ereport_error {A} code msg : steady (@ereport_error A code msg).
Proof. intros s. apply extends_refl. Qed.

Lemma steady_elog level msg : steady (elog level msg).
Proof.
  destruct level; simpl; try apply steady_ret;
    apply steady_emit; intros; exact I.
Qed.

Lemma steady_time : steady time.
Proof.
  intros s. unfold time. destruct (clock s); simpl; [apply extends_refl|].
  split; [reflexivity|]. split; [apply le_n|].
  exists []. now rewrite app_nil_r.
Qed.

Lemma steady_arg_s a : steady (arg_s a).
Proof. destruct a; [apply steady_ret | apply steady_undefined]. Qed.

Lemma steady_sqlstate_equals res st : steady (sqlstate_equals res st).
Proof.
  unfold sqlstate_equals.
  destruct (PQresultErrorField_SQLSTATE res); [apply steady_ret | apply steady_undefined].
Qed.

Lemma steady_PQexecParams q ps : steady (PQexecParams q ps).
Proof.
  intros s. unfold PQexecParams.
  destruct (connection s) as [c|] eqn:C, q as [q|]; simpl; try apply extends_refl.
  destruct (replies s) as [|r rs] eqn:R;
    cbn [final connection replies trace set_replies log_event];
    (split; [reflexivity|]; split; [simpl; rewrite ?R; simpl; lia|];
     exists [Query (conn_id c) q ps]; split; [reflexivity|];
     constructor; [|constructor]; unfold session_of; now rewrite C).
Qed.

Lemma steady_PQserverVersion : steady PQserverVersion.
Proof.
  unfold PQserverVersion. apply steady_bind; [apply steady_get|].
  intros [c|]; [apply steady_get | apply steady_ret].
Qed.

Create HintDb steady discriminated.
#[export] Hint Resolve steady_ret steady_get steady_undefined
  steady_running steady_exit steady_ereport_error steady_elog steady_time
  steady_arg_s steady_sqlstate_equals steady_PQexecParams
  steady_PQserverVersion : steady.

(** Walks through a piece of client code: one rule per construct. *)
Ltac steady_step :=
  match goal with
  | |- steady (bind _ _) => apply steady_bind; [| intros ?]
  | |- steady (if ?b then _ else _) => destruct b
  | |- steady (match ?x with _ => _ end) => destruct x
  | |- steady (let '(_, _) := ?p in _) => destruct p
  | |- steady _ => solve [auto with steady]
  end.

Ltac steady_tac := repeat steady_step.

Lemma steady_execute_elevel q ps level : steady (execute_elevel q ps level).
Proof. unfold execute_elevel. steady_tac. Qed.

Lemma steady_execute q ps : steady (execute q ps).
Proof. apply steady_execute_elevel. Qed.

Lemma steady_command q ps : steady (command q ps).
Proof. unfold command. steady_tac. apply steady_execute. Qed.

#[export] Hint Resolve steady_execute_elevel steady_execute steady_command : steady.

Lemma steady_printf msg : steady (printf msg).
Proof. apply steady_emit. intros; exact I. Qed.

Lemma steady_sleep n : steady (sleep n).
Proof. apply steady_emit. intros; exact I. Qed.

Lemma steady_pgut_atexit_push t : steady (pgut_atexit_push t).
Proof.
  intros s. split; [reflexivity|]. split; [apply le_n|].
  exists [AtexitPush t].
  split; [reflexivity | repeat constructor].
Qed.

Lemma steady_pgut_atexit_pop t : steady (pgut_atexit_pop t).
Proof.
  intros s. split; [reflexivity|]. split; [apply le_n|].
  exists [AtexitPop t].
  split; [reflexivity | repeat constructor].
Qed.

#[export] Hint Resolve steady_printf steady_sleep steady_pgut_atexit_push
  steady_pgut_atexit_pop : steady.

Section SteadyClient.

Variable analyze : bool.
Variable wait_timeout : Z.

Lemma steady_escalate d relid : steady (escalate wait_timeout d relid).
Proof. unfold escalate. steady_tac. Qed.

Lemma steady_begin_attempt start relid :
  steady (begin_attempt wait_timeout start relid).
Proof. unfold begin_attempt. steady_tac. apply steady_escalate. Qed.

Lemma steady_try_lock i lq : steady (try_lock i lq).
Proof. unfold try_lock. steady_tac. Qed.

Lemma steady_lock_attempt start i relid lq :
  steady (lock_attempt wait_timeout start i relid lq).
Proof.
  unfold lock_attempt. steady_tac;
    auto using steady_begin_attempt, steady_try_lock.
Qed.

Lemma steady_lock_exclusive_loop fuel : forall start i relid lq,
  steady (lock_exclusive_loop wait_timeout fuel start i relid lq).
Proof.
  induction fuel as [|fuel IH]; intros; simpl; steady_tac;
    auto using steady_lock_attempt.
Qed.

Lemma steady_lock_exclusive relid lq :
  steady (lock_exclusive wait_timeout relid lq).
Proof.
  unfold lock_exclusive. steady_tac. apply steady_lock_exclusive_loop.
Qed.

Lemma steady_apply_log t count : steady (apply_log t count).
Proof. unfold apply_log. steady_tac. Qed.

Hint Resolve steady_lock_exclusive steady_apply_log : steady.

Lemma steady_setup_workspace t : steady (setup_workspace wait_timeout t).
Proof. unfold setup_workspace. steady_tac. Qed.

Lemma steady_copy_tuples t orderby : steady (copy_tuples t orderby).
Proof. unfold copy_tuples. steady_tac. Qed.

Lemma steady_create_one_index res i : steady (create_one_index res i).
Proof. unfold create_one_index. steady_tac. Qed.

Lemma steady_create_indexes_from res num : forall i,
  steady (create_indexes_from res i num).
Proof.
  induction num as [|num IH]; intros; simpl; steady_tac;
    auto using steady_create_one_index.
Qed.

Lemma steady_create_indexes t : steady (create_indexes t).
Proof. unfold create_indexes. steady_tac. apply steady_create_indexes_from. Qed.

Lemma steady_drain_pass t vxid nw : steady (drain_pass t vxid nw).
Proof. unfold drain_pass. steady_tac. Qed.

Lemma steady_drain_loop fuel : forall t vxid nw,
  steady (drain_loop fuel t vxid nw).
Proof.
  induction fuel as [|fuel IH]; intros; simpl; steady_tac;
    auto using steady_drain_pass.
Qed.

Lemma steady_drain_log t vxid : steady (drain_log t vxid).
Proof. unfold drain_log. steady_tac. apply steady_drain_loop. Qed.

Lemma steady_swap t : steady (swap wait_timeout t).
Proof. unfold swap. steady_tac. Qed.

Lemma steady_drop t : steady (drop t).
Proof. unfold drop. steady_tac. Qed.

Lemma steady_analyze_table t : steady (analyze_table analyze t).
Proof. unfold analyze_table. steady_tac. Qed.

End SteadyClient.

(** *** Statements, one at a time *)

Lemma PQexecParams_run c q ps s :
  connection s = Some c ->
  PQexecParams (Some q) ps s =
    match replies s with
    | r :: rs => Ok r (answered c q ps rs s)
    | [] => Running (log_event (Query (conn_id c) q ps) s)
    end.
Proof. unfold PQexecParams. now intros ->. Qed.

Lemma execute_run c q ps s :
  connection s = Some c ->
  execute (Some q) ps s =
    match replies s with
    | r :: rs =>
        if query_succeeded r then Ok r (answered c q ps rs s)
        else Exit (ereport_ERROR E_PG_COMMAND ("query failed: " ++ errmsg r))
                  (answered c q ps rs s)
    | [] => Running (log_event (Query (conn_id c) q ps) s)
    end.
Proof.
  intros C. unfold execute, execute_elevel, bind.
  rewrite (PQexecParams_run c) by assumption.
  destruct (replies s) as [|r rs]; [reflexivity|].
  now destruct (query_succeeded r).
Qed.

Lemma command_run c q ps s :
  connection s = Some c ->
  command (Some q) ps s =
    match replies s with
    | r :: rs =>
        if query_succeeded r then Ok tt (answered c q ps rs s)
        else Exit (ereport_ERROR E_PG_COMMAND ("query failed: " ++ errmsg r))
                  (answered c q ps rs s)
    | [] => Running (log_event (Query (conn_id c) q ps) s)
    end.
Proof.
  intros C. unfold command, bind. rewrite (execute_run c) by assumption.
  destruct (replies s) as [|r rs]; [reflexivity|].
  now destruct (query_succeeded r).
Qed.

Lemma execute_elevel_DEBUG2_run c q ps s :
  connection s = Some c ->
  execute_elevel (Some q) ps DEBUG2 s =
    match replies s with
    | r :: rs => Ok r (answered c q ps rs s)
    | [] => Running (log_event (Query (conn_id c) q ps) s)
    end.
Proof.
  intros C. unfold execute_elevel, bind.
  rewrite (PQexecParams_run c) by assumption.
  destruct (replies s) as [|r rs]; [reflexivity|].
  now destruct (query_succeeded r).
Qed.

(** Without a connection, or without a statement, nothing is sent and
    [execute] ends the process. *)
Lemma execute_nothing_sent q ps s :
  connection s = None \/ q = None ->
  execute q ps s = Exit (ereport_ERROR E_PG_COMMAND "query failed: ") s.
Proof.
  intros H. unfold execute, execute_elevel, bind, PQexecParams.
  destruct (connection s), q; destruct H; try discriminate; reflexivity.
Qed.

Lemma command_nothing_sent q ps s :
  connection s = None \/ q = None ->
  command q ps s = Exit (ereport_ERROR E_PG_COMMAND "query failed: ") s.
Proof.
  intros H. unfold command, bind. now rewrite execute_nothing_sent.
Qed.

Lemma execute_Ok_inv q ps s res s' :
  execute q ps s = Ok res s' ->
  exists c sql rs,
    connection s = Some c /\ q = Some sql /\ replies s = res :: rs /\
    query_succeeded res = true /\ s' = answered c sql ps rs s.
Proof.
  destruct (connection s) as [c|] eqn:C; [|rewrite execute_nothing_sent by auto; discriminate].
  destruct q as [sql|]; [|rewrite execute_nothing_sent by auto; discriminate].
  rewrite (execute_run c) by assumption.
  destruct (replies s) as [|r rs]; [discriminate|].
  destruct (query_succeeded r) eqn:Q; [|discriminate].
  intros [= <- <-]. exists c, sql, rs. auto.
Qed.

Lemma command_Ok_inv q ps s u s' :
  command q ps s = Ok u s' ->
  exists c sql r rs,
    connection s = Some c /\ q = Some sql /\ replies s = r :: rs /\
    query_succeeded r = true /\ s' = answered c sql ps rs s.
Proof.
  unfold command. intros H. apply bind_Ok_inv in H as (r & s1 & H & E).
  injection E as _ <-. apply execute_Ok_inv in H as (c & sql & rs & H).
  exists c, sql, r, rs. exact H.
Qed.

(** *** Scripts *)

Lemma performs_ret {A} (a : A) s : performs (ret a) s [].
Proof.
  split; [reflexivity|]. exists 0%nat. simpl. rewrite app_nil_r. auto.
Qed.

Lemma performs_bind {A B} (m : M A) (k : A -> M B) s L1 L2 :
  performs m s L1 ->
  (forall a s1, m s = Ok a s1 -> connection s1 = connection s ->
                performs (k a) s1 L2) ->
  performs (bind m k) s (L1 ++ L2)%list.
Proof.
  intros (C1 & k1 & Hk1 & T1 & F1) Hk. unfold performs, bind in *.
  destruct (m s) as [a s1| | |] eqn:E; simpl in *.
  - destruct (Hk a s1 eq_refl C1) as (C2 & k2 & Hk2 & T2 & F2).
    split; [congruence|]. exists (List.length L1 + k2)%nat.
    rewrite length_app. split; [lia|]. split.
    + rewrite T2, T1, (F1 eq_refl), firstn_app_2, app_assoc, firstn_all. reflexivity.
    + intros H. rewrite (F2 H). reflexivity.
  - split; [assumption|]. exists k1. rewrite length_app. split; [lia|].
    split; [|discriminate]. rewrite firstn_app.
    replace (k1 - List.length L1)%nat with 0%nat by lia.
    simpl. now rewrite app_nil_r.
  - split; [assumption|]. exists k1. rewrite length_app. split; [lia|].
    split; [|discriminate]. rewrite firstn_app.
    replace (k1 - List.length L1)%nat with 0%nat by lia.
    simpl. now rewrite app_nil_r.
  - split; [assumption|]. exists k1. rewrite length_app. split; [lia|].
    split; [|discriminate]. rewrite firstn_app.
    replace (k1 - List.length L1)%nat with 0%nat by lia.
    simpl. now rewrite app_nil_r.
Qed.

(** When [m] cannot return, what follows it does not matter. *)
Lemma performs_bind_stop {A B} (m : M A) (k : A -> M B) s L :
  performs m s L -> is_ok (m s) = false -> performs (bind m k) s L.
Proof.
  intros (C1 & k1 & Hk1 & T1 & F1) N.
  destruct (bind_not_ok m k s N) as [E1 E2]. unfold performs.
  rewrite E1, E2. split; [assumption|]. exists k1. repeat split; auto.
  discriminate.
Qed.

Lemma performs_silent {A} (m : M A) s :
  final (m s) = s -> performs m s [].
Proof.
  intros E. unfold performs. rewrite E. split; [reflexivity|].
  exists 0%nat. simpl. rewrite app_nil_r. auto.
Qed.

Lemma performs_command c q ps s :
  connection s = Some c ->
  performs (command (Some q) ps) s [Query (conn_id c) q ps].
Proof.
  intros C. unfold performs. rewrite (command_run c) by assumption.
  destruct (replies s) as [|r rs]; [|destruct (query_succeeded r)]; simpl;
    (split; [reflexivity|]); exists 1%nat; simpl; auto.
Qed.

Lemma performs_execute c q ps s :
  connection s = Some c ->
  performs (execute (Some q) ps) s [Query (conn_id c) q ps].
Proof.
  intros C. unfold performs. rewrite (execute_run c) by assumption.
  destruct (replies s) as [|r rs]; [|destruct (query_succeeded r)]; simpl;
    (split; [reflexivity|]); exists 1%nat; simpl; auto.
Qed.

Lemma performs_ret_bind {A B} (a : A) (k : A -> M B) s L :
  performs (k a) s L -> performs (bind (ret a) k) s L.
Proof. intros H. exact H. Qed.

Lemma performs_arg_s a s : performs (arg_s a) s [].
Proof. apply performs_silent. now destruct a. Qed.

(** ** The copy step (C1) *)

Ltac connected_at H s1 :=
  let C := fresh "C" in
  intros ? s1 _ C; rewrite H in C.

Ltac perform_command c :=
  lazymatch goal with
  | H : connection ?s = Some c
    |- performs (bind (command (Some ?q) ?ps) _) ?s (?e :: ?L) =>
      let s1 := fresh "s" in
      apply (performs_bind _ _ s [e] L);
      [apply (performs_command c); exact H | connected_at H s1; clear H]
  | H : connection ?s = Some c
    |- performs (bind (execute (Some ?q) ?ps) _) ?s (?e :: ?L) =>
      let s1 := fresh "s" in
      apply (performs_bind _ _ s [e] L);
      [apply (performs_execute c); exact H | connected_at H s1; clear H]
  | H : connection ?s = Some c
    |- performs (bind (arg_s ?a) _) ?s ?L =>
      let s1 := fresh "s" in
      apply (performs_bind _ _ s [] L);
      [apply performs_arg_s | connected_at H s1; clear H]
  | |- performs (bind (ret _) _) _ _ => apply performs_ret_bind
  | |- performs (ret _) _ [] => apply performs_ret
  | |- performs (bind (command None ?ps) _) ?s [] =>
      apply performs_silent; unfold bind;
      rewrite command_nothing_sent by auto; reflexivity
  end.

Lemma copy_tuples_performs table orderby s :
  performs (copy_tuples table orderby) s
           (copy_script (session_of s) table orderby).
Proof.
  destruct (connection s) as [c|] eqn:C.
  - unfold session_of, copy_script, copy_statements, copy_tuples.
    rewrite C.
    destruct orderby as [[|a o]|], (delete_log table) as [dl|],
      (create_table table) as [ct|], (drop_columns table) as [dc|];
      cbn [statements app]; repeat perform_command c.
  - unfold copy_tuples. apply performs_bind_stop.
    + unfold performs. rewrite command_nothing_sent by auto. simpl.
      split; [reflexivity|]. exists 0%nat. simpl. rewrite app_nil_r.
      repeat split; [lia | discriminate].
    + now rewrite command_nothing_sent by auto.
Qed.

Ltac invert_binds :=
  repeat match goal with
         | H : bind _ _ _ = Ok _ _ |- _ =>
             let a := fresh "a" in
             let s := fresh "s" in
             let E := fresh "E" in
             apply bind_Ok_inv in H as (a & s & E & H)
         end.

Lemma copy_tuples_Ok_fragments table orderby s vxid s' :
  copy_tuples table orderby s = Ok vxid s' ->
  exists dl ct, delete_log table = Some dl /\ create_table table = Some ct.
Proof.
  unfold copy_tuples. intros H. invert_binds.
  repeat match goal with
         | H : command (delete_log table) _ _ = Ok _ _ |- _ =>
             apply command_Ok_inv in H as (? & dl & ? & ? & _ & ? & _)
         | H : command (create_table table) _ _ = Ok _ _ |- _ =>
             apply command_Ok_inv in H as (? & ct & ? & ? & _ & ? & _)
         end.
  eauto.
Qed.

Lemma steady_Ok {A} (m : M A) s a s' :
  steady m -> m s = Ok a s' -> extends s s'.
Proof. intros Hm E. specialize (Hm s). now rewrite E in Hm. Qed.

Lemma performs_Ok {A} (m : M A) s L a s' :
  performs m s L -> m s = Ok a s' ->
  connection s' = connection s /\ trace s' = (trace s ++ L)%list.
Proof.
  intros (C & k & _ & T & F) E. rewrite E in *. simpl in *.
  split; [assumption|]. now rewrite T, (F eq_refl), firstn_all.
Qed.

Lemma session_of_extends s s' : extends s s' -> session_of s' = session_of s.
Proof. intros [C _]. unfold session_of. now rewrite C. Qed.

(** The value of the copy step is what the server answered to the
    snapshot query. *)
Lemma copy_tuples_vxid table orderby s vxid s' :
  copy_tuples table orderby s = Ok vxid s' ->
  exists r,
    nth_error (replies s) (snapshot_position orderby) = Some r /\
    PQgetvalue r 0 0 = Some vxid.
Proof.
  intros H. unfold copy_tuples in H.
  apply bind_Ok_inv in H as ([] & s1 & E1 & H).
  apply command_Ok_inv in E1 as (c & q1 & r1 & rs1 & C & _ & R1 & _ & ->).
  apply bind_Ok_inv in H as ([] & s2 & E2 & H).
  apply command_Ok_inv in E2 as (c2 & q2 & r2 & rs2 & _ & _ & R2 & _ & ->).
  simpl in R2. subst rs1.
  apply bind_Ok_inv in H as ([] & s3 & E3 & H).
  apply bind_Ok_inv in H as (res & s4 & E4 & H).
  apply execute_Ok_inv in E4 as (c4 & q4 & rs4 & _ & _ & R4 & _ & _).
  apply bind_Ok_inv in H as (v & s5 & E5 & H).
  assert (V : PQgetvalue res 0 0 = Some vxid).
  { destruct (PQgetvalue res 0 0) as [v0|]; [|discriminate].
    injection E5 as <- _.
    repeat (apply bind_Ok_inv in H as (? & ? & _ & H)).
    now injection H as <- _. }
  exists res. split; [|exact V]. rewrite R1.
  destruct orderby as [[|a o]|].
  - apply command_Ok_inv
      in E3 as (c3 & q3 & r3 & rs3 & _ & _ & R3 & _ & ->).
    simpl in R3, R4. subst rs2 rs3. reflexivity.
  - injection E3 as <-. simpl in R4. subst rs2. reflexivity.
  - injection E3 as <-. simpl in R4. subst rs2. reflexivity.
Qed.

(** C1. The copy step of [repack_one_table] sends, on the one session and
    in this order, BEGIN ISOLATION LEVEL SERIALIZABLE, the work_mem
    setting, the snapshot query, [delete_log], [create_table], and at the
    end COMMIT, with nothing else in between but the optional
    synchronize_seqscans and drop_columns statements: whatever the
    outcome, what was sent is an initial part of that list; when the
    step returns, it is the whole list, with [delete_log] right before
    [create_table] between the BEGIN and the COMMIT, and the value it
    returns, the [vxid] the drain loop is given, is the first field of
    the server's reply to the snapshot query; and every run of
    [repack_one_table] that returns has that whole list in its trace. *)
Theorem copy_runs_delete_log_then_create_table
    (table : repack_table) (orderby : cstring) (s : state) :
  let c := session_of s in
  (exists k, trace (final (copy_tuples table orderby s))
             = (trace s ++ firstn k (copy_script c table orderby))%list)
  /\ (forall vxid s',
        copy_tuples table orderby s = Ok vxid s' ->
        (exists r,
            nth_error (replies s) (snapshot_position orderby) = Some r /\
            PQgetvalue r 0 0 = Some vxid) /\
        exists dl ct,
          delete_log table = Some dl /\ create_table table = Some ct /\
          trace s' =
            (trace s
               ++ [Query c SQL_BEGIN_SERIALIZABLE []; Query c SQL_SET_WORK_MEM []]
               ++ match orderby with
                  | Some EmptyString =>
                      [Query c "SET LOCAL synchronize_seqscans = off" []]
                  | _ => []
                  end
               ++ [Query c SQL_XID_SNAPSHOT []; Query c dl []; Query c ct []]
               ++ match drop_columns table with
                  | Some dc => [Query c dc []]
                  | None => []
                  end
               ++ [Query c ("SELECT repack.disable_autovacuum('repack.table_"
                              ++ utoa (target_oid table) ++ "')") [];
                   Query c "COMMIT" []])%list)
  /\ (forall analyze wait_timeout s',
        repack_one_table analyze wait_timeout table orderby s = Ok tt s' ->
        exists pre post,
          trace s' = (trace s ++ pre ++ copy_script c table orderby ++ post)%list).
Proof.
  intros c. pose proof (copy_tuples_performs table orderby s) as P.
  split; [|split].
  - destruct P as (_ & k & _ & T & _). now exists k.
  - intros vxid s' E. split; [now apply (copy_tuples_vxid table orderby s vxid s')|].
    destruct (copy_tuples_Ok_fragments _ _ _ _ _ E) as (dl & ct & D & Ct).
    exists dl, ct. split; [assumption|]. split; [assumption|].
    destruct (performs_Ok _ _ _ _ _ P E) as [_ T]. rewrite T. f_equal.
    unfold copy_script, copy_statements. fold c. rewrite D, Ct.
    destruct orderby as [[|a o]|], (drop_columns table); reflexivity.
  - intros analyze wait_timeout s' E. unfold repack_one_table in E.
    apply bind_Ok_inv in E as (u1 & s1 & E1 & E).
    apply bind_Ok_inv in E as (u2 & s2 & E2 & E).
    apply bind_Ok_inv in E as (vxid & s3 & E3 & E).
    assert (X1 : extends s s1)
      by (eapply steady_Ok; [apply steady_setup_workspace | exact E1]).
    assert (X2 : extends s1 s2)
      by (eapply steady_Ok; [apply steady_pgut_atexit_push | exact E2]).
    assert (X : extends s s2) by (eapply extends_trans; eassumption).
    assert (X3 : extends s3 s').
    { eapply steady_Ok; [|exact E]. steady_tac;
        auto using steady_create_indexes, steady_drain_log, steady_swap,
          steady_drop, steady_analyze_table. }
    destruct (performs_Ok _ _ _ _ _ (copy_tuples_performs table orderby s2) E3)
      as [_ T3].
    rewrite (session_of_extends _ _ X) in T3. fold c in T3.
    destruct X as [_ [_ [pre [T2 _]]]], X3 as [_ [_ [post [T' _]]]].
    exists pre, post. rewrite T', T3, T2. now rewrite <- !app_assoc.
Qed.

(** ** The drain loop (C2) *)

Lemma connection_answered c q ps rs s :
  connection (answered c q ps rs s) = connection s.
Proof. reflexivity. Qed.

Lemma replies_answered c q ps rs s : replies (answered c q ps rs s) = rs.
Proof. reflexivity. Qed.

Lemma trace_answered c q ps rs s :
  trace (answered c q ps rs s) = (trace s ++ [Query (conn_id c) q ps])%list.
Proof. reflexivity. Qed.

Lemma apply_log_run c t count s :
  connection s = Some c ->
  apply_log t count s =
    match replies s with
    | r :: rs =>
        let s' := answered c SQL_APPLY (apply_params t count) rs s in
        if query_succeeded r then
          match apply_count r with
          | Some n => Ok n s'
          | None => Undefined s'
          end
        else Exit (ereport_ERROR E_PG_COMMAND ("query failed: " ++ errmsg r)) s'
    | [] => Running (log_event (Query (conn_id c) SQL_APPLY
                                      (apply_params t count)) s)
    end.
Proof.
  intros C. unfold apply_log, bind. rewrite (execute_run c) by assumption.
  fold (apply_params t count).
  destruct (replies s) as [|r rs]; [reflexivity|]. cbv zeta.
  destruct (query_succeeded r); [|reflexivity].
  unfold apply_count. now destruct (PQgetvalue r 0 0).
Qed.


(** A pass that found the log empty but old transactions alive sleeps a
    second and goes round again. *)
Lemma drain_pass_wait c t vxid nw s r1 r2 rs n pid :
  connection s = Some c -> replies s = r1 :: r2 :: rs ->
  query_succeeded r1 = true -> apply_count r1 = Some n -> n <= 0 ->
  query_succeeded r2 = true -> 0 < PQntuples r2 ->
  PQgetvalue r2 0 0 = Some pid ->
  exists s',
    drain_pass t vxid nw s = Ok (Continue, PQntuples r2) s' /\
    connection s' = Some c /\ replies s' = rs /\
    trace s' =
      (trace s
         ++ [Query (conn_id c) SQL_APPLY (apply_params t APPLY_COUNT);
             Query (conn_id c) SQL_XID_ALIVE [Some vxid]]
         ++ (if PQntuples r2 =? nw then []
             else [Elog NOTICE ("Waiting for " ++ C.fmt_d (PQntuples r2)
                                  ++ " transactions to finish. First PID: "
                                  ++ pid)])
         ++ [Sleep 1])%list.
Proof.
  intros C R Q1 A N Q2 P V. unfold drain_pass, bind.
  rewrite (apply_log_run c), R by assumption. cbv zeta. rewrite Q1, A.
  destruct (Z.gtb_spec n 0); [lia|].
  rewrite (execute_run c) by (now rewrite connection_answered).
  rewrite replies_answered, Q2.
  destruct (Z.gtb_spec (PQntuples r2) 0); [|lia].
  destruct (PQntuples r2 =? nw) eqn:W; simpl.
  - apply Z.eqb_eq in W. subst nw. eexists. split; [reflexivity|].
    repeat split; simpl; try assumption. now rewrite <- !app_assoc.
  - rewrite V. simpl. eexists. split; [reflexivity|].
    repeat split; simpl; try assumption. now rewrite <- !app_assoc.
Qed.

(** A pass that found the log empty and no old transaction leaves. *)
Lemma drain_pass_done c t vxid nw s r1 r2 rs n :
  connection s = Some c -> replies s = r1 :: r2 :: rs ->
  query_succeeded r1 = true -> apply_count r1 = Some n -> n <= 0 ->
  query_succeeded r2 = true -> PQntuples r2 = 0 ->
  drain_pass t vxid nw s
  = Ok (Break, nw)
       (answered c SQL_XID_ALIVE [Some vxid] rs
          (answered c SQL_APPLY (apply_params t APPLY_COUNT) (r2 :: rs) s)).
Proof.
  intros C R Q1 A N Q2 P. unfold drain_pass, bind.
  rewrite (apply_log_run c), R by assumption. cbv zeta. rewrite Q1, A.
  destruct (Z.gtb_spec n 0); [lia|].
  rewrite (execute_run c) by (now rewrite connection_answered).
  rewrite replies_answered, Q2, P. reflexivity.
Qed.


Lemma drain_pass_consumes t vxid nw s x s' :
  drain_pass t vxid nw s = Ok x s' ->
  (List.length (replies s') < List.length (replies s))%nat.
Proof.
  intros H. destruct (connection s) as [c|] eqn:C.
  2:{ unfold drain_pass, apply_log, bind in H.
      rewrite execute_nothing_sent in H by auto. discriminate. }
  unfold drain_pass, bind in H. rewrite (apply_log_run c) in H by assumption.
  destruct (replies s) as [|r1 rs1] eqn:R; [discriminate|]. cbv zeta in H.
  destruct (query_succeeded r1); [|discriminate].
  destruct (apply_count r1) as [n|]; [|discriminate].
  destruct (n >? 0).
  - injection H as _ <-. simpl. lia.
  - rewrite (execute_run c) in H by (now rewrite connection_answered).
    rewrite replies_answered in H.
    destruct rs1 as [|r2 rs]; [discriminate|].
    destruct (query_succeeded r2); [|discriminate].
    destruct (PQntuples r2 >? 0).
    + destruct (PQntuples r2 =? nw); simpl in H.
      * injection H as _ <-. simpl. lia.
      * destruct (PQgetvalue r2 0 0); [|discriminate].
        simpl in H. injection H as _ <-. simpl. lia.
    + injection H as _ <-. simpl. lia.
Qed.


Lemma drain_loop_enough_fuel t vxid nw s nw0 s0 :
  continues t vxid nw s nw0 s0 ->
  forall r s' fuel,
    drain_pass t vxid nw0 s0 = Ok (Break, r) s' ->
    (List.length (replies s) < fuel)%nat ->
    drain_loop fuel t vxid nw s = Ok tt s'.
Proof.
  induction 1 as [nw s | nw s nw1 s1 nw' s2 E K IH]; intros r s' fuel B F.
  - destruct fuel as [|fuel]; [lia|]. simpl. unfold bind. now rewrite B.
  - destruct fuel as [|fuel]; [lia|]. simpl. unfold bind. rewrite E.
    apply (IH r); [assumption|].
    pose proof (drain_pass_consumes _ _ _ _ _ _ E). lia.
Qed.



(** ** The lock escalator (C3, C4) *)

Lemma emits_only_silent (P : event -> Prop) {A} (m : M A) :
  (forall s, final (m s) = s) -> emits_only P m.
Proof.
  intros H s. exists []. rewrite H, app_nil_r. auto.
Qed.

Lemma emits_only_bind (P : event -> Prop) {A B} (m : M A) (k : A -> M B) :
  emits_only P m -> (forall a, emits_only P (k a)) -> emits_only P (bind m k).
Proof.
  intros Hm Hk s. destruct (Hm s) as (d1 & T1 & F1). unfold bind.
  destruct (m s) as [a s1| | |]; simpl in *; eauto.
  destruct (Hk a s1) as (d2 & T2 & F2). exists (d1 ++ d2)%list.
  rewrite T2, T1, app_assoc. split; [reflexivity | now apply Forall_app].
Qed.

Lemma emits_only_emit (P : event -> Prop) e : P e -> emits_only P (emit e).
Proof. intros H s. exists [e]. simpl. auto. Qed.

Lemma emits_only_PQexecParams (P : event -> Prop) q ps :
  (forall c sql, P (Query c sql ps)) -> emits_only P (PQexecParams q ps).
Proof.
  intros H s. unfold PQexecParams.
  destruct (connection s) as [c|], q as [sql|];
    try (exists []; simpl; rewrite app_nil_r; now auto).
  exists [Query (conn_id c) sql ps].
  destruct (replies s); simpl; auto.
Qed.

Lemma emits_only_execute_elevel (P : event -> Prop) q ps level :
  (forall c sql, P (Query c sql ps)) -> (forall msg, P (Elog level msg)) ->
  emits_only P (execute_elevel q ps level).
Proof.
  intros H L. unfold execute_elevel.
  apply emits_only_bind; [now apply emits_only_PQexecParams|].
  intros res. destruct (query_succeeded res); [now apply emits_only_silent|].
  destruct level;
    try (apply emits_only_bind;
         [apply emits_only_emit, L | intros; now apply emits_only_silent]);
    now apply emits_only_silent.
Qed.

Lemma emits_only_command (P : event -> Prop) q ps :
  (forall c sql, P (Query c sql ps)) -> emits_only P (command q ps).
Proof.
  intros H. unfold command, execute. unfold execute_elevel.
  apply emits_only_bind; [|intros; now apply emits_only_silent].
  apply emits_only_bind; [now apply emits_only_PQexecParams|].
  intros res. destruct (query_succeeded res); now apply emits_only_silent.
Qed.

Lemma try_lock_without_parameters i lq :
  emits_only without_parameters (try_lock i lq).
Proof.
  unfold try_lock.
  apply emits_only_bind; [now apply emits_only_command|]. intros _.
  apply emits_only_bind.
  { apply emits_only_execute_elevel; intros; exact I. }
  intros res. destruct (ExecStatusType_eqb _ _); [now apply emits_only_silent|].
  apply emits_only_bind.
  { apply emits_only_silent. intros s. unfold sqlstate_equals.
    now destruct (PQresultErrorField_SQLSTATE res). }
  intros [|].
  - apply emits_only_bind; [now apply emits_only_command|].
    intros; now apply emits_only_silent.
  - apply emits_only_bind; [now apply emits_only_emit|].
    intros; now apply emits_only_silent.
Qed.

Lemma wrap_int_small z : C.in_int z -> C.wrap_int z = z.
Proof.
  unfold C.in_int, C.INT_MIN, C.INT_MAX, C.wrap_int. intros H.
  rewrite Z.mod_small; lia.
Qed.


Lemma PQserverVersion_run c s :
  connection s = Some c -> PQserverVersion s = Ok (server_version s) s.
Proof. unfold PQserverVersion, bind, get. now intros ->. Qed.

Lemma escalate_trace c wt d relid s :
  connection s = Some c ->
  connection (final (escalate wt d relid s)) = connection s /\
  trace (final (escalate wt d relid s))
  = (trace s ++ escalation_events (conn_id c) wt (server_version s) d relid)%list.
Proof.
  intros C. unfold escalate, escalation_events.
  destruct (d >? wt); [|simpl; now rewrite app_nil_r].
  unfold bind. rewrite (PQserverVersion_run c) by assumption.
  destruct ((server_version s >=? 80400) && (d >? C.wrap_int (wt * 2)));
    unfold elog, emit, modify, ret;
    rewrite (command_run c) by exact C; simpl;
    (destruct (replies s) as [|r rs]; [|destruct (query_succeeded r)]);
    simpl; (split; [reflexivity | now rewrite <- app_assoc]).
Qed.

Lemma begin_attempt_run c wt start relid s now ck r rs :
  connection s = Some c -> clock s = now :: ck -> replies s = r :: rs ->
  query_succeeded r = true ->
  begin_attempt wt start relid s
  = escalate wt (now - start) relid
      (set_clock ck (answered c SQL_BEGIN_READ_COMMITTED [] rs s)).
Proof.
  intros C K R Q. unfold begin_attempt, bind.
  rewrite (command_run c), R, Q by assumption.
  unfold time. simpl. now rewrite K.
Qed.

Lemma Min_is_min a b : C.Min a b = Z.min a b.
Proof. unfold C.Min. destruct (Z.ltb_spec a b); lia. Qed.

(** From the first attempt to attempt 21474836, [i * 100] fits the C
    [int] and the text of the SET LOCAL statement fits its buffer. *)
Lemma set_timeout_sql_attempt i :
  1 <= i <= 21474836 ->
  set_timeout_sql (C.Min 1000 (C.wrap_int (i * 100)))
  = "SET LOCAL statement_timeout = " ++ C.fmt_d (Z.min 1000 (i * 100)).
Proof.
  intros H.
  rewrite wrap_int_small by (unfold C.in_int, C.INT_MIN, C.INT_MAX; lia).
  rewrite Min_is_min.
  destruct (Z.le_gt_cases 10 i) as [L|L].
  - replace (Z.min 1000 (i * 100)) with 1000 by lia. reflexivity.
  - assert (E : i = 1 \/ i = 2 \/ i = 3 \/ i = 4 \/ i = 5 \/ i = 6 \/ i = 7
                \/ i = 8 \/ i = 9) by lia.
    repeat (destruct E as [-> | E]; [reflexivity|]). now subst i.
Qed.


Lemma try_lock_run c i lq s r0 r rs :
  connection s = Some c -> replies s = r0 :: r :: rs ->
  query_succeeded r0 = true ->
  let s2 := lock_tried c (C.Min 1000 (C.wrap_int (i * 100))) lq rs s in
  try_lock i (Some lq) s =
    if ExecStatusType_eqb (PQresultStatus r) PGRES_COMMAND_OK then Ok Break s2
    else
      match sqlstate r with
      | None => Undefined s2
      | Some st =>
          if C.streq st SQLSTATE_QUERY_CANCELED then
            bind (command (Some "ROLLBACK") []) (fun _ => ret Continue) s2
          else Exit (exit_status 1) (log_event (Printf (errmsg r)) s2)
      end.
Proof.
  intros C R Q s2. unfold try_lock, bind at 1.
  rewrite (command_run c), R, Q by assumption.
  unfold bind at 1. rewrite (execute_elevel_DEBUG2_run c) by exact C.
  rewrite replies_answered. fold s2.
  destruct (ExecStatusType_eqb (PQresultStatus r) PGRES_COMMAND_OK);
    [reflexivity|].
  unfold bind at 1, sqlstate_equals, PQresultErrorField_SQLSTATE.
  destruct (sqlstate r) as [st|]; [|reflexivity].
  unfold ret at 1. destruct (C.streq st SQLSTATE_QUERY_CANCELED); reflexivity.
Qed.

Lemma escalation_events_shape c wt version d relid :
  is_escalation c relid (escalation_events c wt version d relid).
Proof.
  unfold is_escalation, escalation_events.
  destruct (d >? wt); [|auto].
  destruct ((version >=? 80400) && (d >? C.wrap_int (wt * 2))); auto.
Qed.

Lemma begin_attempt_Ok_inv wt start relid s u s' :
  begin_attempt wt start relid s = Ok u s' ->
  exists c esc,
    connection s = Some c /\ connection s' = Some c /\
    is_escalation (conn_id c) relid esc /\
    trace s' = (trace s ++ [Query (conn_id c) SQL_BEGIN_READ_COMMITTED []]
                  ++ esc)%list.
Proof.
  intros H. unfold begin_attempt in H.
  apply bind_Ok_inv in H as (u1 & s1 & E1 & H).
  apply command_Ok_inv in E1 as (c & sql & r & rs & C & [= <-] & R & Q & ->).
  apply bind_Ok_inv in H as (now & s2 & E2 & H).
  unfold time in E2. simpl in E2.
  destruct (clock s) as [|t ck]; [discriminate|]. injection E2 as <- <-.
  match type of H with escalate _ _ _ ?s2 = _ => set (s2' := s2) in * end.
  destruct (escalate_trace c wt (t - start) relid s2' C) as [C' T].
  rewrite H in C', T. simpl in C', T.
  exists c. eexists. split; [assumption|]. split; [now rewrite C'|].
  split; [apply escalation_events_shape|].
  rewrite T. now rewrite <- app_assoc.
Qed.

Lemma try_lock_Break_inv i lq s s' :
  try_lock i lq s = Ok Break s' ->
  exists c sql,
    connection s = Some c /\ connection s' = Some c /\ lq = Some sql /\
    trace s' =
      (trace s
         ++ [Query (conn_id c)
               (set_timeout_sql (C.Min 1000 (C.wrap_int (i * 100)))) [];
             Query (conn_id c) sql []])%list.
Proof.
  intros H. unfold try_lock in H.
  apply bind_Ok_inv in H as (u1 & s1 & E1 & H).
  apply command_Ok_inv in E1 as (c & q & r0 & rs0 & C & [= <-] & R & Q & ->).
  apply bind_Ok_inv in H as (res & s2 & E2 & H).
  destruct lq as [sql|].
  - rewrite (execute_elevel_DEBUG2_run c) in E2 by exact C.
    rewrite replies_answered in E2. destruct rs0 as [|r rs]; [discriminate|].
    injection E2 as <- <-.
    destruct (ExecStatusType_eqb (PQresultStatus r) PGRES_COMMAND_OK).
    + injection H as <-. exists c, sql. repeat split; auto.
      simpl. now rewrite <- app_assoc.
    + apply bind_Ok_inv in H as ([|] & s3 & _ & H).
      * apply bind_Ok_inv in H as (? & ? & _ & H). discriminate.
      * apply bind_Ok_inv in H as (? & ? & _ & H). discriminate.
  - unfold execute_elevel, bind, PQexecParams in E2. simpl in E2.
    rewrite C in E2. simpl in E2. injection E2 as <- <-.
    simpl in H. discriminate.
Qed.

Lemma ExecStatusType_eqb_spec a b :
  ExecStatusType_eqb a b = true <-> a = b.
Proof. destruct a, b; simpl; split; congruence. Qed.

Lemma lock_attempt_Break_inv wt start i relid lq s s' :
  lock_attempt wt start i relid lq s = Ok Break s' ->
  exists c sql esc,
    connection s = Some c /\ connection s' = Some c /\ lq = Some sql /\
    is_escalation (conn_id c) relid esc /\
    trace s' =
      (trace s ++ [Query (conn_id c) SQL_BEGIN_READ_COMMITTED []] ++ esc
         ++ [Query (conn_id c)
               (set_timeout_sql (C.Min 1000 (C.wrap_int (i * 100)))) [];
             Query (conn_id c) sql []])%list.
Proof.
  intros H. unfold lock_attempt in H.
  apply bind_Ok_inv in H as (u & s1 & E1 & H).
  apply begin_attempt_Ok_inv in E1 as (c & esc & C & C1 & S & T1).
  apply try_lock_Break_inv in H as (c' & sql & C1' & C' & -> & T).
  assert (c' = c) by congruence. subst c'.
  exists c, sql, esc. repeat split; auto.
  rewrite T, T1. now rewrite <- !app_assoc.
Qed.

Lemma lock_exclusive_loop_Ok_inv wt start relid lq fuel : forall i s s',
  lock_exclusive_loop wt fuel start i relid lq s = Ok tt s' ->
  exists pre j c sql esc,
    connection s = Some c /\ connection s' = Some c /\ lq = Some sql /\
    is_escalation (conn_id c) relid esc /\
    trace s' =
      (trace s ++ pre ++ [Query (conn_id c) SQL_BEGIN_READ_COMMITTED []]
         ++ esc
         ++ [Query (conn_id c)
               (set_timeout_sql (C.Min 1000 (C.wrap_int (j * 100)))) [];
             Query (conn_id c) sql []])%list.
Proof.
  induction fuel as [|fuel IH]; intros i s s' H; [discriminate|].
  simpl in H. apply bind_Ok_inv in H as ([|] & s1 & E & H).
  - injection H as <-.
    apply lock_attempt_Break_inv in E as (c & sql & esc & C & C' & L & S & T).
    exists [], i, c, sql, esc. repeat split; auto.
  - destruct (steady_Ok _ _ _ _ (steady_lock_attempt wt start i relid lq) E)
      as [C1 [_ [d [T1 _]]]].
    apply IH in H as (pre & j & c & sql & esc & C & C' & L & S & T).
    exists (d ++ pre)%list, j, c, sql, esc. repeat split; auto; [congruence|].
    rewrite T, T1. now rewrite <- !app_assoc.
Qed.

Lemma lock_exclusive_Ok_inv wt relid lq s s' :
  lock_exclusive wt relid lq s = Ok tt s' ->
  exists pre j c sql esc,
    connection s = Some c /\ connection s' = Some c /\ lq = Some sql /\
    is_escalation (conn_id c) relid esc /\
    trace s' =
      (trace s ++ pre ++ [Query (conn_id c) SQL_BEGIN_READ_COMMITTED []]
         ++ esc
         ++ [Query (conn_id c)
               (set_timeout_sql (C.Min 1000 (C.wrap_int (j * 100)))) [];
             Query (conn_id c) sql [];
             Query (conn_id c) "RESET statement_timeout" []])%list.
Proof.
  intros H. unfold lock_exclusive in H.
  apply bind_Ok_inv in H as (start & s1 & E1 & H).
  unfold time in E1. destruct (clock s) as [|t ck] eqn:K; [discriminate|].
  injection E1 as <- <-.
  apply bind_Ok_inv in H as (n & s2 & E2 & H). injection E2 as <- <-.
  apply bind_Ok_inv in H as ([] & s3 & E3 & H).
  apply lock_exclusive_loop_Ok_inv
    in E3 as (pre & j & c & sql & esc & C & C' & L & S & T).
  apply command_Ok_inv in H as (c' & q & r & rs & C3 & [= <-] & R & Q & ->).
  assert (c' = c) by congruence. subst c'.
  exists pre, j, c, sql, esc. repeat split; auto.
  simpl. rewrite T. simpl.
  repeat (rewrite <- app_assoc; simpl). reflexivity.
Qed.



(** The same for the drain loop. *)
Lemma drain_loop_fuel t vxid fuel : forall fuel' nw s,
  (List.length (replies s) < fuel)%nat ->
  (List.length (replies s) < fuel')%nat ->
  drain_loop fuel t vxid nw s = drain_loop fuel' t vxid nw s.
Proof.
  induction fuel as [|fuel IH]; intros [|fuel'] nw s F F'; try lia.
  simpl. unfold bind.
  destruct (drain_pass t vxid nw s) as [[[|] nw1] s1| | |] eqn:E;
    try reflexivity.
  pose proof (drain_pass_consumes _ _ _ _ _ _ E).
  apply IH; lia.
Qed.

(** ** The sentinel lock (C5) *)

Lemma holds_and3 a b :
  PgLocks.holds (PgLocks.and3 a b) = PgLocks.holds a && PgLocks.holds b.
Proof. destruct a as [[|]|], b as [[|]|]; reflexivity. Qed.

Lemma holds_Some b : PgLocks.holds (Some b) = b.
Proof. now destruct b. Qed.

Lemma sentinel_row_ne r :
  PgLocks.is_sentinel r = true ->
  PgLocks.row_ne (PgLocks.virtualxid r) (Some (PgLocks.virtualtransaction r))
                 "1/1" "-1/0" = Some false.
Proof.
  unfold PgLocks.is_sentinel, PgLocks.row_ne, PgLocks.text_ne.
  destruct (PgLocks.virtualxid r) as [x|]; [|discriminate].
  intros H. apply andb_prop in H as [H1 H2]. simpl. now rewrite H1, H2.
Qed.

Lemma snapshot_skips_sentinel backend_pid r :
  PgLocks.is_sentinel r = true ->
  PgLocks.holds (PgLocks.snapshot_where backend_pid r) = false.
Proof.
  intros H. unfold PgLocks.snapshot_where.
  rewrite holds_and3, (sentinel_row_ne r H). apply andb_false_r.
Qed.

Lemma alive_on_sentinel backend_pid vxids r :
  PgLocks.is_sentinel r = true ->
  PgLocks.holds (PgLocks.alive_where backend_pid vxids r)
  = String.eqb (PgLocks.locktype r) "virtualxid"
    && PgLocks.holds (PgLocks.int_ne (PgLocks.pid r) backend_pid)
    && existsb (String.eqb "-1/0") vxids.
Proof.
  unfold PgLocks.is_sentinel. destruct (PgLocks.virtualxid r); [|discriminate].
  intros H. apply andb_prop in H as [_ H]. apply String.eqb_eq in H.
  unfold PgLocks.alive_where, PgLocks.eq_any, PgLocks.text_eq, option_map.
  now rewrite !holds_and3, !holds_Some, H.
Qed.

(** The claim as the spec states it fails for the polling query: with
    another virtual xid lock of '-1/0' in [pg_locks] at capture, the
    captured list holds '-1/0', and the poll returns the backend of the
    sentinel row. *)
Lemma alive_query_returns_sentinel_backend :
  PgLocks.is_sentinel SentinelExample.sentinel = true
  /\ PgLocks.xid_snapshot 1 SentinelExample.at_capture = ["-1/0"]
  /\ PgLocks.xid_alive 1 (PgLocks.xid_snapshot 1 SentinelExample.at_capture)
                       SentinelExample.at_poll
     = [PgLocks.pid SentinelExample.sentinel]
  /\ C.contains PgLocks.sentinel_clause SQL_XID_ALIVE = false.
Proof. repeat split; vm_compute; reflexivity. Qed.

(** C5, amended. The snapshot query carries the clause that skips the
    pair ('1/1', '-1/0') and never takes a row with that pair into the
    captured list.  The polling query carries no such clause: it matches
    such a row of another backend exactly when '-1/0' is in the list it
    is given, and with the list the snapshot query captured that is so
    only when '-1/0' held another virtual xid lock at capture. *)
Theorem sentinel_excluded_from_snapshot_only :
  C.contains PgLocks.sentinel_clause SQL_XID_SNAPSHOT = true
  /\ C.contains PgLocks.sentinel_clause SQL_XID_ALIVE = false
  /\ (forall backend_pid pg_locks,
        PgLocks.xid_snapshot backend_pid pg_locks
        = PgLocks.xid_snapshot backend_pid
            (filter (fun r => negb (PgLocks.is_sentinel r)) pg_locks))
  /\ (forall backend_pid vxids r,
        PgLocks.is_sentinel r = true ->
        PgLocks.holds (PgLocks.alive_where backend_pid vxids r)
        = String.eqb (PgLocks.locktype r) "virtualxid"
          && PgLocks.holds (PgLocks.int_ne (PgLocks.pid r) backend_pid)
          && existsb (String.eqb "-1/0") vxids)
  /\ (forall backend_pid at_capture at_poll,
        (forall r, In r at_capture ->
                   PgLocks.holds (PgLocks.snapshot_where backend_pid r) = true ->
                   PgLocks.virtualtransaction r <> "-1/0") ->
        PgLocks.xid_alive backend_pid
          (PgLocks.xid_snapshot backend_pid at_capture) at_poll
        = PgLocks.xid_alive backend_pid
            (PgLocks.xid_snapshot backend_pid at_capture)
            (filter (fun r => negb (PgLocks.is_sentinel r)) at_poll)).
Proof.
  split; [vm_compute; reflexivity|]. split; [vm_compute; reflexivity|].
  split; [|split].
  - intros backend_pid pg_locks. unfold PgLocks.xid_snapshot. f_equal.
    induction pg_locks as [|r l IH]; [reflexivity|]. simpl.
    destruct (PgLocks.is_sentinel r) eqn:S; simpl.
    + now rewrite (snapshot_skips_sentinel backend_pid r S).
    + destruct (PgLocks.holds _); [now rewrite IH | assumption].
  - apply alive_on_sentinel.
  - intros backend_pid at_capture at_poll H.
    assert (N : existsb (String.eqb "-1/0")
                  (PgLocks.xid_snapshot backend_pid at_capture) = false).
    { unfold PgLocks.xid_snapshot.
      induction at_capture as [|r l IH]; [reflexivity|]. cbn [filter].
      destruct (PgLocks.holds (PgLocks.snapshot_where backend_pid r)) eqn:K.
      - cbn [map existsb]. rewrite IH by (intros; apply H; simpl; auto).
        rewrite orb_false_r. apply String.eqb_neq. intros E.
        apply (H r); simpl; auto.
      - apply IH. intros; apply H; simpl; auto. }
    unfold PgLocks.xid_alive. f_equal.
    induction at_poll as [|r l IH]; [reflexivity|]. simpl.
    destruct (PgLocks.is_sentinel r) eqn:S; simpl.
    + rewrite (alive_on_sentinel _ _ r S), N, andb_false_r. exact IH.
    + destruct (PgLocks.holds _); [now rewrite IH | assumption].
Qed.

(** The same on the example: once the other lock of '-1/0' is gone at
    capture, the poll no longer returns the sentinel's backend. *)
Lemma sentinel_excluded_from_snapshot_only_witness :
  PgLocks.xid_alive 1
    (PgLocks.xid_snapshot 1 [SentinelExample.sentinel]) SentinelExample.at_poll
  = PgLocks.xid_alive 1
      (PgLocks.xid_snapshot 1 [SentinelExample.sentinel])
      (filter (fun r => negb (PgLocks.is_sentinel r)) SentinelExample.at_poll).
Proof.
  apply (proj2 (proj2 (proj2 (proj2 sentinel_excluded_from_snapshot_only)))).
  intros r [<- | []] H. vm_compute in H. discriminate.
Defined.

(** ** The version probe (C6) *)




Lemma reconnect_run s :
  connection s = None -> accepting s = true ->
  reconnect s = Ok tt (connected s).
Proof.
  intros C A. unfold reconnect, disconnect, bind, get. cbn beta iota.
  rewrite C. unfold ret. rewrite A. reflexivity.
Qed.

Lemma disconnect_run s c :
  connection s = Some c -> disconnect s = Ok tt (disconnected s).
Proof.
  intros C. unfold disconnect, disconnected, session_of, bind, get.
  cbn beta iota. now rewrite C.
Qed.


Lemma not_TUPLES_OK res :
  PQresultStatus res <> PGRES_TUPLES_OK ->
  ExecStatusType_eqb (PQresultStatus res) PGRES_TUPLES_OK = false.
Proof.
  intros H. destruct (ExecStatusType_eqb _ _) eqn:E; [|reflexivity].
  now apply ExecStatusType_eqb_spec in E.
Qed.

(** When the probe is answered and [check_version] gives a reason, the
    database is left at once. *)
Lemma repack_one_database_skips PN PV an wt orderby table errbuf errsize
    s r rs eb :
  connection s = None -> accepting s = true -> replies s = r :: rs ->
  (forall s', check_version PN PV r errbuf errsize s' = Ok (Some eb) s') ->
  exists s',
    repack_one_database PN PV an wt orderby table errbuf errsize s
    = Ok (false, eb) s' /\
    trace s' = (trace s ++ [Connect (sessions s) (dbname s);
                            Query (sessions s) SQL_VERSION [];
                            Disconnect (sessions s)])%list /\
    connection s' = None /\ replies s' = rs.
Proof.
  intros C A R V. unfold repack_one_database, bind.
  rewrite reconnect_run by assumption.
  rewrite (execute_elevel_DEBUG2_run (mkPGconn (sessions s) true))
    by reflexivity.
  change (replies (connected s)) with (replies s). rewrite R, V.
  unfold ret at 1.
  erewrite disconnect_run by reflexivity.
  eexists. split; [reflexivity|]. repeat split.
  simpl. now rewrite <- !app_assoc.
Qed.

(** A failed probe whose result carries no SQLSTATE: [sqlstate_equals]
    hands the NULL field to [strcmp]. *)
Lemma repack_one_database_probe_without_sqlstate PN PV an wt orderby table
    errbuf errsize s r rs :
  connection s = None -> accepting s = true -> replies s = r :: rs ->
  PQresultStatus r <> PGRES_TUPLES_OK -> sqlstate r = None ->
  repack_one_database PN PV an wt orderby table errbuf errsize s
  = Undefined (answered (mkPGconn (sessions s) true) SQL_VERSION [] rs
                 (connected s)).
Proof.
  intros C A R St Sq. unfold repack_one_database, bind.
  rewrite reconnect_run by assumption.
  rewrite (execute_elevel_DEBUG2_run (mkPGconn (sessions s) true))
    by reflexivity.
  change (replies (connected s)) with (replies s). rewrite R.
  unfold check_version. rewrite (not_TUPLES_OK r St).
  unfold skip_reason, sqlstate_equals, PQresultErrorField_SQLSTATE, bind.
  rewrite Sq. reflexivity.
Qed.



(** ** Rows of [repack.tables] (C7, C8) *)

Lemma getoid_null res row col :
  PQgetisnull res row col = true -> getoid res row col = InvalidOid.
Proof. unfold getoid. now intros ->. Qed.

Lemma read_table_no_primary_key res i orderby s name :
  getoid res i 4 = 0 -> getstr res i 0 = Some name ->
  read_table res i orderby s = Exit (no_primary_key_error name) s.
Proof.
  intros P N. unfold read_table, bind. rewrite P, N. reflexivity.
Qed.

Lemma read_table_Ok_inv res i orderby s t s' :
  read_table res i orderby s = Ok t s' ->
  s' = s /\ pkid t = getoid res i 4 /\ getoid res i 4 <> 0 /\
  delete_log t = getstr res i 12 /\ lock_table t = getstr res i 13 /\
  drop_columns t = getstr res i 11.
Proof.
  unfold read_table, bind.
  destruct (Z.eqb_spec (getoid res i 4) 0) as [E|E].
  - destruct (getstr res i 0); discriminate.
  - unfold ret at 1.
    destruct orderby as [[|a o]|].
    + intros [= <- <-]. auto 6.
    + destruct (getstr res i 10); [|discriminate].
      intros [= <- <-]. auto 6.
    + destruct (getstr res i 14); [|destruct (getstr res i 0); discriminate].
      destruct (getstr res i 10); [|discriminate].
      intros [= <- <-]. auto 6.
Qed.

Lemma check_version_pass PN PV res errbuf errsize s :
  PQresultStatus res = PGRES_TUPLES_OK ->
  getstr res 0 0 = Some (C.snprintf 64 (PN ++ " " ++ PV)) ->
  getstr res 0 1 = Some (C.snprintf 64 (PN ++ " " ++ PV)) ->
  check_version PN PV res errbuf errsize s = Ok None s.
Proof.
  intros St V0 V1. unfold check_version.
  apply ExecStatusType_eqb_spec in St. rewrite St, V0, V1.
  unfold C.streq. rewrite String.eqb_refl. reflexivity.
Qed.

Lemma trace_enumerated orderby table rs s :
  trace (enumerated orderby table rs s)
  = (trace s
       ++ [Connect (sessions s) (dbname s);
           Query (sessions s) SQL_VERSION [];
           Query (sessions s) "SET statement_timeout = 0" [];
           Query (sessions s)
             "SET search_path = pg_catalog, pg_temp, public" [];
           Query (sessions s) "SET client_min_messages = warning" [];
           Query (sessions s) (fst (tables_query orderby table))
             (snd (tables_query orderby table))])%list.
Proof. simpl. now rewrite <- !app_assoc. Qed.

(** Up to the loop over the rows, when the probe passes and the
    statements before the loop succeed. *)
Lemma repack_one_database_rows PN PV an wt orderby table errbuf errsize
    s rv k1 k2 k3 res rs :
  connection s = None -> accepting s = true ->
  replies s = rv :: k1 :: k2 :: k3 :: res :: rs ->
  PQresultStatus rv = PGRES_TUPLES_OK ->
  getstr rv 0 0 = Some (C.snprintf 64 (PN ++ " " ++ PV)) ->
  getstr rv 0 1 = Some (C.snprintf 64 (PN ++ " " ++ PV)) ->
  query_succeeded k1 = true -> query_succeeded k2 = true ->
  query_succeeded k3 = true ->
  PQresultStatus res = PGRES_TUPLES_OK ->
  repack_one_database PN PV an wt orderby table errbuf errsize s
  = bind (bind (repack_tables_from an wt res orderby 0
                  (List.length (tuples res)))
               (fun _ => ret (true, errbuf)))
         (fun r => bind disconnect (fun _ => ret r))
         (enumerated orderby table rs s).
Proof.
  intros C A R St V0 V1 Q1 Q2 Q3 St'.
  set (c := mkPGconn (sessions s) true).
  unfold repack_one_database, bind.
  rewrite reconnect_run by assumption. cbv beta iota.
  rewrite (execute_elevel_DEBUG2_run c) by reflexivity.
  change (replies (connected s)) with (replies s). rewrite R. cbv beta iota.
  rewrite check_version_pass by assumption. cbv beta iota.
  rewrite (command_run c) by reflexivity.
  rewrite replies_answered, Q1. cbv beta iota.
  rewrite (command_run c) by reflexivity.
  rewrite replies_answered, Q2. cbv beta iota.
  rewrite (command_run c) by reflexivity.
  rewrite replies_answered, Q3. cbv beta iota.
  unfold enumerated. fold c.
  destruct (tables_query orderby table) as [sql params]. cbn [fst snd].
  rewrite (execute_elevel_DEBUG2_run c) by reflexivity.
  rewrite replies_answered. cbv beta iota.
  apply ExecStatusType_eqb_spec in St'. rewrite St'. cbn [negb].
  cbv beta iota.
  destruct (repack_tables_from _ _ _ _ _ _ _); reflexivity.
Qed.

Lemma getstr_row res row col v :
  getstr res row col = Some v ->
  (row < List.length (tuples res))%nat.
Proof.
  unfold getstr, PQgetisnull, PQgetvalue, field.
  destruct (nth_error (tuples res) row) eqn:E; [|discriminate].
  intros _. apply nth_error_Some. congruence.
Qed.

(** C7. A row of [repack.tables] whose primary-key OID reads as zero (a
    NULL column reads as zero) makes [repack_one_database] raise the
    error that names the relation, before anything is done for that
    table: the state, trace included, is the one in which the row was
    reached.  The loop body is the same whether or not a table was named,
    although the statement that acquires the rows filters on
    [pkid IS NOT NULL] only when none was; in both modes a database
    whose first row has no primary key ends with that error right after
    the acquiring statement.  A row that is processed has a non-zero
    primary-key OID. *)
Theorem table_without_primary_key_is_refused
    (PROGRAM_NAME PROGRAM_VERSION : string) (analyze : bool)
    (wait_timeout : Z) (res : PGresult) (i : nat) (orderby : cstring)
    (name : string) (s : state) :
  getoid res i 4 = 0 ->
  getstr res i 0 = Some name ->
  read_table res i orderby s = Exit (no_primary_key_error name) s
  /\ (forall num,
        repack_tables_from analyze wait_timeout res orderby i (S num) s
        = Exit (no_primary_key_error name) s)
  /\ (PQgetisnull res i 4 = true -> getoid res i 4 = 0)
  /\ (forall j ob s1 t s2,
        read_table res j ob s1 = Ok t s2 -> s2 = s1 /\ pkid t <> 0)
  /\ (forall tbl,
        tables_query orderby (Some tbl)
        = ("SELECT * FROM repack.tables WHERE relid = $1::regclass",
           [Some tbl])
        /\ C.contains "pkid IS NOT NULL" (fst (tables_query orderby None))
           = true)
  /\ (forall table errbuf errsize s0 rv k1 k2 k3 rs,
        i = 0%nat ->
        connection s0 = None -> accepting s0 = true ->
        replies s0 = rv :: k1 :: k2 :: k3 :: res :: rs ->
        PQresultStatus rv = PGRES_TUPLES_OK ->
        getstr rv 0 0
        = Some (C.snprintf 64 (PROGRAM_NAME ++ " " ++ PROGRAM_VERSION)) ->
        getstr rv 0 1
        = Some (C.snprintf 64 (PROGRAM_NAME ++ " " ++ PROGRAM_VERSION)) ->
        query_succeeded k1 = true -> query_succeeded k2 = true ->
        query_succeeded k3 = true ->
        PQresultStatus res = PGRES_TUPLES_OK ->
        repack_one_database PROGRAM_NAME PROGRAM_VERSION analyze wait_timeout
          orderby table errbuf errsize s0
        = Exit (no_primary_key_error name) (enumerated orderby table rs s0)).
Proof.
  intros P N.
  assert (RT : forall s', read_table res i orderby s'
                          = Exit (no_primary_key_error name) s')
    by (intros; now apply read_table_no_primary_key).
  repeat apply conj.
  - apply RT.
  - intros num. simpl. unfold bind. now rewrite RT.
  - apply getoid_null.
  - intros j ob s1 t s2 E.
    destruct (read_table_Ok_inv _ _ _ _ _ _ E) as (-> & Pk & Nz & _).
    split; [reflexivity | congruence].
  - intros tbl. split; [reflexivity|].
    destruct orderby; vm_compute; reflexivity.
  - intros table errbuf errsize s0 rv k1 k2 k3 rs -> C A R St V0 V1 Q1 Q2 Q3 St'.
    rewrite (repack_one_database_rows _ _ _ _ _ _ _ _ _ rv k1 k2 k3 res rs)
      by assumption.
    pose proof (getstr_row _ _ _ _ N) as L.
    destruct (List.length (tuples res)) as [|num]; [lia|].
    simpl. unfold bind. now rewrite RT.
Qed.


(** ** Sessions and transactions (C9) *)

(** The claim fails on the code: the cancel query goes out on session 0
    right after the BEGIN of the attempt on session 0, and the cleanup
    hook's statements go out on session 0 as well. *)
Lemma escalation_runs_inside_the_lock_transaction :
  trace (final (lock_exclusive 60 "16384" (lock_table BlockedExample.job)
                  BlockedExample.blocked))
  = [Query 0 SQL_BEGIN_READ_COMMITTED [];
     Elog WARNING "canceling conflicted backends";
     Query 0 SQL_CANCEL [Some "16384"];
     Query 0 "SET LOCAL statement_timeout = 100" [];
     Query 0 "LOCK TABLE public.t IN ACCESS EXCLUSIVE MODE" [];
     Query 0 "RESET statement_timeout" []]
  /\ in_transaction 0 [Query 0 SQL_BEGIN_READ_COMMITTED [];
                       Elog WARNING "canceling conflicted backends"] false
     = true
  /\ ~ escalation_outside_transaction
         (trace (final (lock_exclusive 60 "16384"
                          (lock_table BlockedExample.job)
                          BlockedExample.blocked)))
  /\ trace (final (repack_cleanup false BlockedExample.job
                     BlockedExample.blocked))
     = [Query 0 "ROLLBACK" [];
        Query 0 "SELECT repack.repack_drop($1)" [Some "16384"]].
Proof.
  assert (T : trace (final (lock_exclusive 60 "16384"
                              (lock_table BlockedExample.job)
                              BlockedExample.blocked))
              = [Query 0 SQL_BEGIN_READ_COMMITTED [];
                 Elog WARNING "canceling conflicted backends";
                 Query 0 SQL_CANCEL [Some "16384"];
                 Query 0 "SET LOCAL statement_timeout = 100" [];
                 Query 0 "LOCK TABLE public.t IN ACCESS EXCLUSIVE MODE" [];
                 Query 0 "RESET statement_timeout" []])
    by (vm_compute; reflexivity).
  split; [exact T|]. split; [vm_compute; reflexivity|].
  split; [|vm_compute; reflexivity].
  intros H. rewrite T in H.
  specialize (H [Query 0 SQL_BEGIN_READ_COMMITTED [];
                 Elog WARNING "canceling conflicted backends"]
                0%nat SQL_CANCEL "16384"
                [Query 0 "SET LOCAL statement_timeout = 100" [];
                 Query 0 "LOCK TABLE public.t IN ACCESS EXCLUSIVE MODE" [];
                 Query 0 "RESET statement_timeout" []]
                eq_refl (or_introl eq_refl)).
  vm_compute in H. discriminate.
Qed.

Lemma in_transaction_after_begin c warning :
  in_transaction c [Query c SQL_BEGIN_READ_COMMITTED []; Elog WARNING warning]
                 false = true.
Proof. simpl. now rewrite Nat.eqb_refl. Qed.

Lemma escalation_events_late c wt version d relid :
  wt < d ->
  exists warning q,
    (q = SQL_CANCEL \/ q = SQL_TERMINATE) /\
    escalation_events c wt version d relid
    = [Elog WARNING warning; Query c q [Some relid]].
Proof.
  intros H. unfold escalation_events.
  destruct (Z.gtb_spec d wt); [|lia].
  destruct ((version >=? 80400) && (d >? C.wrap_int (wt * 2))); eauto.
Qed.

Lemma PQstatus_ok_run c s :
  connection s = Some c -> PQstatus_ok s = Ok (conn_good c) s.
Proof. unfold PQstatus_ok, bind, get. now intros ->. Qed.

Lemma repack_cleanup_run c t s :
  connection s = Some c -> conn_good c = true ->
  repack_cleanup false t s
  = bind (command (Some "ROLLBACK") [])
         (fun _ => command (Some "SELECT repack.repack_drop($1)")
                           [Some (utoa (target_oid t))]) s.
Proof.
  intros C G. unfold repack_cleanup, bind, get. cbv beta iota.
  rewrite C. rewrite (command_run c) by assumption.
  destruct (replies s) as [|r rs]; [reflexivity|].
  destruct (query_succeeded r); [|reflexivity].
  cbv beta iota. rewrite (PQstatus_ok_run c) by exact C. now rewrite G.
Qed.

Lemma repack_cleanup_good c t s r1 r2 rs :
  connection s = Some c -> conn_good c = true ->
  replies s = r1 :: r2 :: rs ->
  query_succeeded r1 = true -> query_succeeded r2 = true ->
  repack_cleanup false t s
  = Ok tt (answered c SQL_REPACK_DROP [Some (utoa (target_oid t))] rs
             (answered c "ROLLBACK" [] (r2 :: rs) s)).
Proof.
  intros C G R Q1 Q2. rewrite (repack_cleanup_run c) by assumption.
  unfold bind. rewrite (command_run c), R, Q1 by exact C.
  rewrite (command_run c) by exact C.
  rewrite replies_answered, Q2. reflexivity.
Qed.

Lemma reconnect_replace c s :
  connection s = Some c -> accepting s = true ->
  reconnect s = Ok tt (connected (disconnected s)).
Proof.
  intros C A. rewrite <- (reconnect_run (disconnected s)) by auto.
  unfold reconnect at 1. unfold bind at 1.
  rewrite (disconnect_run s c C). reflexivity.
Qed.

(** With a connection that is no longer good, the hook replaces it. *)
Lemma repack_cleanup_broken c t s r1 r2 rs :
  connection s = Some c -> conn_good c = false -> accepting s = true ->
  replies s = r1 :: r2 :: rs ->
  query_succeeded r1 = true -> query_succeeded r2 = true ->
  exists s',
    repack_cleanup false t s = Ok tt s' /\
    trace s'
    = (trace s
         ++ [Query (conn_id c) "ROLLBACK" [];
             Disconnect (conn_id c);
             Connect (sessions s) (dbname s);
             Query (sessions s) SQL_REPACK_DROP
                   [Some (utoa (target_oid t))]])%list /\
    connection s' = Some (mkPGconn (sessions s) true) /\ replies s' = rs.
Proof.
  intros C G A R Q1 Q2. unfold repack_cleanup.
  erewrite bind_Ok by reflexivity. rewrite C.
  set (s1 := answered c "ROLLBACK" [] (r2 :: rs) s).
  assert (E1 : command (Some "ROLLBACK") [] s = Ok tt s1)
    by (now rewrite (command_run c), R, Q1 by exact C).
  rewrite (bind_Ok _ _ _ _ _ E1).
  rewrite (bind_Ok _ _ _ _ _ (PQstatus_ok_run c s1 C)). rewrite G.
  rewrite (bind_Ok _ _ _ _ _ (reconnect_replace c s1 C A)).
  fold SQL_REPACK_DROP.
  rewrite (command_run (mkPGconn (sessions s) true)) by reflexivity.
  change (replies (connected (disconnected s1))) with (r2 :: rs).
  cbv beta iota zeta. rewrite Q2. eexists. split; [reflexivity|]. repeat split.
  unfold s1. simpl. unfold session_of.
  rewrite connection_answered, C.
  repeat (rewrite <- app_assoc; simpl). reflexivity.
Qed.

(** Without a connection, the hook opens one. *)
Lemma repack_cleanup_disconnected t s r rs :
  connection s = None -> accepting s = true ->
  replies s = r :: rs -> query_succeeded r = true ->
  exists s',
    repack_cleanup false t s = Ok tt s' /\
    trace s'
    = (trace s
         ++ [Connect (sessions s) (dbname s);
             Query (sessions s) SQL_REPACK_DROP
                   [Some (utoa (target_oid t))]])%list /\
    connection s' = Some (mkPGconn (sessions s) true) /\ replies s' = rs.
Proof.
  intros C A R Q. unfold repack_cleanup.
  unfold bind at 1, get at 1. rewrite C.
  unfold bind at 1, ret at 1.
  unfold bind at 1, PQstatus_ok at 1, bind at 1, get at 1. rewrite C.
  unfold ret at 1. unfold bind at 1.
  rewrite reconnect_run by assumption. fold SQL_REPACK_DROP.
  rewrite (command_run (mkPGconn (sessions s) true)) by reflexivity.
  change (replies (connected s)) with (replies s). rewrite R, Q.
  eexists. split; [reflexivity|]. repeat split.
  simpl. repeat (rewrite <- app_assoc; simpl). reflexivity.
Qed.

(** ** The command line (C10) *)

Lemma grows_of_steady {A} (m : M A) : steady m -> grows m.
Proof. intros H s. destruct (H s) as [_ [_ (d & T & _)]]. eauto. Qed.

Lemma grows_bind {A B} (m : M A) (k : A -> M B) :
  grows m -> (forall a, grows (k a)) -> grows (bind m k).
Proof.
  intros Hm Hk s. destruct (Hm s) as (d1 & T1). unfold bind.
  destruct (m s) as [a s1| | |]; simpl in *; eauto.
  destruct (Hk a s1) as (d2 & T2). exists (d1 ++ d2)%list.
  now rewrite T2, T1, app_assoc.
Qed.

Lemma grows_set_dbname d : grows (modify (set_dbname d)).
Proof. intros s. exists []. simpl. now rewrite app_nil_r. Qed.

Lemma grows_disconnect : grows disconnect.
Proof.
  intros s. unfold disconnect, bind, get. cbv beta iota.
  destruct (connection s); simpl; eauto. exists []. now rewrite app_nil_r.
Qed.

Lemma grows_reconnect : grows reconnect.
Proof.
  unfold reconnect. apply grows_bind; [apply grows_disconnect|]. intros _.
  intros s. unfold bind, get. cbv beta iota.
  destruct (accepting s); simpl; eauto. exists []. now rewrite app_nil_r.
Qed.

Create HintDb grows discriminated.
#[export] Hint Resolve grows_set_dbname grows_disconnect grows_reconnect : grows.













Lemma trace_connected s :
  trace (connected s) = (trace s ++ [Connect (sessions s) (dbname s)])%list.
Proof. reflexivity. Qed.


(** ** The properties on a concrete database *)

(** One whole run, with --no-order and --order-by both given: [main]
    returns 0 and the copy statement is [create_table] as it is. *)
Example whole_run_returns :
  exists s',
    main "pg_repack" "1.1.8" false RunExample.both_order_options ["db"]
         (RunExample.fresh RunExample.whole_run [0; 0; 1; 7; 7])
    = Ok 0 s'
    /\ replies s' = []
    /\ In (Query 0 "CREATE TABLE repack.table_16384 AS SELECT * FROM ONLY public.t" [])
          (trace s').
Proof.
  eexists. split; [vm_compute; reflexivity|].
  split; [reflexivity|]. vm_compute. tauto.
Qed.

Lemma copy_runs_delete_log_then_create_table_witness :
  exists r,
    nth_error (replies CopyExample.ready) (snapshot_position None) = Some r /\
    PQgetvalue r 0 0 = Some "{2/5}".
Proof.
  refine (proj1 (proj1 (proj2 (copy_runs_delete_log_then_create_table
                                 RunExample.job None CopyExample.ready))
                   "{2/5}"
                   (final (copy_tuples RunExample.job None CopyExample.ready))
                   _)).
  vm_compute. reflexivity.
Defined.



Lemma table_without_primary_key_is_refused_witness :
  read_table (tuples_ok [RunExample.nopk_row]) 0 None
             (RunExample.serving [] [])
  = Exit (no_primary_key_error "public.nopk") (RunExample.serving [] []).
Proof.
  refine (proj1 (table_without_primary_key_is_refused
                   "pg_repack" "1.1.8" true 60
                   (tuples_ok [RunExample.nopk_row]) 0 None "public.nopk"
                   (RunExample.serving [] []) _ _)).
  - reflexivity.
  - reflexivity.
Defined.


(** * Further properties of the client *)

(** ** OIDs as text: [utoa] and [getoid] *)

Lemma digits_step (k : Z) (a : ascii) acc r :
  C.digit_of a = Some k ->
  C.digits acc (String a r) = C.digits (10 * acc + k) r.
Proof. intros H. cbn [C.digits]. now rewrite H. Qed.

Lemma digits_of_uint_acc d : forall acc,
  C.digits (Zpos acc) (NilEmpty.string_of_uint d) = Zpos (Pos.of_uint_acc d acc).
Proof.
  induction d; intros acc; cbn [NilEmpty.string_of_uint Pos.of_uint_acc];
    try reflexivity;
    erewrite digits_step by (vm_compute; reflexivity);
    rewrite <- IHd; f_equal; lia.
Qed.

Lemma digits_of_uint d :
  C.digits 0 (NilEmpty.string_of_uint d) = Z.of_N (Pos.of_uint d).
Proof.
  induction d; cbn [NilEmpty.string_of_uint Pos.of_uint]; try reflexivity;
    erewrite digits_step by (vm_compute; reflexivity);
    [exact IHd | ..]; cbn [Z.of_N]; rewrite <- digits_of_uint_acc; f_equal.
Qed.

Lemma unsigned_text_is_plain d :
  C.sign_split (C.skip_space (NilZero.string_of_uint d))
  = (false, NilZero.string_of_uint d).
Proof. destruct d; reflexivity. Qed.

Lemma digits_of_NilZero d :
  C.digits 0 (NilZero.string_of_uint d) = Z.of_N (Pos.of_uint d).
Proof.
  destruct d; try apply digits_of_uint. reflexivity.
Qed.

(** [strtoul] reads back what ["%d"] printed for a value of the range of
    [unsigned long]. *)
Lemma strtoul_fmt_d z :
  0 <= z <= C.ULONG_MAX -> C.strtoul (C.fmt_d z) = z.
Proof.
  intros H. unfold C.strtoul, C.fmt_d.
  destruct z as [|p|p]; [reflexivity| |lia].
  cbn [Z.to_int NilZero.string_of_int].
  rewrite unsigned_text_is_plain, digits_of_NilZero, DecimalPos.Unsigned.of_to.
  cbn [Z.of_N]. destruct (Z.gtb_spec (Zpos p) C.ULONG_MAX); [lia | reflexivity].
Qed.

(** X1. [getoid] reads back the OID that [utoa] printed, whatever the
    value (both work modulo 2^32); what [getoid] returns is always in the
    range of an [Oid]; and a field that is NULL or out of range reads as
    [InvalidOid]. *)
Theorem getoid_reads_back_utoa (res : PGresult) (row col : nat) :
  (forall v,
      field res row col = Some (Some (utoa v)) ->
      getoid res row col = v mod 2 ^ 32)
  /\ 0 <= getoid res row col < 2 ^ 32
  /\ (getstr res row col = None -> getoid res row col = InvalidOid).
Proof.
  assert (B : 0 <= getoid res row col < 2 ^ 32).
  { unfold getoid. destruct (PQgetisnull res row col); [unfold InvalidOid; lia|].
    destruct (PQgetvalue res row col); [|unfold InvalidOid; lia].
    unfold C.wrap_uint. apply Z.mod_pos_bound. lia. }
  split; [|split; [exact B|]].
  - intros v F. unfold getoid, PQgetisnull, PQgetvalue. rewrite F.
    unfold utoa, C.fmt_u. rewrite strtoul_fmt_d.
    + unfold C.wrap_uint. apply Z.mod_mod. lia.
    + unfold C.wrap_uint, C.ULONG_MAX.
      pose proof (Z.mod_pos_bound v (2 ^ 32)). lia.
  - unfold getstr, getoid, PQgetisnull, PQgetvalue.
    destruct (field res row col) as [[v|]|]; try reflexivity. discriminate.
Qed.

Lemma getoid_reads_back_utoa_witness :
  getoid (tuples_ok [[Some "public.t"; Some (utoa 4294983680)]]) 0 1 = 16384.
Proof.
  refine (proj1 (getoid_reads_back_utoa
                   (tuples_ok [[Some "public.t"; Some (utoa 4294983680)]]) 0 1)
            4294983680 _).
  reflexivity.
Defined.

(** ** One database: [errbuf] and the session *)

Lemma substring_length_le s : forall n,
  (String.length (substring 0 n s) <= n)%nat.
Proof.
  induction s as [|a s IH]; intros [|n]; simpl; try lia.
  specialize (IH n). lia.
Qed.

Lemma substring_is_prefix s : forall n, prefix (substring 0 n s) s = true.
Proof.
  induction s as [|a s IH]; intros [|n]; simpl; try reflexivity.
  rewrite IH. now destruct (Ascii.ascii_dec a a).
Qed.

Lemma steady_read_table res i orderby : steady (read_table res i orderby).
Proof. unfold read_table. steady_tac. Qed.

Lemma steady_repack_one_table an wt t orderby :
  steady (repack_one_table an wt t orderby).
Proof.
  unfold repack_one_table. steady_tac;
    auto using steady_setup_workspace, steady_copy_tuples,
      steady_create_indexes, steady_drain_log, steady_swap, steady_drop,
      steady_analyze_table.
Qed.

Lemma steady_repack_tables_from an wt res orderby num : forall i,
  steady (repack_tables_from an wt res orderby i num).
Proof.
  induction num as [|num IH]; intros; simpl; steady_tac;
    auto using steady_read_table, steady_repack_one_table.
Qed.

Lemma steady_skip_reason PN res errbuf errsize :
  steady (skip_reason PN res errbuf errsize).
Proof. unfold skip_reason. steady_tac. Qed.

Lemma steady_check_version PN PV res errbuf errsize :
  steady (check_version PN PV res errbuf errsize).
Proof. unfold check_version. steady_tac; apply steady_skip_reason. Qed.

Lemma skip_reason_Ok_inv PN res errbuf errsize s eb s' :
  skip_reason PN res errbuf errsize s = Ok eb s' ->
  exists msg, eb = write_errbuf errbuf errsize msg.
Proof.
  unfold skip_reason, sqlstate_equals, bind.
  destruct (PQresultErrorField_SQLSTATE res); [|discriminate].
  unfold ret. destruct (C.streq _ _); intros [= <- _]; eauto.
Qed.

Lemma check_version_Some_inv PN PV res errbuf errsize s eb s' :
  check_version PN PV res errbuf errsize s = Ok (Some eb) s' ->
  exists msg, eb = write_errbuf errbuf errsize msg.
Proof.
  unfold check_version.
  destruct (ExecStatusType_eqb _ _).
  - destruct (getstr res 0 0); [|discriminate].
    destruct (negb _); [intros [= <- _]; eauto|].
    destruct (getstr res 0 1); [|discriminate].
    destruct (negb _); [intros [= <- _]; eauto | discriminate].
  - intros H. apply bind_Ok_inv in H as (eb0 & s1 & E & H).
    injection H as <- _. eapply skip_reason_Ok_inv; eauto.
Qed.

(** The way [repack_one_database] comes to its value: [Some eb] from
    a skip, with the text left in [errbuf], or all rows done. *)
Lemma repack_one_database_value PN PV an wt orderby table errbuf errsize
    s b eb s' :
  repack_one_database PN PV an wt orderby table errbuf errsize s
  = Ok (b, eb) s' ->
  (b = true /\ eb = errbuf)
  \/ (b = false /\ exists msg, eb = write_errbuf errbuf errsize msg).
Proof.
  intros H. unfold repack_one_database in H.
  apply bind_Ok_inv in H as (u & s1 & _ & H).
  apply bind_Ok_inv in H as (res & s2 & _ & H).
  apply bind_Ok_inv in H as (verdict & s3 & V & H).
  apply bind_Ok_inv in H as (r & s4 & E & H).
  apply bind_Ok_inv in H as (u' & s5 & _ & H). injection H as -> _.
  destruct verdict as [eb0|].
  - injection E as <- <- _. right. split; [reflexivity|].
    eapply check_version_Some_inv; eauto.
  - apply bind_Ok_inv in E as (? & ? & _ & E).
    apply bind_Ok_inv in E as (? & ? & _ & E).
    apply bind_Ok_inv in E as (? & ? & _ & E).
    destruct (tables_query orderby table) as [sql params].
    apply bind_Ok_inv in E as (res' & ? & _ & E).
    destruct (negb _).
    + apply bind_Ok_inv in E as (eb0 & ? & K & E). injection E as <- <- _.
      right. split; [reflexivity|]. eapply skip_reason_Ok_inv; eauto.
    + apply bind_Ok_inv in E as (? & ? & _ & E). injection E as <- <- _.
      left. auto.
Qed.

(** X2. When [repack_one_database] returns true it has not written to
    [errbuf]; when it returns false and [errbuf] is a buffer, the buffer
    holds the beginning of a message, at most [errsize - 1] bytes of it;
    a NULL [errbuf] stays NULL. *)
Theorem errbuf_is_written_only_on_skip_and_within_its_size
    (PROGRAM_NAME PROGRAM_VERSION : string) (analyze : bool)
    (wait_timeout : Z) (orderby table errbuf : cstring) (errsize : nat)
    (s : state) (b : bool) (eb : cstring) (s' : state) :
  repack_one_database PROGRAM_NAME PROGRAM_VERSION analyze wait_timeout
    orderby table errbuf errsize s = Ok (b, eb) s' ->
  (b = true -> eb = errbuf)
  /\ (b = false ->
      forall buffer, errbuf = Some buffer ->
      exists msg text,
        eb = Some text /\ prefix text msg = true /\
        (String.length text <= errsize - 1)%nat)
  /\ (errbuf = None -> eb = None).
Proof.
  intros H.
  destruct (repack_one_database_value _ _ _ _ _ _ _ _ _ _ _ _ H)
    as [[-> ->] | [-> [msg ->]]].
  - repeat split; auto. discriminate.
  - repeat split; try discriminate.
    + intros _ buffer ->. exists msg, (C.snprintf errsize msg).
      split; [reflexivity|]. unfold C.snprintf.
      split; [apply substring_is_prefix | apply substring_length_le].
    + now intros ->.
Qed.

Lemma errbuf_is_written_only_on_skip_and_within_its_size_witness :
  exists msg text,
    Some "program 'pg_repack 1.1.8' does not match database library 'pg_repack 1.1.7'"
    = Some text
    /\ prefix text msg = true /\ (String.length text <= 256 - 1)%nat.
Proof.
  refine (proj1 (proj2
            (errbuf_is_written_only_on_skip_and_within_its_size
               "pg_repack" "1.1.8" true 60 None None fresh_errbuf 256
               (RunExample.fresh
                  [RunExample.version_reply "pg_repack 1.1.7" "pg_repack 1.1.8"]
                  [])
               false _
               (final (repack_one_database "pg_repack" "1.1.8" true 60 None None
                         fresh_errbuf 256
                         (RunExample.fresh
                            [RunExample.version_reply "pg_repack 1.1.7"
                                                      "pg_repack 1.1.8"] [])))
               _))
            eq_refl EmptyString eq_refl).
  vm_compute. reflexivity.
Defined.

Lemma reconnect_Ok_inv s u s1 :
  connection s = None -> reconnect s = Ok u s1 -> s1 = connected s.
Proof.
  intros C. unfold reconnect, disconnect, bind, get. cbv beta iota.
  rewrite C. unfold ret. destruct (accepting s); [|discriminate].
  now intros [= _ <-].
Qed.

(** X3. A run of [repack_one_database] that returns has opened one
    session and closed it: between the two, every statement went to
    that session, and on return there is no connection left. *)
Theorem repack_one_database_closes_the_session_it_opened
    (PROGRAM_NAME PROGRAM_VERSION : string) (analyze : bool)
    (wait_timeout : Z) (orderby table errbuf : cstring) (errsize : nat)
    (s : state) (r : bool * cstring) (s' : state) :
  connection s = None ->
  repack_one_database PROGRAM_NAME PROGRAM_VERSION analyze wait_timeout
    orderby table errbuf errsize s = Ok r s' ->
  connection s' = None
  /\ exists d,
      trace s' = (trace s ++ [Connect (sessions s) (dbname s)] ++ d
                    ++ [Disconnect (sessions s)])%list
      /\ Forall (on_session (sessions s)) d.
Proof.
  intros C H. unfold repack_one_database in H.
  apply bind_Ok_inv in H as (u & s1 & E1 & H).
  apply (reconnect_Ok_inv _ _ _ C) in E1. subst s1.
  apply bind_Ok_inv in H as (res & s2 & E2 & H).
  apply bind_Ok_inv in H as (verdict & s3 & E3 & H).
  apply bind_Ok_inv in H as (r0 & s4 & E4 & H).
  apply bind_Ok_inv in H as (u' & s5 & E5 & H). injection H as _ <-.
  assert (X2 : extends (connected s) s2)
    by (eapply steady_Ok; [apply steady_execute_elevel | exact E2]).
  assert (X3 : extends s2 s3)
    by (eapply steady_Ok; [apply steady_check_version | exact E3]).
  assert (X4 : extends s3 s4).
  { eapply steady_Ok; [|exact E4]. steady_tac;
      auto using steady_skip_reason, steady_repack_tables_from. }
  pose proof (extends_trans _ _ _ (extends_trans _ _ _ X2 X3) X4)
    as [C4 [_ (d & T & F)]].
  change (connection (connected s)) with (Some (mkPGconn (sessions s) true))
    in C4.
  rewrite (disconnect_run _ _ C4) in E5. injection E5 as _ <-.
  split; [reflexivity|]. exists d. split; [|exact F].
  unfold disconnected, session_of. rewrite C4. simpl. rewrite T.
  simpl. now rewrite <- !app_assoc.
Qed.

Lemma repack_one_database_closes_the_session_it_opened_witness :
  connection
    (final (repack_one_database "pg_repack" "1.1.8" true 60 None None
              fresh_errbuf 256
              (RunExample.fresh
                 [RunExample.version_reply "pg_repack 1.1.7" "pg_repack 1.1.8"]
                 [])))
  = None.
Proof.
  refine (proj1 (repack_one_database_closes_the_session_it_opened
                   "pg_repack" "1.1.8" true 60 None None fresh_errbuf 256
                   (RunExample.fresh
                      [RunExample.version_reply "pg_repack 1.1.7"
                                                "pg_repack 1.1.8"] [])
                   (false, Some "program 'pg_repack 1.1.8' does not match database library 'pg_repack 1.1.7'")
                   _ eq_refl _)).
  vm_compute. reflexivity.
Defined.

(** ** One database: the statement that acquires the tables *)

Lemma repack_one_database_enumerate PN PV an wt orderby table errbuf errsize
    s rv k1 k2 k3 res rs :
  connection s = None -> accepting s = true ->
  replies s = rv :: k1 :: k2 :: k3 :: res :: rs ->
  PQresultStatus rv = PGRES_TUPLES_OK ->
  getstr rv 0 0 = Some (C.snprintf 64 (PN ++ " " ++ PV)) ->
  getstr rv 0 1 = Some (C.snprintf 64 (PN ++ " " ++ PV)) ->
  query_succeeded k1 = true -> query_succeeded k2 = true ->
  query_succeeded k3 = true ->
  repack_one_database PN PV an wt orderby table errbuf errsize s
  = bind (if negb (ExecStatusType_eqb (PQresultStatus res) PGRES_TUPLES_OK)
          then bind (skip_reason PN res errbuf errsize)
                    (fun eb => ret (false, eb))
          else bind (repack_tables_from an wt res orderby 0
                       (List.length (tuples res)))
                    (fun _ => ret (true, errbuf)))
         (fun r => bind disconnect (fun _ => ret r))
         (enumerated orderby table rs s).
Proof.
  intros C A R St V0 V1 Q1 Q2 Q3.
  set (c := mkPGconn (sessions s) true).
  unfold repack_one_database, bind.
  rewrite reconnect_run by assumption. cbv beta iota.
  rewrite (execute_elevel_DEBUG2_run c) by reflexivity.
  change (replies (connected s)) with (replies s). rewrite R. cbv beta iota.
  rewrite check_version_pass by assumption. cbv beta iota.
  rewrite (command_run c) by reflexivity.
  rewrite replies_answered, Q1. cbv beta iota.
  rewrite (command_run c) by reflexivity.
  rewrite replies_answered, Q2. cbv beta iota.
  rewrite (command_run c) by reflexivity.
  rewrite replies_answered, Q3. cbv beta iota.
  unfold enumerated. fold c.
  destruct (tables_query orderby table) as [sql params]. cbn [fst snd].
  rewrite (execute_elevel_DEBUG2_run c) by reflexivity.
  rewrite replies_answered. cbv beta iota.
  destruct (negb _); cbv beta iota.
  - destruct (skip_reason _ _ _ _ _); reflexivity.
  - destruct (repack_tables_from _ _ _ _ _ _ _); reflexivity.
Qed.

Lemma trace_disconnected_enumerated orderby table rs s :
  trace (disconnected (enumerated orderby table rs s))
  = (trace s
       ++ [Connect (sessions s) (dbname s);
           Query (sessions s) SQL_VERSION [];
           Query (sessions s) "SET statement_timeout = 0" [];
           Query (sessions s)
             "SET search_path = pg_catalog, pg_temp, public" [];
           Query (sessions s) "SET client_min_messages = warning" [];
           Query (sessions s) (fst (tables_query orderby table))
             (snd (tables_query orderby table));
           Disconnect (sessions s)])%list.
Proof. simpl. now rewrite <- !app_assoc. Qed.

(** X4. When the statement that acquires the tables fails with an
    SQLSTATE, the database is skipped: [repack_one_database] returns
    false, the reason being that the program is not installed for
    SQLSTATE 3F000 and the server's message otherwise, and the session
    has seen the probe, the three SET statements, the failed statement
    and the disconnect, nothing else.  When it fails without an SQLSTATE
    the database is not skipped: the NULL field goes to [strcmp], which
    is undefined, and the run stops at the failed statement, the session
    left open. *)
Theorem failed_enumeration_skips_the_database
    (PROGRAM_NAME PROGRAM_VERSION : string) (analyze : bool)
    (wait_timeout : Z) (orderby table errbuf : cstring) (errsize : nat)
    (s : state) (rv k1 k2 k3 res : PGresult) (rs : list PGresult) :
  connection s = None -> accepting s = true ->
  replies s = rv :: k1 :: k2 :: k3 :: res :: rs ->
  PQresultStatus rv = PGRES_TUPLES_OK ->
  getstr rv 0 0
  = Some (C.snprintf 64 (PROGRAM_NAME ++ " " ++ PROGRAM_VERSION)) ->
  getstr rv 0 1
  = Some (C.snprintf 64 (PROGRAM_NAME ++ " " ++ PROGRAM_VERSION)) ->
  query_succeeded k1 = true -> query_succeeded k2 = true ->
  query_succeeded k3 = true ->
  PQresultStatus res <> PGRES_TUPLES_OK ->
  let run :=
    repack_one_database PROGRAM_NAME PROGRAM_VERSION analyze wait_timeout
      orderby table errbuf errsize s in
  let sent :=
    (trace s
       ++ [Connect (sessions s) (dbname s);
           Query (sessions s) SQL_VERSION [];
           Query (sessions s) "SET statement_timeout = 0" [];
           Query (sessions s)
             "SET search_path = pg_catalog, pg_temp, public" [];
           Query (sessions s) "SET client_min_messages = warning" [];
           Query (sessions s) (fst (tables_query orderby table))
             (snd (tables_query orderby table))])%list in
  (forall st,
      sqlstate res = Some st ->
      let reason :=
        if String.eqb st "3F000"
        then PROGRAM_NAME ++ " is not installed in the database"
        else errmsg res in
      let s' := disconnected (enumerated orderby table rs s) in
      run = Ok (false, write_errbuf errbuf errsize reason) s'
      /\ trace s' = (sent ++ [Disconnect (sessions s)])%list
      /\ replies s' = rs /\ connection s' = None)
  /\ (sqlstate res = None ->
      let s' := enumerated orderby table rs s in
      run = Undefined s'
      /\ trace s' = sent
      /\ connection s' = Some (mkPGconn (sessions s) true)).
Proof.
  intros C A R St V0 V1 Q1 Q2 Q3 St' run sent.
  assert (E : run
              = bind (bind (skip_reason PROGRAM_NAME res errbuf errsize)
                           (fun eb => ret (false, eb)))
                     (fun r => bind disconnect (fun _ => ret r))
                     (enumerated orderby table rs s)).
  { unfold run.
    rewrite (repack_one_database_enumerate _ _ _ _ _ _ _ _ _ rv k1 k2 k3 res
               rs) by assumption.
    now rewrite (not_TUPLES_OK res St'). }
  split.
  - intros st Sq reason s'.
    split; [|split; [|split; reflexivity]].
    + rewrite E.
      unfold bind, skip_reason, sqlstate_equals, PQresultErrorField_SQLSTATE,
        bind.
      rewrite Sq. unfold ret at 1.
      unfold C.streq, SQLSTATE_INVALID_SCHEMA_NAME. unfold reason.
      destruct (String.eqb st "3F000"); unfold ret at 1 2;
        erewrite disconnect_run by reflexivity; reflexivity.
    + unfold s', sent. rewrite trace_disconnected_enumerated.
      now rewrite <- app_assoc.
  - intros Sq s'. split; [|split; [apply trace_enumerated | reflexivity]].
    rewrite E.
    unfold bind, skip_reason, sqlstate_equals, PQresultErrorField_SQLSTATE,
      bind.
    rewrite Sq. reflexivity.
Qed.

(** X5. When the statement that acquires the tables returns no row,
    [repack_one_database] returns true without touching [errbuf]: after
    that statement the session sees only the disconnect. *)
Theorem empty_enumeration_processes_nothing
    (PROGRAM_NAME PROGRAM_VERSION : string) (analyze : bool)
    (wait_timeout : Z) (orderby table errbuf : cstring) (errsize : nat)
    (s : state) (rv k1 k2 k3 res : PGresult) (rs : list PGresult) :
  connection s = None -> accepting s = true ->
  replies s = rv :: k1 :: k2 :: k3 :: res :: rs ->
  PQresultStatus rv = PGRES_TUPLES_OK ->
  getstr rv 0 0
  = Some (C.snprintf 64 (PROGRAM_NAME ++ " " ++ PROGRAM_VERSION)) ->
  getstr rv 0 1
  = Some (C.snprintf 64 (PROGRAM_NAME ++ " " ++ PROGRAM_VERSION)) ->
  query_succeeded k1 = true -> query_succeeded k2 = true ->
  query_succeeded k3 = true ->
  PQresultStatus res = PGRES_TUPLES_OK ->
  tuples res = [] ->
  let s' := disconnected (enumerated orderby table rs s) in
  repack_one_database PROGRAM_NAME PROGRAM_VERSION analyze wait_timeout
    orderby table errbuf errsize s
  = Ok (true, errbuf) s'
  /\ trace s'
     = (trace s
          ++ [Connect (sessions s) (dbname s);
              Query (sessions s) SQL_VERSION [];
              Query (sessions s) "SET statement_timeout = 0" [];
              Query (sessions s)
                "SET search_path = pg_catalog, pg_temp, public" [];
              Query (sessions s) "SET client_min_messages = warning" [];
              Query (sessions s) (fst (tables_query orderby table))
                (snd (tables_query orderby table));
              Disconnect (sessions s)])%list
  /\ replies s' = rs.
Proof.
  intros C A R St V0 V1 Q1 Q2 Q3 St' E s'.
  split; [|split; [apply trace_disconnected_enumerated | reflexivity]].
  rewrite (repack_one_database_enumerate _ _ _ _ _ _ _ _ _ rv k1 k2 k3 res rs)
    by assumption.
  apply ExecStatusType_eqb_spec in St'. rewrite St', E. cbn [negb].
  simpl repack_tables_from. unfold bind, ret.
  erewrite disconnect_run by reflexivity. reflexivity.
Qed.

Lemma failed_enumeration_skips_the_database_witness :
  repack_one_database "pg_repack" "1.1.8" true 60 None None fresh_errbuf 256
    (RunExample.fresh
       [RunExample.version_reply "pg_repack 1.1.8" "pg_repack 1.1.8";
        command_ok; command_ok; command_ok;
        server_error "42501" "ERROR:  permission denied for schema repack"]
       [])
  = Ok (false, Some "ERROR:  permission denied for schema repack")
       (disconnected (enumerated None None [] (RunExample.fresh [] []))).
Proof.
  refine (proj1 (proj1 (failed_enumeration_skips_the_database
                   "pg_repack" "1.1.8" true 60 None None fresh_errbuf 256
                   (RunExample.fresh
                      [RunExample.version_reply "pg_repack 1.1.8"
                                                "pg_repack 1.1.8";
                       command_ok; command_ok; command_ok;
                       server_error "42501"
                         "ERROR:  permission denied for schema repack"] [])
                   (RunExample.version_reply "pg_repack 1.1.8" "pg_repack 1.1.8")
                   command_ok command_ok command_ok
                   (server_error "42501"
                      "ERROR:  permission denied for schema repack")
                   []
                   eq_refl eq_refl eq_refl eq_refl eq_refl eq_refl
                   eq_refl eq_refl eq_refl _) "42501" eq_refl)).
  discriminate.
Defined.

Lemma empty_enumeration_processes_nothing_witness :
  repack_one_database "pg_repack" "1.1.8" true 60 None None fresh_errbuf 256
    (RunExample.fresh
       [RunExample.version_reply "pg_repack 1.1.8" "pg_repack 1.1.8";
        command_ok; command_ok; command_ok; tuples_ok []] [])
  = Ok (true, fresh_errbuf)
       (disconnected (enumerated None None [] (RunExample.fresh [] []))).
Proof.
  refine (proj1 (empty_enumeration_processes_nothing
                   "pg_repack" "1.1.8" true 60 None None fresh_errbuf 256
                   (RunExample.fresh
                      [RunExample.version_reply "pg_repack 1.1.8"
                                                "pg_repack 1.1.8";
                       command_ok; command_ok; command_ok; tuples_ok []] [])
                   (RunExample.version_reply "pg_repack 1.1.8" "pg_repack 1.1.8")
                   command_ok command_ok command_ok (tuples_ok []) []
                   eq_refl eq_refl eq_refl eq_refl eq_refl eq_refl
                   eq_refl eq_refl eq_refl eq_refl eq_refl)).
Defined.

(** ** The command line *)

Lemma check_version_error PN PV r errbuf errsize st s :
  PQresultStatus r <> PGRES_TUPLES_OK -> sqlstate r = Some st ->
  check_version PN PV r errbuf errsize s
  = Ok (Some (write_errbuf errbuf errsize (skip_message PN r st))) s.
Proof.
  intros St Sq. unfold check_version. rewrite (not_TUPLES_OK r St).
  unfold skip_reason, sqlstate_equals, PQresultErrorField_SQLSTATE, bind.
  rewrite Sq. unfold ret at 1, skip_message, C.streq,
    SQLSTATE_INVALID_SCHEMA_NAME.
  now destruct (String.eqb st "3F000").
Qed.

(** X6. [main] refuses more than one database name, and a table name
    together with --all, before it connects or sends anything: the
    process ends with the EINVAL error and the trace is as it was. *)
Theorem main_refuses_bad_arguments_before_connecting
    (PROGRAM_NAME PROGRAM_VERSION : string) (verbose : bool)
    (o : options) (args : list string) (s : state) :
  ((2 <= List.length args)%nat ->
   main PROGRAM_NAME PROGRAM_VERSION verbose o args s
   = Exit (ereport_ERROR EINVAL "too many arguments") s)
  /\ ((List.length args <= 1)%nat ->
      alldb o = true -> table o <> None ->
      exists s',
        main PROGRAM_NAME PROGRAM_VERSION verbose o args s
        = Exit (ereport_ERROR EINVAL
                  "cannot repack a specific table in all databases") s'
        /\ trace s' = trace s /\ connection s' = connection s
        /\ replies s' = replies s).
Proof.
  split.
  - intros L. destruct args as [|a [|b args]]; simpl in L; try lia.
    reflexivity.
  - intros L A T. unfold main. rewrite A.
    destruct (table o) as [t|]; [|contradiction].
    destruct args as [|a [|b args]]; simpl in L; try lia;
      eexists; (split; [reflexivity|]); auto.
Qed.

Lemma main_refuses_bad_arguments_before_connecting_witness :
  main "pg_repack" "1.1.8" false RunExample.both_order_options
       ["db"; "other"] (RunExample.fresh RunExample.whole_run [])
  = Exit (ereport_ERROR EINVAL "too many arguments")
         (RunExample.fresh RunExample.whole_run []).
Proof.
  refine (proj1 (main_refuses_bad_arguments_before_connecting
                   "pg_repack" "1.1.8" false RunExample.both_order_options
                   ["db"; "other"] (RunExample.fresh RunExample.whole_run []))
            _).
  simpl. lia.
Defined.

(** X7. In single-database mode a database that cannot be probed is a
    hard error: when the probe fails, [main] ends the process with the
    skip reason as its message (cut to the 256 bytes of [errbuf]), after
    the connect, the probe and the disconnect. *)
Theorem main_fails_when_the_database_is_skipped
    (PROGRAM_NAME PROGRAM_VERSION : string) (verbose : bool)
    (o : options) (args : list string) (s : state)
    (r : PGresult) (rs : list PGresult) (st : string) :
  alldb o = false ->
  (List.length args <= 1)%nat ->
  connection s = None -> accepting s = true ->
  replies s = r :: rs ->
  PQresultStatus r <> PGRES_TUPLES_OK ->
  sqlstate r = Some st ->
  exists s',
    main PROGRAM_NAME PROGRAM_VERSION verbose o args s
    = Exit (ereport_ERROR E_ERROR
              (C.snprintf 256 (skip_message PROGRAM_NAME r st))) s'
    /\ trace s'
       = (trace s ++ [Connect (sessions s) (target_database args s);
                      Query (sessions s) SQL_VERSION [];
                      Disconnect (sessions s)])%list
    /\ replies s' = rs.
Proof.
  intros A L C Acc R St Sq. unfold main. rewrite A.
  assert (Go : forall s0 : state,
             connection s0 = None -> accepting s0 = true ->
             replies s0 = r :: rs ->
             exists s',
               bind (bind (repack_one_database PROGRAM_NAME PROGRAM_VERSION
                             (analyze o) (wait_timeout o)
                             (if noorder o then Some EmptyString
                              else orderby o)
                             (table o) fresh_errbuf 256)
                          (fun r0 =>
                             if fst r0 then ret tt
                             else bind (arg_s (snd r0))
                                       (fun eb => ereport_error E_ERROR eb)))
                    (fun _ => ret 0) s0
               = Exit (ereport_ERROR E_ERROR
                         (C.snprintf 256 (skip_message PROGRAM_NAME r st))) s'
               /\ trace s'
                  = (trace s0 ++ [Connect (sessions s0) (dbname s0);
                                  Query (sessions s0) SQL_VERSION [];
                                  Disconnect (sessions s0)])%list
               /\ replies s' = rs).
  { intros s0 C0 A0 R0.
    destruct (repack_one_database_skips PROGRAM_NAME PROGRAM_VERSION
                (analyze o) (wait_timeout o)
                (if noorder o then Some EmptyString else orderby o)
                (table o) fresh_errbuf 256 s0 r rs
                (write_errbuf fresh_errbuf 256
                   (skip_message PROGRAM_NAME r st)) C0 A0 R0)
      as (s' & E & T & _ & R').
    { intros. now apply check_version_error. }
    exists s'. unfold bind. rewrite E. simpl. auto. }
  destruct args as [|db [|db' args]]; [| |simpl in L; lia].
  - unfold bind at 1, ret at 1. now apply Go.
  - unfold bind at 1, modify at 1.
    destruct (Go (set_dbname (Some db) s) C Acc R) as (s' & E & T & R').
    exists s'. auto.
Qed.

Lemma main_fails_when_the_database_is_skipped_witness :
  exists s',
    main "pg_repack" "1.1.8" false RunExample.both_order_options ["db"]
         (RunExample.fresh
            [server_error "3F000" "ERROR:  schema repack does not exist"] [])
    = Exit (ereport_ERROR E_ERROR "pg_repack is not installed in the database")
           s'.
Proof.
  destruct (main_fails_when_the_database_is_skipped
              "pg_repack" "1.1.8" false RunExample.both_order_options ["db"]
              (RunExample.fresh
                 [server_error "3F000" "ERROR:  schema repack does not exist"]
                 [])
              (server_error "3F000" "ERROR:  schema repack does not exist")
              [] "3F000" eq_refl (le_n 1) eq_refl eq_refl eq_refl
              ltac:(discriminate) eq_refl)
    as (s' & E & _).
  exists s'. exact E.
Defined.

(** ** All databases *)

Lemma repack_one_database_skips_at PN PV an wt orderby table errbuf errsize
    s r rs eb :
  connection s = None -> accepting s = true -> replies s = r :: rs ->
  (forall s', check_version PN PV r errbuf errsize s' = Ok (Some eb) s') ->
  repack_one_database PN PV an wt orderby table errbuf errsize s
  = Ok (false, eb)
       (disconnected (answered (mkPGconn (sessions s) true) SQL_VERSION []
                               rs (connected s))).
Proof.
  intros C A R V. unfold repack_one_database, bind.
  rewrite reconnect_run by assumption.
  rewrite (execute_elevel_DEBUG2_run (mkPGconn (sessions s) true))
    by reflexivity.
  change (replies (connected s)) with (replies s). rewrite R, V.
  unfold ret at 1.
  erewrite disconnect_run by reflexivity. reflexivity.
Qed.

Lemma PQgetvalue_datname result names i d :
  tuples result = map (fun d => [Some d]) names ->
  nth_error names i = Some d ->
  PQgetvalue result i 0 = Some d.
Proof.
  intros T N. unfold PQgetvalue, field. rewrite T, nth_error_map, N.
  reflexivity.
Qed.

Lemma repack_database_at_skipped PN PV an wt verbose orderby result i
    s db r rs :
  PQgetvalue result i 0 = Some db ->
  connection s = None -> accepting s = true -> replies s = r :: rs ->
  failed_with_sqlstate r ->
  exists s',
    repack_database_at PN PV an wt verbose orderby result i s = Ok tt s'
    /\ trace s' = (trace s ++ skipped_visit PN verbose (sessions s) db r)%list
    /\ connection s' = None /\ accepting s' = true /\ replies s' = rs
    /\ sessions s' = S (sessions s).
Proof.
  intros G C A R [St Sq].
  destruct (sqlstate r) as [st|] eqn:Sq'; [clear Sq | contradiction].
  unfold repack_database_at, skipped_visit, reason_of. rewrite Sq', G.
  destruct verbose;
    unfold bind, printf, emit, modify, get, arg_s, ret; cbn [dbname set_dbname];
    rewrite (repack_one_database_skips_at _ _ _ _ _ _ _ _ _ r rs
               (write_errbuf fresh_errbuf 256 (skip_message PN r st)))
      by (auto; intros; now apply check_version_error);
    cbn [fst snd write_errbuf fresh_errbuf];
    (eexists; split; [reflexivity|]; repeat split; auto;
     simpl; now rewrite <- ?app_assoc).
Qed.

Lemma repack_database_at_stopped PN PV an wt verbose orderby result i
    s db r rs :
  PQgetvalue result i 0 = Some db ->
  connection s = None -> accepting s = true -> replies s = r :: rs ->
  PQresultStatus r <> PGRES_TUPLES_OK -> sqlstate r = None ->
  exists s',
    repack_database_at PN PV an wt verbose orderby result i s = Undefined s'
    /\ trace s' = (trace s ++ stopped_visit PN verbose (sessions s) db)%list.
Proof.
  intros G C A R St Sq.
  unfold repack_database_at, stopped_visit. rewrite G.
  destruct verbose;
    unfold bind, printf, emit, modify, get, arg_s, ret; cbn [dbname set_dbname];
    rewrite (repack_one_database_probe_without_sqlstate _ _ _ _ _ _ _ _ _ r rs)
      by auto;
    (eexists; split; [reflexivity|]; simpl; now rewrite <- ?app_assoc).
Qed.

(** The loop over the databases after those whose probe failed with an
    SQLSTATE. *)
Lemma repack_databases_from_skipped PN PV an wt verbose orderby result
    dbs : forall errs rest m i s,
  (forall j d, nth_error dbs j = Some d ->
               PQgetvalue result (i + j) 0 = Some d) ->
  connection s = None -> accepting s = true ->
  replies s = (errs ++ rest)%list ->
  List.length errs = List.length dbs ->
  Forall failed_with_sqlstate errs ->
  exists s',
    repack_databases_from PN PV an wt verbose orderby result i
      (List.length dbs + m) s
    = repack_databases_from PN PV an wt verbose orderby result
        (i + List.length dbs) m s'
    /\ trace s'
       = (trace s ++ skipped_visits PN verbose (sessions s) dbs errs)%list
    /\ connection s' = None /\ accepting s' = true /\ replies s' = rest
    /\ sessions s' = (sessions s + List.length dbs)%nat.
Proof.
  induction dbs as [|db dbs IH]; intros errs rest m i s G C A R L F.
  - destruct errs; [|discriminate]. exists s. simpl.
    rewrite app_nil_r, !Nat.add_0_r. auto 6.
  - destruct errs as [|r errs]; [discriminate|].
    inversion F as [|? ? Fr Frest]; subst.
    destruct (repack_database_at_skipped PN PV an wt verbose orderby result
                i s db r (errs ++ rest)%list)
      as (s1 & E1 & T1 & C1 & A1 & R1 & S1); auto.
    { specialize (G 0%nat db eq_refl). now rewrite Nat.add_0_r in G. }
    destruct (IH errs rest m (S i) s1)
      as (s' & E & T & C' & A' & R' & S'); auto.
    { intros j d N. specialize (G (S j) d N).
      now rewrite Nat.add_succ_r in G. }
    exists s'. cbn [List.length Nat.add repack_databases_from]. unfold bind.
    rewrite E1, E. rewrite Nat.add_succ_r. repeat split; auto.
    + rewrite T, T1, S1. cbn [skipped_visits]. now rewrite <- app_assoc.
    + rewrite S', S1. lia.
Qed.

(** X8. In --all mode a database whose probe fails with an SQLSTATE does
    not stop the run: when the probe of every listed database fails that
    way, [repack_all_databases] visits each of them once, in the order
    of the list, each on a session of its own (connect, probe,
    disconnect, and with messages on, its name before and the skip
    reason after), and returns.  A probe that fails without SQLSTATE
    does stop it: after the databases skipped before it, the run ends at
    that probe, undefined, and the databases after it are not visited. *)
Theorem all_databases_are_visited_when_each_is_skipped
    (PROGRAM_NAME PROGRAM_VERSION : string) (analyze : bool)
    (wait_timeout : Z) (verbose : bool) (orderby : cstring) (s : state)
    (result : PGresult) (dbs : list string) (errs : list PGresult) :
  connection s = None -> accepting s = true ->
  query_succeeded result = true ->
  List.length errs = List.length dbs ->
  Forall failed_with_sqlstate errs ->
  let run :=
    repack_all_databases PROGRAM_NAME PROGRAM_VERSION analyze wait_timeout
      verbose orderby s in
  let visited :=
    (trace s
       ++ [Connect (sessions s) (Some "postgres");
           Query (sessions s) SQL_DATABASES [];
           Disconnect (sessions s)]
       ++ skipped_visits PROGRAM_NAME verbose (S (sessions s)) dbs errs)%list
  in
  (replies s = result :: errs ->
   tuples result = map (fun d => [Some d]) dbs ->
   exists s',
     run = Ok tt s' /\ trace s' = visited /\
     connection s' = None /\ replies s' = [])
  /\ (forall db more r rest,
        replies s = (result :: errs ++ r :: rest)%list ->
        tuples result = map (fun d => [Some d]) (dbs ++ db :: more) ->
        PQresultStatus r <> PGRES_TUPLES_OK -> sqlstate r = None ->
        exists s',
          run = Undefined s' /\
          trace s'
          = (visited
               ++ stopped_visit PROGRAM_NAME verbose
                    (S (sessions s) + List.length dbs) db)%list).
Proof.
  intros C A Q L F run visited.
  assert (Start : forall rs,
             replies s = result :: rs ->
             run
             = repack_databases_from PROGRAM_NAME PROGRAM_VERSION analyze
                 wait_timeout verbose orderby result 0
                 (List.length (tuples result))
                 (disconnected
                    (answered (mkPGconn (sessions s) true) SQL_DATABASES []
                       rs (connected (set_dbname (Some "postgres") s))))).
  { intros rs R. unfold run, repack_all_databases.
    unfold bind at 1, modify at 1. unfold bind at 1.
    rewrite reconnect_run by assumption.
    unfold bind at 1. fold SQL_DATABASES.
    rewrite (execute_run (mkPGconn (sessions s) true)) by reflexivity.
    change (replies (connected (set_dbname (Some "postgres") s)))
      with (replies s).
    rewrite R, Q. unfold bind at 1.
    erewrite disconnect_run by reflexivity. reflexivity. }
  split.
  - intros R T. rewrite (Start errs R), T, length_map.
    rewrite <- (Nat.add_0_r (List.length dbs)).
    match goal with
    | |- context [repack_databases_from _ _ _ _ _ _ _ _ _ ?s0] =>
        destruct (repack_databases_from_skipped PROGRAM_NAME PROGRAM_VERSION
                    analyze wait_timeout verbose orderby result dbs errs []
                    0%nat 0%nat s0)
          as (s' & E & T' & C' & A' & R' & S'); auto
    end.
    { intros j d N. simpl. eapply PQgetvalue_datname; eauto. }
    { now rewrite app_nil_r. }
    exists s'. rewrite E. cbn [repack_databases_from].
    split; [reflexivity|]. repeat split; auto.
    unfold visited. rewrite T'. simpl. now rewrite <- !app_assoc.
  - intros db more r rest R T St Sq.
    rewrite (Start (errs ++ r :: rest)%list R), T, length_map, length_app.
    match goal with
    | |- context [repack_databases_from _ _ _ _ _ _ _ _ _ ?s0] =>
        destruct (repack_databases_from_skipped PROGRAM_NAME PROGRAM_VERSION
                    analyze wait_timeout verbose orderby result dbs errs
                    (r :: rest) (List.length (db :: more)) 0%nat s0)
          as (s1 & E & T1 & C1 & A1 & R1 & S1); auto
    end.
    { intros j d N. simpl. eapply PQgetvalue_datname; eauto.
      rewrite nth_error_app1; [exact N|]. apply nth_error_Some. congruence. }
    rewrite E. cbn [List.length repack_databases_from]. unfold bind at 1.
    destruct (repack_database_at_stopped PROGRAM_NAME PROGRAM_VERSION analyze
                wait_timeout verbose orderby result
                (0 + List.length dbs) s1 db r rest)
      as (s' & E' & T'); auto.
    { eapply PQgetvalue_datname; eauto.
      rewrite nth_error_app2 by (simpl; lia).
      replace (0 + List.length dbs - List.length dbs)%nat with 0%nat by lia.
      reflexivity. }
    rewrite E'. exists s'. split; [reflexivity|].
    rewrite T', T1, S1. unfold visited. simpl.
    now rewrite <- !app_assoc.
Qed.

Lemma all_databases_are_visited_when_each_is_skipped_witness :
  exists s',
    repack_all_databases "pg_repack" "1.1.8" true 60 false None
      (RunExample.fresh
         [tuples_ok [[Some "postgres"]; [Some "template1"]];
          server_error "3F000" "ERROR:  schema repack does not exist";
          server_error "42883" "ERROR:  function does not exist"] [])
    = Ok tt s'
    /\ trace s'
       = [Connect 0 (Some "postgres"); Query 0 SQL_DATABASES []; Disconnect 0;
          Connect 1 (Some "postgres"); Query 1 SQL_VERSION []; Disconnect 1;
          Connect 2 (Some "template1"); Query 2 SQL_VERSION [];
          Disconnect 2].
Proof.
  destruct (all_databases_are_visited_when_each_is_skipped
              "pg_repack" "1.1.8" true 60 false None
              (RunExample.fresh
                 [tuples_ok [[Some "postgres"]; [Some "template1"]];
                  server_error "3F000" "ERROR:  schema repack does not exist";
                  server_error "42883" "ERROR:  function does not exist"] [])
              (tuples_ok [[Some "postgres"]; [Some "template1"]])
              ["postgres"; "template1"]
              [server_error "3F000" "ERROR:  schema repack does not exist";
               server_error "42883" "ERROR:  function does not exist"]
              eq_refl eq_refl eq_refl eq_refl)
    as (H & _).
  - repeat constructor; discriminate.
  - destruct (H eq_refl eq_refl) as (s' & E & T & _).
    exists s'. split; [exact E | exact T].
Defined.

(** ** The buffer of [utoa] *)

Lemma digits_lower_bound d : forall acc,
  0 <= acc ->
  acc * 10 ^ Z.of_nat (String.length (NilEmpty.string_of_uint d))
  <= C.digits acc (NilEmpty.string_of_uint d).
Proof.
  induction d; intros acc A;
    cbn [NilEmpty.string_of_uint String.length];
    try (cbn [C.digits]; simpl; lia);
    (erewrite digits_step by (vm_compute; reflexivity);
     rewrite Nat2Z.inj_succ, Z.pow_succ_r by lia;
     match goal with
     | |- _ <= C.digits ?a _ =>
         specialize (IHd a ltac:(lia)); 
         assert (0 <= 10 ^ Z.of_nat (String.length (NilEmpty.string_of_uint d)))
           by (apply Z.pow_nonneg; lia);
         nia
     end).
Qed.

Lemma nzhead_head d :
  match Decimal.nzhead d with Decimal.D0 _ => False | _ => True end.
Proof. induction d; simpl; auto. Qed.

Lemma to_uint_head p :
  match Pos.to_uint p with
  | Decimal.Nil | Decimal.D0 _ => False
  | _ => True
  end.
Proof.
  pose proof (DecimalPos.Unsigned.to_of (Pos.to_uint p)) as H.
  rewrite DecimalPos.Unsigned.of_to in H. cbn [N.to_uint] in H.
  pose proof (nzhead_head (Pos.to_uint p)) as Z.
  unfold Decimal.unorm in H.
  destruct (Decimal.nzhead (Pos.to_uint p)) eqn:E; rewrite H; auto.
  pose proof (DecimalPos.Unsigned.of_to p) as O. rewrite H in O.
  discriminate.
Qed.

Lemma fmt_d_length p :
  Zpos p < 10 ^ 10 ->
  (String.length (C.fmt_d (Zpos p)) <= 10)%nat.
Proof.
  intros B. unfold C.fmt_d. cbn [Z.to_int NilZero.string_of_int].
  pose proof (digits_of_NilZero (Pos.to_uint p)) as V.
  rewrite DecimalPos.Unsigned.of_to in V. cbn [Z.of_N] in V.
  pose proof (to_uint_head p) as H.
  destruct (Pos.to_uint p) as [|d|d|d|d|d|d|d|d|d|d] eqn:E;
    try contradiction;
    cbn [NilZero.string_of_uint NilEmpty.string_of_uint String.length] in *;
    erewrite digits_step in V by (vm_compute; reflexivity);
    match type of V with
    | C.digits ?a _ = _ =>
        pose proof (digits_lower_bound d a ltac:(lia)) as L
    end;
    rewrite V in L;
    destruct (Nat.le_gt_cases (String.length (NilEmpty.string_of_uint d)) 9)
      as [|G]; try lia;
    assert (10 ^ 10 <= 10 ^ Z.of_nat (String.length (NilEmpty.string_of_uint d)))
      by (apply Z.pow_le_mono_r; lia);
    nia.
Qed.

(** X9. What [utoa] prints fits the buffers it is given: it is never
    empty and at most 10 characters long, so with the final NUL it takes
    at most the 11 bytes asked for, and the [char buffer[12]] of the
    callers is never overrun, whatever the value. *)
Theorem utoa_fits_its_buffer (value : Z) :
  (1 <= String.length (utoa value) <= 10)%nat.
Proof.
  unfold utoa, C.fmt_u, C.wrap_uint.
  pose proof (Z.mod_pos_bound value (2 ^ 32) ltac:(lia)) as B.
  destruct (value mod 2 ^ 32) as [|p|p] eqn:E; [simpl; lia | | lia].
  split; [|apply fmt_d_length; lia].
  unfold C.fmt_d. cbn [Z.to_int NilZero.string_of_int].
  pose proof (to_uint_head p).
  destruct (Pos.to_uint p); try contradiction; simpl; lia.
Qed.

(** ** The cleanup hook of a table *)

Lemma keeps_hooks_silent {A} (m : M A) :
  (forall s, final (m s) = s) -> keeps_hooks m.
Proof. intros H s. now rewrite H. Qed.

Lemma keeps_hooks_bind {A B} (m : M A) (k : A -> M B) :
  keeps_hooks m -> (forall a, keeps_hooks (k a)) -> keeps_hooks (bind m k).
Proof.
  intros Hm Hk s. specialize (Hm s). unfold bind.
  destruct (m s) as [a s1| | |]; simpl in *; auto.
  now rewrite Hk.
Qed.

Lemma keeps_hooks_ret {A} (a : A) : keeps_hooks (ret a).
Proof. now apply keeps_hooks_silent. Qed.

Lemma keeps_hooks_get {A} (f : state -> A) : keeps_hooks (get f).
Proof. now apply keeps_hooks_silent. Qed.

Lemma keeps_hooks_emit e : keeps_hooks (emit e).
Proof. intros s. reflexivity. Qed.

Lemma keeps_hooks_undefined {A} : keeps_hooks (@undefined A).
Proof. now apply keeps_hooks_silent. Qed.

Lemma keeps_hooks_running {A} : keeps_hooks (@running A).
Proof. now apply keeps_hooks_silent. Qed.

Lemma keeps_hooks_exit {A} code : keeps_hooks (@exit A code).
Proof. now apply keeps_hooks_silent. Qed.

Lemma keeps_hooks_ereport_error {A} code msg :
  keeps_hooks (@ereport_error A code msg).
Proof. now apply keeps_hooks_silent. Qed.

Lemma keeps_hooks_elog level msg : keeps_hooks (elog level msg).
Proof.
  destruct level; simpl; try apply keeps_hooks_ret; apply keeps_hooks_emit.
Qed.

Lemma keeps_hooks_printf msg : keeps_hooks (printf msg).
Proof. apply keeps_hooks_emit. Qed.

Lemma keeps_hooks_sleep n : keeps_hooks (sleep n).
Proof. apply keeps_hooks_emit. Qed.

Lemma keeps_hooks_time : keeps_hooks time.
Proof. intros s. unfold time. now destruct (clock s). Qed.

Lemma keeps_hooks_arg_s a : keeps_hooks (arg_s a).
Proof. destruct a; [apply keeps_hooks_ret | apply keeps_hooks_undefined]. Qed.

Lemma keeps_hooks_sqlstate_equals res st :
  keeps_hooks (sqlstate_equals res st).
Proof.
  unfold sqlstate_equals. destruct (PQresultErrorField_SQLSTATE res);
    [apply keeps_hooks_ret | apply keeps_hooks_undefined].
Qed.

Lemma keeps_hooks_PQexecParams q ps : keeps_hooks (PQexecParams q ps).
Proof.
  intros s. unfold PQexecParams.
  destruct (connection s), q; try reflexivity. now destruct (replies s).
Qed.

Lemma keeps_hooks_PQserverVersion : keeps_hooks PQserverVersion.
Proof.
  unfold PQserverVersion. apply keeps_hooks_bind; [apply keeps_hooks_get|].
  intros [c|]; [apply keeps_hooks_get | apply keeps_hooks_ret].
Qed.

Create HintDb hooks discriminated.
#[export] Hint Resolve keeps_hooks_ret keeps_hooks_get keeps_hooks_emit
  keeps_hooks_undefined keeps_hooks_running keeps_hooks_exit
  keeps_hooks_ereport_error keeps_hooks_elog keeps_hooks_printf
  keeps_hooks_sleep keeps_hooks_time keeps_hooks_arg_s
  keeps_hooks_sqlstate_equals keeps_hooks_PQexecParams
  keeps_hooks_PQserverVersion : hooks.

Ltac hooks_step :=
  match goal with
  | |- keeps_hooks (bind _ _) => apply keeps_hooks_bind; [| intros ?]
  | |- keeps_hooks (if ?b then _ else _) => destruct b
  | |- keeps_hooks (match ?x with _ => _ end) => destruct x
  | |- keeps_hooks _ => solve [auto with hooks]
  end.

Ltac hooks_tac := repeat hooks_step.

Lemma keeps_hooks_execute_elevel q ps level :
  keeps_hooks (execute_elevel q ps level).
Proof. unfold execute_elevel. hooks_tac. Qed.

Lemma keeps_hooks_execute q ps : keeps_hooks (execute q ps).
Proof. apply keeps_hooks_execute_elevel. Qed.

Lemma keeps_hooks_command q ps : keeps_hooks (command q ps).
Proof. unfold command. hooks_tac. apply keeps_hooks_execute. Qed.

#[export] Hint Resolve keeps_hooks_execute_elevel keeps_hooks_execute
  keeps_hooks_command : hooks.

Lemma keeps_hooks_lock_exclusive_loop wt fuel : forall start i relid lq,
  keeps_hooks (lock_exclusive_loop wt fuel start i relid lq).
Proof.
  induction fuel as [|fuel IH]; intros; simpl; hooks_tac.
  unfold lock_attempt, begin_attempt, escalate, try_lock. hooks_tac.
Qed.

Lemma keeps_hooks_lock_exclusive wt relid lq :
  keeps_hooks (lock_exclusive wt relid lq).
Proof.
  unfold lock_exclusive. hooks_tac. apply keeps_hooks_lock_exclusive_loop.
Qed.

Lemma keeps_hooks_apply_log t count : keeps_hooks (apply_log t count).
Proof. unfold apply_log. hooks_tac. Qed.

#[export] Hint Resolve keeps_hooks_lock_exclusive keeps_hooks_apply_log : hooks.

Lemma keeps_hooks_setup_workspace wt t : keeps_hooks (setup_workspace wt t).
Proof. unfold setup_workspace. hooks_tac. Qed.

Lemma keeps_hooks_copy_tuples t orderby : keeps_hooks (copy_tuples t orderby).
Proof. unfold copy_tuples. hooks_tac. Qed.

Lemma keeps_hooks_create_indexes_from res num : forall i,
  keeps_hooks (create_indexes_from res i num).
Proof.
  induction num as [|num IH]; intros; simpl; hooks_tac.
  unfold create_one_index. hooks_tac.
Qed.

Lemma keeps_hooks_create_indexes t : keeps_hooks (create_indexes t).
Proof.
  unfold create_indexes. hooks_tac. apply keeps_hooks_create_indexes_from.
Qed.

Lemma keeps_hooks_drain_loop fuel : forall t vxid nw,
  keeps_hooks (drain_loop fuel t vxid nw).
Proof.
  induction fuel as [|fuel IH]; intros; simpl; hooks_tac.
  unfold drain_pass. hooks_tac.
Qed.

Lemma keeps_hooks_drain_log t vxid : keeps_hooks (drain_log t vxid).
Proof. unfold drain_log. hooks_tac. apply keeps_hooks_drain_loop. Qed.

Lemma keeps_hooks_swap wt t : keeps_hooks (swap wt t).
Proof. unfold swap. hooks_tac. Qed.

Lemma keeps_hooks_drop t : keeps_hooks (drop t).
Proof. unfold drop. hooks_tac. Qed.

Lemma keeps_hooks_analyze_table an t : keeps_hooks (analyze_table an t).
Proof. unfold analyze_table. hooks_tac. Qed.

#[export] Hint Resolve keeps_hooks_setup_workspace keeps_hooks_copy_tuples
  keeps_hooks_create_indexes keeps_hooks_drain_log keeps_hooks_swap
  keeps_hooks_drop keeps_hooks_analyze_table : hooks.

Lemma keeps_hooks_guarded_steps wt t orderby :
  keeps_hooks (guarded_steps wt t orderby).
Proof. unfold guarded_steps. hooks_tac. Qed.

Lemma repack_one_table_stages an wt t orderby s :
  repack_one_table an wt t orderby s
  = bind (setup_workspace wt t)
      (fun _ => bind (pgut_atexit_push t)
         (fun _ => bind (guarded_steps wt t orderby)
            (fun _ => bind (pgut_atexit_pop t)
               (fun _ => analyze_table an t)))) s.
Proof.
  unfold repack_one_table, guarded_steps, bind.
  repeat match goal with
         | |- context [match ?m ?x with Ok _ _ => _ | _ => _ end] =>
             destruct (m x); try reflexivity
         end.
Qed.

Lemma pgut_atexit_push_run t s :
  pgut_atexit_push t s
  = Ok tt (set_atexit (t :: atexit s) (log_event (AtexitPush t) s)).
Proof. reflexivity. Qed.

Lemma pgut_atexit_pop_run t s :
  pgut_atexit_pop t s
  = Ok tt (set_atexit (tl (atexit s)) (log_event (AtexitPop t) s)).
Proof. reflexivity. Qed.

Lemma not_ok_cases {A} (o : outcome A) :
  (exists a s, o = Ok a s) \/ is_ok o = false.
Proof. destruct o; simpl; eauto. Qed.

(** X10. The cleanup hook of a table is registered exactly while its
    work tables may exist.  When step 1 (setup) does not return, nothing
    else runs and no hook is left; when the table is done the stack of
    hooks is as it was; once steps 1 to 6 have gone through, no hook is
    left whatever ANALYZE does; and at any end the stack is the one at
    the start, with at most the hook of this table on top. *)
Theorem cleanup_hook_is_registered_from_setup_to_drop
    (analyze : bool) (wait_timeout : Z) (t : repack_table)
    (orderby : cstring) (s : state) :
  let out := repack_one_table analyze wait_timeout t orderby s in
  (is_ok (setup_workspace wait_timeout t s) = false ->
   final out = final (setup_workspace wait_timeout t s)
   /\ atexit (final out) = atexit s)
  /\ (is_ok out = true -> atexit (final out) = atexit s)
  /\ (is_ok (repack_one_table false wait_timeout t orderby s) = true ->
      atexit (final out) = atexit s)
  /\ (atexit (final out) = atexit s \/ atexit (final out) = t :: atexit s).
Proof.
  cbv zeta. rewrite !repack_one_table_stages.
  pose proof (keeps_hooks_setup_workspace wait_timeout t s) as K1.
  destruct (not_ok_cases (setup_workspace wait_timeout t s))
    as [([] & s1 & E1) | N1].
  2:{ destruct (bind_not_ok (setup_workspace wait_timeout t)
                  (fun _ => bind (pgut_atexit_push t)
                     (fun _ => bind (guarded_steps wait_timeout t orderby)
                        (fun _ => bind (pgut_atexit_pop t)
                           (fun _ => analyze_table analyze t)))) s N1)
        as [F1 O1].
      destruct (bind_not_ok (setup_workspace wait_timeout t)
                  (fun _ => bind (pgut_atexit_push t)
                     (fun _ => bind (guarded_steps wait_timeout t orderby)
                        (fun _ => bind (pgut_atexit_pop t)
                           (fun _ => analyze_table false t)))) s N1)
        as [_ O1'].
      rewrite F1, O1, O1', K1. repeat split; auto; discriminate. }
  rewrite E1 in K1. simpl in K1.
  rewrite !(bind_Ok _ _ _ _ _ E1), E1.
  rewrite !(bind_Ok _ _ _ _ _ (pgut_atexit_push_run t s1)).
  set (s2 := set_atexit (t :: atexit s1) (log_event (AtexitPush t) s1)).
  assert (A2 : atexit s2 = t :: atexit s) by (simpl; now rewrite K1).
  pose proof (keeps_hooks_guarded_steps wait_timeout t orderby s2) as K2.
  destruct (not_ok_cases (guarded_steps wait_timeout t orderby s2))
    as [([] & s3 & E2) | N2].
  2:{ destruct (bind_not_ok (guarded_steps wait_timeout t orderby)
                  (fun _ => bind (pgut_atexit_pop t)
                     (fun _ => analyze_table analyze t)) s2 N2) as [F2 O2].
      destruct (bind_not_ok (guarded_steps wait_timeout t orderby)
                  (fun _ => bind (pgut_atexit_pop t)
                     (fun _ => analyze_table false t)) s2 N2) as [_ O2'].
      rewrite F2, O2, O2', K2, A2. simpl is_ok.
      repeat split; try discriminate. now right. }
  rewrite E2 in K2. simpl in K2.
  rewrite !(bind_Ok _ _ _ _ _ E2).
  rewrite !(bind_Ok _ _ _ _ _ (pgut_atexit_pop_run t s3)).
  set (s4 := set_atexit (tl (atexit s3)) (log_event (AtexitPop t) s3)).
  assert (A4 : atexit s4 = atexit s)
    by (simpl; rewrite K2; simpl; congruence).
  pose proof (keeps_hooks_analyze_table analyze t s4) as K4.
  rewrite K4, A4. simpl is_ok. repeat split; try discriminate; auto.
Qed.

Lemma cleanup_hook_is_registered_from_setup_to_drop_witness :
  atexit (final (repack_one_table true 60 RunExample.job None
                   BlockedExample.blocked))
  = atexit BlockedExample.blocked.
Proof.
  refine (proj2 (proj1 (cleanup_hook_is_registered_from_setup_to_drop
                          true 60 RunExample.job None BlockedExample.blocked)
                   _)).
  vm_compute. reflexivity.
Defined.

(** ** Setup: the check for conflicting triggers *)

Lemma PQgetvalue_row r v : PQgetvalue r 0 0 = Some v -> 0 < PQntuples r.
Proof.
  unfold PQgetvalue, field, PQntuples.
  destruct (tuples r); simpl; [discriminate | lia].
Qed.

(** X11. A table with a trigger that would fire after the one of
    pg_repack is refused before anything is created for it: once the lock
    is taken and [repack.conflicted_triggers] has returned a row,
    [repack_one_table] ends the process with the error that names the
    trigger and the table; the check is the last statement sent (the
    transaction of the lock is left open), and no cleanup hook is
    registered. *)
Theorem conflicting_trigger_refuses_the_table
    (analyze : bool) (wait_timeout : Z) (t : repack_table)
    (orderby : cstring) (s s1 : state) (r : PGresult) (rs : list PGresult)
    (trigger name : string) :
  lock_exclusive wait_timeout (utoa (target_oid t)) (lock_table t) s
  = Ok tt s1 ->
  replies s1 = r :: rs ->
  query_succeeded r = true ->
  PQgetvalue r 0 0 = Some trigger ->
  target_name t = Some name ->
  exists s',
    repack_one_table analyze wait_timeout t orderby s
    = Exit (ereport_ERROR E_PG_COMMAND
              ("trigger " ++ trigger ++ " conflicted for " ++ name)) s'
    /\ trace s'
       = (trace s1
            ++ [Query (session_of s1) SQL_CONFLICTED_TRIGGERS
                  [Some (utoa (target_oid t))]])%list
    /\ replies s' = rs
    /\ atexit s' = atexit s.
Proof.
  intros L R Q V N.
  pose proof (keeps_hooks_lock_exclusive wait_timeout (utoa (target_oid t))
                (lock_table t) s) as K.
  rewrite L in K. simpl in K.
  destruct (lock_exclusive_Ok_inv _ _ _ _ _ L)
    as (_ & _ & c & _ & _ & _ & C1 & _).
  pose proof (PQgetvalue_row _ _ V) as P. apply Z.gtb_lt in P.
  exists (answered c SQL_CONFLICTED_TRIGGERS [Some (utoa (target_oid t))]
                   rs s1).
  split; [|unfold session_of; rewrite C1; repeat split; auto].
  unfold repack_one_table, setup_workspace.
  unfold bind at 1. unfold bind at 1. rewrite L.
  unfold bind at 1. fold SQL_CONFLICTED_TRIGGERS.
  rewrite (execute_run c), R, Q by exact C1.
  unfold bind at 1. rewrite P, V, N. reflexivity.
Qed.

Lemma conflicting_trigger_refuses_the_table_witness :
  exists s',
    repack_one_table true 60 RunExample.job None
      (RunExample.serving
         [command_ok; command_ok; command_ok; command_ok;
          tuples_ok [[Some "a_trigger"]]] [0; 0])
    = Exit (ereport_ERROR E_PG_COMMAND
              "trigger a_trigger conflicted for public.t") s'.
Proof.
  destruct (conflicting_trigger_refuses_the_table
              true 60 RunExample.job None
              (RunExample.serving
                 [command_ok; command_ok; command_ok; command_ok;
                  tuples_ok [[Some "a_trigger"]]] [0; 0])
              (final (lock_exclusive 60 (utoa 16384)
                        (lock_table RunExample.job)
                        (RunExample.serving
                           [command_ok; command_ok; command_ok; command_ok;
                            tuples_ok [[Some "a_trigger"]]] [0; 0])))
              (tuples_ok [[Some "a_trigger"]]) [] "a_trigger" "public.t")
    as (s' & E & _).
  - vm_compute. reflexivity.
  - vm_compute. reflexivity.
  - reflexivity.
  - reflexivity.
  - reflexivity.
  - exists s'. exact E.
Defined.

(** ** The indexes *)

Lemma getstr_text_at res i row col :
  nth_error (tuples res) i = Some row ->
  getstr res i col = text_at row col.
Proof.
  intros N. unfold getstr, PQgetisnull, PQgetvalue, field, text_at.
  rewrite N. now destruct (nth_error row col) as [[v|]|].
Qed.

Lemma performs_elog level msg s :
  level <> DEBUG2 -> performs (elog level msg) s [Elog level msg].
Proof.
  intros L. split; [now destruct level|].
  exists 1%nat. destruct level; try contradiction; simpl; auto.
Qed.

Lemma performs_nil_stop {A} (m : M A) s :
  final (m s) = s -> is_ok (m s) = false -> forall L, performs m s L.
Proof.
  intros F N L. unfold performs. rewrite F, N. split; [reflexivity|].
  exists 0%nat. simpl. rewrite app_nil_r.
  repeat split; [lia | discriminate].
Qed.

Lemma create_one_index_performs c res i row s :
  connection s = Some c ->
  nth_error (tuples res) i = Some row ->
  match index_event (conn_id c) row with
  | Some e => performs (create_one_index res i) s [e]
  | None => final (create_one_index res i s) = s
            /\ is_ok (create_one_index res i s) = false
  end.
Proof.
  intros C N. unfold create_one_index, index_event. cbv zeta.
  cbn [create_index].
  rewrite !(getstr_text_at res i row) by exact N.
  destruct (text_at row 2) as [[|a v]|].
  1,3: destruct (text_at row 1) as [sql|];
    [apply (performs_command c); exact C
    | now rewrite command_nothing_sent by auto].
  destruct a as [[] [] [] [] [] [] [] []];
    try (destruct (text_at row 1) as [sql|];
         [apply (performs_command c); exact C
         | now rewrite command_nothing_sent by auto]).
  destruct (text_at row 3) as [def|].
  - apply (performs_elog WARNING). discriminate.
  - split; reflexivity.
Qed.

Lemma create_indexes_from_performs c res rows : forall i s,
  connection s = Some c ->
  (forall j, nth_error rows j = nth_error (tuples res) (i + j)) ->
  performs (create_indexes_from res i (List.length rows)) s
           (index_script (conn_id c) rows).
Proof.
  induction rows as [|row rows IH]; intros i s C N.
  - apply performs_ret.
  - cbn [List.length create_indexes_from index_script].
    pose proof (create_one_index_performs c res i row s C) as H.
    pose proof (N 0%nat) as N0. rewrite Nat.add_0_r in N0.
    specialize (H (eq_sym N0)).
    destruct (index_event (conn_id c) row) as [e|].
    + apply (performs_bind _ _ s [e]); [exact H|].
      intros [] s1 _ C1. apply IH; [congruence|].
      intros j. specialize (N (S j)). rewrite Nat.add_succ_r in N. exact N.
    + destruct H as [F O]. apply performs_bind_stop; [|exact O].
      now apply performs_nil_stop.
Qed.

(** X12. [create_indexes] goes through the rows of the index query in
    order, rows that carry the text the loop reads from them: for an
    index whose [indisvalid] starts with f it gives the warning with the
    definition of column 3 and sends nothing, for any other it sends the
    statement of column 1 that rebuilds it; so an invalid index is never
    rebuilt on the new table.  What the step has done at any end is an
    initial part of that list, and the whole list when it returns. *)
Theorem invalid_indexes_are_skipped_with_a_warning
    (t : repack_table) (s : state) (c : PGconn) (r : PGresult)
    (rs : list PGresult) :
  connection s = Some c ->
  replies s = r :: rs ->
  query_succeeded r = true ->
  Forall has_index_text (tuples r) ->
  performs (create_indexes t) s
           (Query (conn_id c) SQL_INDEXES [Some (utoa (target_oid t))]
              :: index_script (conn_id c) (tuples r))
  /\ List.length (index_script (conn_id c) (tuples r))
     = List.length (tuples r).
Proof.
  intros C R Q F. split.
  - unfold create_indexes.
    apply (performs_bind _ _ s
             [Query (conn_id c) SQL_INDEXES [Some (utoa (target_oid t))]]).
    + apply (performs_execute c). exact C.
    + intros res s1 E C1. rewrite (execute_run c), R, Q in E by exact C.
      injection E as <- <-.
      apply create_indexes_from_performs; [congruence | reflexivity].
  - induction F as [|row rows H F IH]; [reflexivity|].
    cbn [index_script List.length].
    assert (E : index_event (conn_id c) row <> None).
    { unfold has_index_text, index_event in *.
      destruct (text_at row 2) as [[|a v]|];
        try (destruct (text_at row 1); [discriminate | exact H]).
      destruct a as [[] [] [] [] [] [] [] []];
        try (destruct (text_at row 1); [discriminate | exact H]).
      destruct (text_at row 3); [discriminate | exact H]. }
    destruct (index_event (conn_id c) row); [|contradiction].
    cbn [List.length]. now rewrite IH.
Qed.

Lemma invalid_indexes_are_skipped_with_a_warning_witness :
  performs (create_indexes RunExample.job)
    (RunExample.serving
       [tuples_ok
          [[Some "16400"; Some "CREATE INDEX index_16400 ON repack.table_16384 (id)";
            Some "t"; Some "CREATE INDEX t_pkey ON public.t (id)"];
           [Some "16401"; Some "CREATE INDEX index_16401 ON repack.table_16384 (v)";
            Some "f"; Some "CREATE INDEX t_v ON public.t (v)"]];
        command_ok] [])
    [Query 0 SQL_INDEXES [Some "16384"];
     Query 0 "CREATE INDEX index_16400 ON repack.table_16384 (id)" [];
     Elog WARNING "skipping invalid index: CREATE INDEX t_v ON public.t (v)"].
Proof.
  refine (proj1 (invalid_indexes_are_skipped_with_a_warning RunExample.job
           (RunExample.serving
              [tuples_ok
                 [[Some "16400";
                   Some "CREATE INDEX index_16400 ON repack.table_16384 (id)";
                   Some "t"; Some "CREATE INDEX t_pkey ON public.t (id)"];
                  [Some "16401";
                   Some "CREATE INDEX index_16401 ON repack.table_16384 (v)";
                   Some "f"; Some "CREATE INDEX t_v ON public.t (v)"]];
               command_ok] [])
           (mkPGconn 0 true) _ [command_ok] eq_refl eq_refl eq_refl _)).
  repeat constructor; discriminate.
Defined.

(** ** The swap *)

Lemma apply_log_Ok_inv t count s n s' :
  apply_log t count s = Ok n s' ->
  exists c,
    connection s = Some c /\ connection s' = Some c /\
    trace s'
    = (trace s ++ [Query (conn_id c) SQL_APPLY (apply_params t count)])%list.
Proof.
  intros H. destruct (connection s) as [c|] eqn:C.
  - rewrite (apply_log_run c) in H by exact C.
    destruct (replies s) as [|r rs]; [discriminate|]. cbv zeta in H.
    destruct (query_succeeded r); [|discriminate].
    destruct (apply_count r); [|discriminate].
    injection H as _ <-. exists c. auto.
  - unfold apply_log, bind in H.
    rewrite execute_nothing_sent in H by auto. discriminate.
Qed.

(** X13. The swap is done under the lock.  When step 5 returns, the
    trace ends with the attempt that took the lock (its BEGIN, what the
    escalation added, SET LOCAL statement_timeout and the lock
    statement), RESET statement_timeout, one call of [repack_apply] with
    count 0, [repack.repack_swap] on the table's OID, and COMMIT, all on
    one session: no transaction ends between the lock and the swap. *)
Theorem swap_is_done_under_the_lock
    (wait_timeout : Z) (t : repack_table) (s s' : state) :
  swap wait_timeout t s = Ok tt s' ->
  exists pre j c lock esc,
    connection s = Some c /\ connection s' = Some c /\
    lock_table t = Some lock /\
    is_escalation (conn_id c) (utoa (target_oid t)) esc /\
    trace s'
    = (trace s ++ pre
         ++ [Query (conn_id c) SQL_BEGIN_READ_COMMITTED []]
         ++ esc
         ++ [Query (conn_id c)
               (set_timeout_sql (C.Min 1000 (C.wrap_int (j * 100)))) [];
             Query (conn_id c) lock [];
             Query (conn_id c) "RESET statement_timeout" [];
             Query (conn_id c) SQL_APPLY (apply_params t 0);
             Query (conn_id c) "SELECT repack.repack_swap($1)"
                   [Some (utoa (target_oid t))];
             Query (conn_id c) "COMMIT" []])%list.
Proof.
  intros H. unfold swap in H.
  apply bind_Ok_inv in H as ([] & s1 & E1 & H).
  apply lock_exclusive_Ok_inv
    in E1 as (pre & j & c & lock & esc & C & C1 & L & S & T1).
  apply bind_Ok_inv in H as (n & s2 & E2 & H).
  apply apply_log_Ok_inv in E2 as (c2 & C1' & C2 & T2).
  assert (c2 = c) by congruence. subst c2.
  apply bind_Ok_inv in H as ([] & s3 & E3 & H).
  apply command_Ok_inv in E3 as (c3 & q3 & r3 & rs3 & C2' & [= <-] & _ & _ & ->).
  assert (c3 = c) by congruence. subst c3.
  apply command_Ok_inv in H as (c4 & q4 & r4 & rs4 & C3 & [= <-] & _ & _ & ->).
  rewrite connection_answered in C3.
  assert (c4 = c) by congruence. subst c4.
  exists pre, j, c, lock, esc. repeat split; auto.
  simpl. rewrite T2, T1.
  repeat (rewrite <- app_assoc; simpl). reflexivity.
Qed.

Lemma swap_is_done_under_the_lock_witness :
  exists pre j c lock esc,
    connection SwapExample.ready = Some c /\
    connection (final (swap 60 RunExample.job SwapExample.ready)) = Some c /\
    lock_table RunExample.job = Some lock /\
    is_escalation (conn_id c) (utoa (target_oid RunExample.job)) esc /\
    trace (final (swap 60 RunExample.job SwapExample.ready))
    = (trace SwapExample.ready ++ pre
         ++ [Query (conn_id c) SQL_BEGIN_READ_COMMITTED []]
         ++ esc
         ++ [Query (conn_id c)
               (set_timeout_sql (C.Min 1000 (C.wrap_int (j * 100)))) [];
             Query (conn_id c) lock [];
             Query (conn_id c) "RESET statement_timeout" [];
             Query (conn_id c) SQL_APPLY (apply_params RunExample.job 0);
             Query (conn_id c) "SELECT repack.repack_swap($1)"
                   [Some (utoa (target_oid RunExample.job))];
             Query (conn_id c) "COMMIT" []])%list.
Proof.
  apply (swap_is_done_under_the_lock 60 RunExample.job SwapExample.ready
           (final (swap 60 RunExample.job SwapExample.ready))).
  vm_compute. reflexivity.
Defined.

(** ** Waiting for old transactions *)

(** A pass that finds as many old transactions as the pass before says
    nothing. *)
Lemma drain_pass_quiet c t vxid nw s r1 r2 rs :
  connection s = Some c -> replies s = r1 :: r2 :: rs ->
  log_empty r1 -> polls nw r2 -> 0 < nw ->
  exists s',
    drain_pass t vxid nw s = Ok (Continue, nw) s' /\
    connection s' = Some c /\ replies s' = rs /\
    trace s'
    = (trace s ++ poll_pass (conn_id c) t vxid ++ [Sleep 1])%list.
Proof.
  intros C R (Q1 & k & A & N) (Q2 & P) W. unfold drain_pass, bind.
  rewrite (apply_log_run c), R by assumption. cbv zeta. rewrite Q1, A.
  destruct (Z.gtb_spec k 0); [lia|].
  rewrite (execute_run c) by (now rewrite connection_answered).
  rewrite replies_answered, Q2, P.
  destruct (Z.gtb_spec nw 0); [|lia].
  rewrite Z.eqb_refl. simpl.
  eexists. split; [reflexivity|]. repeat split; auto.
  simpl. now rewrite <- !app_assoc.
Qed.

Lemma continues_quiet c t vxid n ps : forall s rest,
  connection s = Some c ->
  replies s = (pass_replies ps ++ rest)%list ->
  Forall (fun p => log_empty (fst p) /\ polls n (snd p)) ps ->
  0 < n ->
  exists s',
    continues t vxid n s n s' /\
    connection s' = Some c /\ replies s' = rest /\
    trace s'
    = (trace s ++ quiet_passes (conn_id c) t vxid (List.length ps))%list.
Proof.
  induction ps as [|[r1 r2] ps IH]; intros s rest C R F W.
  - exists s. simpl. rewrite app_nil_r. repeat split; auto. constructor.
  - inversion F as [|? ? [L P] F']; subst. simpl in L, P.
    destruct (drain_pass_quiet c t vxid n s r1 r2
                (pass_replies ps ++ rest)%list C R L P W)
      as (s1 & E & C1 & R1 & T1).
    destruct (IH s1 rest C1 R1 F' W) as (s' & K & C' & R' & T').
    exists s'. repeat split; auto.
    + econstructor; eassumption.
    + rewrite T', T1. cbn [List.length quiet_passes].
      now rewrite <- !app_assoc.
Qed.

(** X14. While the poll keeps finding the same number of old
    transactions the drain loop says so once: on a script where the log
    stays empty and every poll shows [n] transactions, until one shows
    none, the loop returns, and its trace holds the NOTICE with the count
    and the first PID after the first poll only; every later pass polls
    and sleeps a second without a message. *)
Theorem waiting_is_reported_once_per_count
    (t : repack_table) (vxid : string) (s : state) (c : PGconn)
    (n : Z) (pid : string) (first : PGresult * PGresult)
    (more : list (PGresult * PGresult)) (r1 r2 : PGresult)
    (rs : list PGresult) :
  connection s = Some c ->
  0 < n ->
  replies s = (pass_replies (first :: more) ++ r1 :: r2 :: rs)%list ->
  Forall (fun p => log_empty (fst p) /\ polls n (snd p)) (first :: more) ->
  PQgetvalue (snd first) 0 0 = Some pid ->
  log_empty r1 ->
  polls 0 r2 ->
  exists s',
    drain_log t vxid s = Ok tt s'
    /\ replies s' = rs
    /\ trace s'
       = (trace s
            ++ poll_pass (conn_id c) t vxid
            ++ [Elog NOTICE ("Waiting for " ++ C.fmt_d n
                               ++ " transactions to finish. First PID: "
                               ++ pid);
                Sleep 1]
            ++ quiet_passes (conn_id c) t vxid (List.length more)
            ++ poll_pass (conn_id c) t vxid)%list.
Proof.
  intros C W R F V (Q1 & k & A & N) (Q2 & P).
  destruct first as [f1 f2]. simpl in V.
  inversion F as [|? ? [(Qf1 & kf & Af & Nf) (Qf2 & Pf)] F']; subst.
  simpl in Qf1, Af, Qf2, W, V. cbn [pass_replies flat_map fst snd app] in R.
  fold (pass_replies more) in R.
  destruct (drain_pass_wait c t vxid 0 s f1 f2
              (pass_replies more ++ r1 :: r2 :: rs)%list kf pid)
    as (s1 & E1 & C1 & R1 & T1); auto.
  destruct (Z.eqb_spec (PQntuples f2) 0) as [Z0|_]; [lia|].
  destruct (continues_quiet c t vxid (PQntuples f2) more s1
              (r1 :: r2 :: rs) C1 R1 F' W)
    as (s2 & K & C2 & R2 & T2).
  pose proof (drain_pass_done c t vxid (PQntuples f2) s2 r1 r2 rs k
                C2 R2 Q1 A N Q2 P) as E3.
  eexists. split; [|split].
  - unfold drain_log, bind, get.
    eapply drain_loop_enough_fuel;
      [econstructor; [exact E1 | exact K] | exact E3 | lia].
  - reflexivity.
  - simpl. rewrite T2, T1. unfold poll_pass.
    repeat (rewrite <- app_assoc; simpl). reflexivity.
Qed.

Lemma waiting_is_reported_once_per_count_witness :
  exists s',
    drain_log RunExample.job "3/7" WaitExample.waiting = Ok tt s'
    /\ replies s' = []
    /\ trace s'
       = (poll_pass 0 RunExample.job "3/7"
            ++ [Elog NOTICE
                  "Waiting for 1 transactions to finish. First PID: 4242";
                Sleep 1]
            ++ poll_pass 0 RunExample.job "3/7" ++ [Sleep 1]
            ++ poll_pass 0 RunExample.job "3/7")%list.
Proof.
  apply (waiting_is_reported_once_per_count
           RunExample.job "3/7" WaitExample.waiting (mkPGconn 0 true) 1 "4242"
           (WaitExample.empty_log, WaitExample.one_old)
           [(WaitExample.empty_log, WaitExample.one_old)]
           WaitExample.empty_log WaitExample.none_old []).
  - reflexivity.
  - lia.
  - reflexivity.
  - assert (L : log_empty WaitExample.empty_log).
    { split; [reflexivity|]. exists 0. split; [reflexivity | lia]. }
    assert (P : polls 1 WaitExample.one_old) by (split; reflexivity).
    apply Forall_cons; [split; assumption|].
    apply Forall_cons; [split; assumption|]. apply Forall_nil.
  - reflexivity.
  - split; [reflexivity|]. exists 0. split; [reflexivity | lia].
  - split; reflexivity.
Defined.

(** ** The retries of [lock_exclusive] *)

Lemma try_lock_Continue_inv i lq s s' :
  try_lock i lq s = Ok Continue s' ->
  exists c sql,
    connection s = Some c /\ connection s' = Some c /\ lq = Some sql /\
    trace s' =
      (trace s
         ++ [Query (conn_id c)
               (set_timeout_sql (C.Min 1000 (C.wrap_int (i * 100)))) [];
             Query (conn_id c) sql [];
             Query (conn_id c) "ROLLBACK" []])%list.
Proof.
  intros H. unfold try_lock in H.
  apply bind_Ok_inv in H as (u1 & s1 & E1 & H).
  apply command_Ok_inv in E1 as (c & q & r0 & rs0 & C & [= <-] & R & Q & ->).
  apply bind_Ok_inv in H as (res & s2 & E2 & H).
  destruct lq as [sql|].
  - rewrite (execute_elevel_DEBUG2_run c) in E2 by exact C.
    rewrite replies_answered in E2. destruct rs0 as [|r rs]; [discriminate|].
    injection E2 as <- <-.
    destruct (ExecStatusType_eqb (PQresultStatus r) PGRES_COMMAND_OK);
      [discriminate|].
    apply bind_Ok_inv in H as (canceled & s3 & E3 & H).
    unfold sqlstate_equals, ret, undefined in E3.
    destruct (PQresultErrorField_SQLSTATE r); [|discriminate].
    injection E3 as <- <-.
    destruct (C.streq s0 SQLSTATE_QUERY_CANCELED).
    + apply bind_Ok_inv in H as ([] & s4 & E4 & H). injection H as <-.
      apply command_Ok_inv
        in E4 as (c4 & q4 & r4 & rs4 & C4 & [= <-] & _ & _ & ->).
      rewrite !connection_answered in C4.
      assert (c4 = c) by congruence. subst c4.
      exists c, sql. repeat split; auto.
      simpl. repeat (rewrite <- app_assoc; simpl). reflexivity.
    + apply bind_Ok_inv in H as (? & ? & _ & H). discriminate.
  - unfold execute_elevel, bind, PQexecParams in E2. simpl in E2.
    rewrite C in E2. simpl in E2. injection E2 as <- <-.
    simpl in H. discriminate.
Qed.

Lemma lock_attempt_Continue_inv wt start i relid lq s s' :
  lock_attempt wt start i relid lq s = Ok Continue s' ->
  exists c sql esc,
    connection s = Some c /\ connection s' = Some c /\ lq = Some sql /\
    is_escalation (conn_id c) relid esc /\
    trace s' = (trace s ++ failed_attempt (conn_id c) sql i esc)%list.
Proof.
  intros H. unfold lock_attempt in H.
  apply bind_Ok_inv in H as (u & s1 & E1 & H).
  apply begin_attempt_Ok_inv in E1 as (c & esc & C & C1 & S & T1).
  apply try_lock_Continue_inv in H as (c' & sql & C1' & C' & -> & T).
  assert (c' = c) by congruence. subst c'.
  exists c, sql, esc. repeat split; auto.
  rewrite T, T1. unfold failed_attempt. now rewrite <- !app_assoc.
Qed.

Lemma lock_exclusive_loop_retries wt start relid lq fuel : forall k s s',
  lock_exclusive_loop wt fuel start (attempt_number k) relid lq s = Ok tt s' ->
  exists c lock escs esc,
    connection s = Some c /\ connection s' = Some c /\ lq = Some lock /\
    Forall (is_escalation (conn_id c) relid) (esc :: escs) /\
    trace s' =
      (trace s ++ retries (conn_id c) lock k escs
         ++ [Query (conn_id c) SQL_BEGIN_READ_COMMITTED []] ++ esc
         ++ [Query (conn_id c)
               (set_timeout_sql
                  (C.Min 1000
                     (C.wrap_int
                        (attempt_number (k + List.length escs) * 100)))) [];
             Query (conn_id c) lock []])%list.
Proof.
  induction fuel as [|fuel IH]; intros k s s' H; [discriminate|].
  simpl in H. apply bind_Ok_inv in H as ([|] & s1 & E & H).
  - injection H as <-.
    apply lock_attempt_Break_inv in E as (c & sql & esc & C & C' & L & S & T).
    exists c, sql, [], esc. rewrite Nat.add_0_r. repeat split; auto.
  - apply lock_attempt_Continue_inv
      in E as (c & sql & esc0 & C & C1 & L & S0 & T1).
    change (C.wrap_int (attempt_number k + 1))
      with (attempt_number (S k)) in H.
    apply IH in H as (c' & lock & escs & esc & C1' & C' & L' & F & T).
    assert (c' = c) by congruence. subst c'.
    assert (lock = sql) by congruence. subst lock.
    exists c, sql, (esc0 :: escs), esc.
    inversion F as [|? ? Fe Fs]; subst.
    repeat split; auto.
    rewrite T, T1. cbn [retries List.length].
    rewrite Nat.add_succ_r. now rewrite <- !app_assoc.
Qed.

Lemma attempt_number_small k :
  (Z.of_nat k < 2 ^ 31 - 1) -> attempt_number k = Z.of_nat k + 1.
Proof.
  induction k as [|k IH]; intros B; [reflexivity|].
  change (attempt_number (S k)) with (C.wrap_int (attempt_number k + 1)).
  rewrite IH by lia.
  rewrite wrap_int_small; [lia|]. unfold C.in_int, C.INT_MIN, C.INT_MAX. lia.
Qed.

Lemma retries_are_by_spec c lock escs : forall k,
  Z.of_nat k + Z.of_nat (List.length escs) <= 21474836 ->
  retries c lock k escs = retries_by_spec c lock (Z.of_nat k + 1) escs.
Proof.
  induction escs as [|esc escs IH]; intros k B; [reflexivity|].
  cbn [retries retries_by_spec List.length] in *.
  rewrite IH by lia. unfold failed_attempt, set_timeout_by_spec.
  rewrite attempt_number_small by lia.
  rewrite set_timeout_sql_attempt by lia.
  rewrite Nat2Z.inj_succ. unfold Z.succ.
  now rewrite <- !app_assoc.
Qed.

(** X15. Every attempt of [lock_exclusive] that did not get the lock is
    rolled back before the next one begins.  When [lock_exclusive]
    returns after [k] canceled attempts, its trace is, for each of them
    in turn, BEGIN, what the escalation added, SET LOCAL
    statement_timeout, the lock statement and ROLLBACK, then the attempt
    that took the lock, and RESET statement_timeout.  The timeout of
    attempt [i] is the smaller of 1000 and [i * 100] computed in the C
    [int]: for fewer than 21474836 canceled attempts that is
    min(1000, 100 * i) in every attempt of the run. *)
Theorem lock_exclusive_rolls_back_every_failed_attempt
    (wait_timeout : Z) (relid : string) (lock_query : cstring)
    (s s' : state) :
  lock_exclusive wait_timeout relid lock_query s = Ok tt s' ->
  exists c lock escs esc,
    connection s = Some c /\ lock_query = Some lock /\
    Forall (is_escalation (conn_id c) relid) (esc :: escs) /\
    trace s' =
      (trace s ++ retries (conn_id c) lock 0 escs
         ++ [Query (conn_id c) SQL_BEGIN_READ_COMMITTED []] ++ esc
         ++ [Query (conn_id c)
               (set_timeout_sql
                  (C.Min 1000
                     (C.wrap_int (attempt_number (List.length escs) * 100))))
               [];
             Query (conn_id c) lock [];
             Query (conn_id c) "RESET statement_timeout" []])%list
    /\ (Z.of_nat (List.length escs) < 21474836 ->
        retries (conn_id c) lock 0 escs
        = retries_by_spec (conn_id c) lock 1 escs
        /\ set_timeout_sql
             (C.Min 1000
                (C.wrap_int (attempt_number (List.length escs) * 100)))
           = set_timeout_by_spec (Z.of_nat (List.length escs) + 1)).
Proof.
  intros H. unfold lock_exclusive in H.
  apply bind_Ok_inv in H as (start & s1 & E1 & H).
  unfold time in E1. destruct (clock s) as [|t ck] eqn:K; [discriminate|].
  injection E1 as <- <-.
  apply bind_Ok_inv in H as (n & s2 & E2 & H). injection E2 as <- <-.
  apply bind_Ok_inv in H as ([] & s3 & E3 & H).
  change 1 with (attempt_number 0) in E3.
  apply lock_exclusive_loop_retries
    in E3 as (c & lock & escs & esc & C & C' & L & F & T).
  apply command_Ok_inv in H as (c' & q & r & rs & C3 & [= <-] & R & Q & ->).
  assert (c' = c) by congruence. subst c'.
  exists c, lock, escs, esc. repeat split; auto.
  - simpl. rewrite T. simpl.
    repeat (rewrite <- app_assoc; simpl). reflexivity.
  - apply (retries_are_by_spec (conn_id c) lock escs 0). simpl. lia.
  - rewrite attempt_number_small by lia.
    apply set_timeout_sql_attempt. lia.
Qed.

Lemma lock_exclusive_rolls_back_every_failed_attempt_witness :
  exists c lock escs esc,
    connection RetryExample.contended = Some c /\
    lock_table RunExample.job = Some lock /\
    Forall (is_escalation (conn_id c) "16384") (esc :: escs) /\
    trace RetryExample.locked =
      (trace RetryExample.contended ++ retries (conn_id c) lock 0 escs
         ++ [Query (conn_id c) SQL_BEGIN_READ_COMMITTED []] ++ esc
         ++ [Query (conn_id c)
               (set_timeout_sql
                  (C.Min 1000
                     (C.wrap_int (attempt_number (List.length escs) * 100))))
               [];
             Query (conn_id c) lock [];
             Query (conn_id c) "RESET statement_timeout" []])%list
    /\ (Z.of_nat (List.length escs) < 21474836 ->
        retries (conn_id c) lock 0 escs
        = retries_by_spec (conn_id c) lock 1 escs
        /\ set_timeout_sql
             (C.Min 1000
                (C.wrap_int (attempt_number (List.length escs) * 100)))
           = set_timeout_by_spec (Z.of_nat (List.length escs) + 1)).
Proof.
  apply (lock_exclusive_rolls_back_every_failed_attempt
           60 "16384" (lock_table RunExample.job)
           RetryExample.contended RetryExample.locked).
  vm_compute. reflexivity.
Defined.

(** ** Setup, drop and analyze *)

Lemma command_Ok_trace c q ps s u s' :
  command q ps s = Ok u s' -> connection s = Some c ->
  exists sql,
    q = Some sql /\ connection s' = Some c /\
    trace s' = (trace s ++ [Query (conn_id c) sql ps])%list.
Proof.
  intros H C.
  apply command_Ok_inv in H as (c' & sql & r & rs & C' & -> & _ & _ & ->).
  assert (c' = c) by congruence. subst c'.
  exists sql. auto.
Qed.

(** X16. The work objects of a table are created under its lock and in
    one transaction.  When step 1 returns, the trace ends with the
    attempt that took the lock, RESET statement_timeout, the check for
    conflicting triggers, then the four statements of the row
    ([create_pktype], [create_log], [create_trigger], [enable_trigger],
    none of them NULL), [repack.disable_autovacuum] on the log table of
    the OID, and COMMIT, all on one session. *)
Theorem setup_creates_the_workspace_under_the_lock
    (wait_timeout : Z) (t : repack_table) (s s' : state) :
  setup_workspace wait_timeout t s = Ok tt s' ->
  exists pre j c lock esc pktype log trigger enable,
    connection s = Some c /\ connection s' = Some c /\
    lock_table t = Some lock /\
    create_pktype t = Some pktype /\ create_log t = Some log /\
    create_trigger t = Some trigger /\ enable_trigger t = Some enable /\
    is_escalation (conn_id c) (utoa (target_oid t)) esc /\
    trace s'
    = (trace s ++ pre
         ++ [Query (conn_id c) SQL_BEGIN_READ_COMMITTED []]
         ++ esc
         ++ [Query (conn_id c)
               (set_timeout_sql (C.Min 1000 (C.wrap_int (j * 100)))) [];
             Query (conn_id c) lock [];
             Query (conn_id c) "RESET statement_timeout" [];
             Query (conn_id c) SQL_CONFLICTED_TRIGGERS
                   [Some (utoa (target_oid t))];
             Query (conn_id c) pktype [];
             Query (conn_id c) log [];
             Query (conn_id c) trigger [];
             Query (conn_id c) enable [];
             Query (conn_id c)
                   ("SELECT repack.disable_autovacuum('repack.log_"
                      ++ utoa (target_oid t) ++ "')") [];
             Query (conn_id c) "COMMIT" []])%list.
Proof.
  intros H. unfold setup_workspace in H.
  apply bind_Ok_inv in H as ([] & s1 & E1 & H).
  apply lock_exclusive_Ok_inv
    in E1 as (pre & j & c & lock & esc & C & C1 & L & S & T1).
  apply bind_Ok_inv in H as (res & s2 & E2 & H).
  apply execute_Ok_inv in E2 as (c2 & q2 & rs2 & C1' & [= <-] & _ & _ & ->).
  assert (c2 = c) by congruence. subst c2.
  apply bind_Ok_inv in H as ([] & s3 & E3 & H).
  destruct (PQntuples res >? 0).
  { apply bind_Ok_inv in E3 as (? & ? & _ & E3).
    apply bind_Ok_inv in E3 as (? & ? & _ & E3). discriminate. }
  injection E3 as <-.
  assert (C2 : connection
                 (answered c SQL_CONFLICTED_TRIGGERS
                    [Some (utoa (target_oid t))] rs2 s1) = Some c)
    by (now rewrite connection_answered).
  fold SQL_CONFLICTED_TRIGGERS in H.
  apply bind_Ok_inv in H as ([] & s4 & E4 & H).
  destruct (command_Ok_trace c _ _ _ _ _ E4 C2) as (pktype & P & C4 & T4).
  apply bind_Ok_inv in H as ([] & s5 & E5 & H).
  destruct (command_Ok_trace c _ _ _ _ _ E5 C4) as (log & Lg & C5 & T5).
  apply bind_Ok_inv in H as ([] & s6 & E6 & H).
  destruct (command_Ok_trace c _ _ _ _ _ E6 C5) as (trg & Tg & C6 & T6).
  apply bind_Ok_inv in H as ([] & s7 & E7 & H).
  destruct (command_Ok_trace c _ _ _ _ _ E7 C6) as (enable & En & C7 & T7).
  apply bind_Ok_inv in H as ([] & s8 & E8 & H).
  destruct (command_Ok_trace c _ _ _ _ _ E8 C7) as (q8 & [= <-] & C8 & T8).
  destruct (command_Ok_trace c _ _ _ _ _ H C8) as (q9 & [= <-] & C9 & T9).
  exists pre, j, c, lock, esc, pktype, log, trg, enable.
  repeat split; auto.
  rewrite T9, T8, T7, T6, T5, T4. simpl. rewrite T1.
  repeat (rewrite <- app_assoc; simpl). reflexivity.
Qed.

Lemma setup_creates_the_workspace_under_the_lock_witness :
  exists pre j c lock esc pktype log trigger enable,
    connection SetupExample.ready = Some c /\
    connection SetupExample.prepared = Some c /\
    lock_table RunExample.job = Some lock /\
    create_pktype RunExample.job = Some pktype /\
    create_log RunExample.job = Some log /\
    create_trigger RunExample.job = Some trigger /\
    enable_trigger RunExample.job = Some enable /\
    is_escalation (conn_id c) (utoa (target_oid RunExample.job)) esc /\
    trace SetupExample.prepared
    = (trace SetupExample.ready ++ pre
         ++ [Query (conn_id c) SQL_BEGIN_READ_COMMITTED []]
         ++ esc
         ++ [Query (conn_id c)
               (set_timeout_sql (C.Min 1000 (C.wrap_int (j * 100)))) [];
             Query (conn_id c) lock [];
             Query (conn_id c) "RESET statement_timeout" [];
             Query (conn_id c) SQL_CONFLICTED_TRIGGERS
                   [Some (utoa (target_oid RunExample.job))];
             Query (conn_id c) pktype [];
             Query (conn_id c) log [];
             Query (conn_id c) trigger [];
             Query (conn_id c) enable [];
             Query (conn_id c)
                   ("SELECT repack.disable_autovacuum('repack.log_"
                      ++ utoa (target_oid RunExample.job) ++ "')") [];
             Query (conn_id c) "COMMIT" []])%list.
Proof.
  apply (setup_creates_the_workspace_under_the_lock 60 RunExample.job
           SetupExample.ready SetupExample.prepared).
  vm_compute. reflexivity.
Defined.

(** X17. A table ends with its drop, and ANALYZE comes last and only on
    request.  When [repack_one_table] returns, its trace ends with the
    transaction of step 6 (BEGIN, [repack.repack_drop] on the table's
    OID, COMMIT), the removal of the cleanup hook, and then, only when
    [analyze] is set, the transaction that analyzes the table by name;
    with [analyze] off nothing follows the removal of the hook. *)
Theorem analyze_runs_last_and_only_on_request
    (analyze : bool) (wait_timeout : Z) (t : repack_table)
    (orderby : cstring) (s s' : state) :
  repack_one_table analyze wait_timeout t orderby s = Ok tt s' ->
  exists c d name,
    connection s = Some c /\ connection s' = Some c /\
    (analyze = true -> target_name t = Some name) /\
    trace s'
    = (trace s ++ d
         ++ [Query (conn_id c) SQL_BEGIN_READ_COMMITTED [];
             Query (conn_id c) SQL_REPACK_DROP [Some (utoa (target_oid t))];
             Query (conn_id c) "COMMIT" [];
             AtexitPop t]
         ++ analyze_script (conn_id c) analyze name)%list.
Proof.
  intros H. rewrite repack_one_table_stages in H.
  apply bind_Ok_inv in H as ([] & s1 & E1 & H).
  apply bind_Ok_inv in H as ([] & s2 & E2 & H).
  apply bind_Ok_inv in H as ([] & s6 & E6 & H).
  unfold guarded_steps in E6.
  apply bind_Ok_inv in E6 as (vxid & s3 & E3 & E6).
  apply bind_Ok_inv in E6 as ([] & s4 & E4 & E6).
  apply bind_Ok_inv in E6 as ([] & s5 & E5 & E6).
  apply bind_Ok_inv in E6 as ([] & s5' & E5' & E6).
  assert (X : extends s s5').
  { eapply extends_trans;
      [eapply steady_Ok; [apply steady_setup_workspace | exact E1]|].
    eapply extends_trans;
      [eapply steady_Ok; [apply steady_pgut_atexit_push | exact E2]|].
    eapply extends_trans;
      [eapply steady_Ok; [apply steady_copy_tuples | exact E3]|].
    eapply extends_trans;
      [eapply steady_Ok; [apply steady_create_indexes | exact E4]|].
    eapply extends_trans;
      [eapply steady_Ok; [apply steady_drain_log | exact E5]|].
    eapply steady_Ok; [apply steady_swap | exact E5']. }
  destruct X as (C5 & _ & d & T5 & _).
  unfold drop in E6.
  apply bind_Ok_inv in E6 as ([] & s7 & E7 & E6).
  apply command_Ok_inv in E7 as (c & q7 & r7 & rs7 & C & [= <-] & _ & _ & ->).
  assert (C7 : connection (answered c SQL_BEGIN_READ_COMMITTED [] rs7 s5')
               = Some c) by (now rewrite connection_answered).
  apply bind_Ok_inv in E6 as ([] & s8 & E8 & E6).
  fold SQL_REPACK_DROP in E8.
  destruct (command_Ok_trace c _ _ _ _ _ E8 C7) as (q8 & [= <-] & C8 & T8).
  destruct (command_Ok_trace c _ _ _ _ _ E6 C8) as (q9 & [= <-] & C9 & T9).
  apply bind_Ok_inv in H as ([] & s9 & E9 & H).
  rewrite pgut_atexit_pop_run in E9. injection E9 as <-.
  match type of H with
  | analyze_table _ _ ?x = _ => set (s9 := x) in *
  end.
  assert (C9' : connection s9 = Some c) by exact C9.
  assert (T9' : trace s9
                = (trace s ++ d
                     ++ [Query (conn_id c) SQL_BEGIN_READ_COMMITTED [];
                         Query (conn_id c) SQL_REPACK_DROP
                               [Some (utoa (target_oid t))];
                         Query (conn_id c) "COMMIT" [];
                         AtexitPop t])%list).
  { unfold s9. cbn [trace set_atexit log_event]. rewrite T9, T8. simpl.
    rewrite T5. repeat (rewrite <- app_assoc; simpl). reflexivity. }
  clearbody s9. unfold analyze_table in H.
  destruct analyze.
  - apply bind_Ok_inv in H as ([] & s10 & E10 & H).
    destruct (command_Ok_trace c _ _ _ _ _ E10 C9')
      as (q10 & [= <-] & C10 & T10).
    apply bind_Ok_inv in H as (name & s11 & E11 & H).
    destruct (target_name t) as [n|]; [|discriminate].
    injection E11 as <- <-.
    apply bind_Ok_inv in H as ([] & s12 & E12 & H).
    destruct (command_Ok_trace c _ _ _ _ _ E12 C10)
      as (q12 & [= <-] & C12 & T12).
    destruct (command_Ok_trace c _ _ _ _ _ H C12)
      as (q13 & [= <-] & C13 & T13).
    exists c, d, n. repeat split; auto; try congruence.
    rewrite T13, T12, T10, T9'. cbn [analyze_script].
    repeat (rewrite <- app_assoc; simpl). reflexivity.
  - injection H as <-. exists c, d, EmptyString.
    repeat split; auto; try congruence; discriminate.
Qed.

Lemma analyze_runs_last_and_only_on_request_witness :
  exists c d name,
    connection TableExample.start = Some c /\
    connection TableExample.done = Some c /\
    (true = true -> target_name RunExample.job = Some name) /\
    trace TableExample.done
    = (trace TableExample.start ++ d
         ++ [Query (conn_id c) SQL_BEGIN_READ_COMMITTED [];
             Query (conn_id c) SQL_REPACK_DROP
                   [Some (utoa (target_oid RunExample.job))];
             Query (conn_id c) "COMMIT" [];
             AtexitPop RunExample.job]
         ++ analyze_script (conn_id c) true name)%list.
Proof.
  apply (analyze_runs_last_and_only_on_request true 60 RunExample.job
           (Some EmptyString) TableExample.start TableExample.done).
  vm_compute. reflexivity.
Defined.

(** * [lock_exclusive] on a script of the server *)


(** What comes after [m] only adds to what [m] left. *)
Lemma grows_after {A B} (m : M A) (k : A -> M B) s :
  (forall a, grows (k a)) ->
  exists d, trace (final (bind m k s)) = (trace (final (m s)) ++ d)%list.
Proof.
  intros G. unfold bind. destruct (m s) as [a s1| | |]; simpl;
    try (exists []; now rewrite app_nil_r).
  apply G.
Qed.

Lemma command_then {A} c q ps (k : unit -> M A) s :
  connection s = Some c -> (forall u, grows (k u)) ->
  exists d,
    trace (final (bind (command (Some q) ps) k s))
    = (trace s ++ Query (conn_id c) q ps :: d)%list.
Proof.
  intros C G. unfold bind. rewrite (command_run c) by exact C.
  destruct (replies s) as [|r rs]; [exists []; reflexivity|].
  destruct (query_succeeded r); [|exists []; reflexivity].
  destruct (G tt (answered c q ps rs s)) as (d & T).
  exists d. rewrite T. simpl. now rewrite <- app_assoc.
Qed.









Lemma try_lock_after_lock c i lock s r0 r rs :
  connection s = Some c -> replies s = r0 :: r :: rs ->
  query_succeeded r0 = true ->
  try_lock i (Some lock) s
  = after_lock r (lock_tried c (C.Min 1000 (C.wrap_int (i * 100))) lock rs s).
Proof.
  intros C R Q. rewrite (try_lock_run c i lock s r0 r rs C R Q).
  cbv zeta. unfold after_lock.
  destruct (ExecStatusType_eqb _ _); [reflexivity|].
  unfold bind at 1, sqlstate_equals, PQresultErrorField_SQLSTATE.
  destruct (sqlstate r) as [st|]; [|reflexivity].
  unfold ret at 1. destruct (C.streq st SQLSTATE_QUERY_CANCELED); reflexivity.
Qed.






(** ** The attempts of [lock_exclusive] and their ends *)









(** * One session at a time *)

(** C9, amended. The client has one session at a time, the global
    [connection]: every statement of [lock_exclusive] goes out on it; in
    an attempt whose [duration] is past [wait_timeout] the cancel or
    terminate query follows the BEGIN of the attempt on that session,
    inside the transaction the BEGIN opened.  The cleanup hook sends its
    ROLLBACK on that session too; its [repack_drop] follows on the same
    session when the connection is good, and when it is not, or when
    there is none, the hook replaces the connection by a new session and
    sends [repack_drop] there.  With the fatal flag it sends nothing. *)
Theorem escalation_and_cleanup_use_the_one_connection
    (wait_timeout : Z) (relid : string) (lock_query : cstring)
    (t : repack_table) (s : state) (c : PGconn) :
  connection s = Some c ->
  (exists d,
      trace (final (lock_exclusive wait_timeout relid lock_query s))
      = (trace s ++ d)%list /\
      Forall (on_session (conn_id c)) d)
  /\ (forall start now ck r rs,
        clock s = now :: ck -> replies s = r :: rs ->
        query_succeeded r = true -> wait_timeout < now - start ->
        exists warning q,
          (q = SQL_CANCEL \/ q = SQL_TERMINATE) /\
          trace (final (begin_attempt wait_timeout start relid s))
          = (trace s ++ [Query (conn_id c) SQL_BEGIN_READ_COMMITTED [];
                         Elog WARNING warning;
                         Query (conn_id c) q [Some relid]])%list /\
          in_transaction (conn_id c)
            [Query (conn_id c) SQL_BEGIN_READ_COMMITTED [];
             Elog WARNING warning] false = true)
  /\ (conn_good c = true ->
      (exists k,
          (1 <= k)%nat /\
          trace (final (repack_cleanup false t s))
          = (trace s
               ++ firstn k [Query (conn_id c) "ROLLBACK" [];
                            Query (conn_id c) "SELECT repack.repack_drop($1)"
                                  [Some (utoa (target_oid t))]])%list)
      /\ forall r1 r2 rs,
          replies s = r1 :: r2 :: rs ->
          query_succeeded r1 = true -> query_succeeded r2 = true ->
          exists s',
            repack_cleanup false t s = Ok tt s' /\
            trace s'
            = (trace s
                 ++ [Query (conn_id c) "ROLLBACK" [];
                     Query (conn_id c) SQL_REPACK_DROP
                           [Some (utoa (target_oid t))]])%list /\
            connection s' = Some c)
  /\ (conn_good c = false ->
      (exists d,
          trace (final (repack_cleanup false t s))
          = (trace s ++ Query (conn_id c) "ROLLBACK" [] :: d)%list)
      /\ forall r1 r2 rs,
          accepting s = true ->
          replies s = r1 :: r2 :: rs ->
          query_succeeded r1 = true -> query_succeeded r2 = true ->
          exists s',
            repack_cleanup false t s = Ok tt s' /\
            trace s'
            = (trace s
                 ++ [Query (conn_id c) "ROLLBACK" [];
                     Disconnect (conn_id c);
                     Connect (sessions s) (dbname s);
                     Query (sessions s) SQL_REPACK_DROP
                           [Some (utoa (target_oid t))]])%list /\
            connection s' = Some (mkPGconn (sessions s) true))
  /\ (forall s0 r rs,
        connection s0 = None -> accepting s0 = true ->
        replies s0 = r :: rs -> query_succeeded r = true ->
        exists s',
          repack_cleanup false t s0 = Ok tt s' /\
          trace s'
          = (trace s0
               ++ [Connect (sessions s0) (dbname s0);
                   Query (sessions s0) SQL_REPACK_DROP
                         [Some (utoa (target_oid t))]])%list /\
          connection s' = Some (mkPGconn (sessions s0) true))
  /\ trace (final (repack_cleanup true t s))
     = (trace s
          ++ [Fprintf_stderr ("!!!FATAL ERROR!!! Please refer to the manual."
                                ++ nl ++ nl)])%list.
Proof.
  intros C. repeat apply conj.
  - destruct (steady_lock_exclusive wait_timeout relid lock_query s)
      as [_ [_ (d & T & F)]].
    exists d. split; [assumption|]. unfold session_of in F. now rewrite C in F.
  - intros start now ck r rs K R Q Late.
    rewrite (begin_attempt_run c _ _ _ _ now ck r rs) by assumption.
    set (s2 := set_clock ck (answered c SQL_BEGIN_READ_COMMITTED [] rs s)).
    destruct (escalate_trace c wait_timeout (now - start) relid s2 C)
      as [_ T].
    destruct (escalation_events_late (conn_id c) wait_timeout
                (server_version s2) (now - start) relid Late)
      as (warning & q & Hq & E).
    exists warning, q. split; [assumption|]. split.
    + rewrite T, E. simpl. now rewrite <- app_assoc.
    + apply in_transaction_after_begin.
  - intros G. split.
    + rewrite (repack_cleanup_run c) by assumption. unfold bind.
      rewrite (command_run c) by assumption.
      destruct (replies s) as [|r rs].
      { exists 1%nat. split; [lia | reflexivity]. }
      destruct (query_succeeded r).
      2:{ exists 1%nat. split; [lia | reflexivity]. }
      rewrite (command_run c) by exact C. rewrite replies_answered.
      exists 2%nat. split; [lia|].
      destruct rs as [|r' rs']; [|destruct (query_succeeded r')];
        simpl; now rewrite <- app_assoc.
    + intros r1 r2 rs R Q1 Q2.
      rewrite (repack_cleanup_good c t s r1 r2 rs) by assumption.
      eexists. split; [reflexivity|]. split; [|exact C].
      simpl. now rewrite <- app_assoc.
  - intros G. split.
    + unfold repack_cleanup. erewrite bind_Ok by reflexivity. rewrite C.
      apply (command_then c); [exact C|].
      intros u. apply grows_bind.
      * intros s0. exists []. unfold PQstatus_ok, bind, get.
        destruct (connection s0); simpl; now rewrite app_nil_r.
      * intros good. apply grows_bind.
        { destruct good; [|apply grows_reconnect].
          intros s0. exists []. simpl. now rewrite app_nil_r. }
        intros _. apply grows_of_steady, steady_command.
    + intros r1 r2 rs A R Q1 Q2.
      destruct (repack_cleanup_broken c t s r1 r2 rs C G A R Q1 Q2)
        as (s' & E & T & C' & _).
      exists s'. auto.
  - intros s0 r rs C0 A R Q.
    destruct (repack_cleanup_disconnected t s0 r rs C0 A R Q)
      as (s' & E & T & C' & _).
    exists s'. auto.
  - reflexivity.
Qed.

Lemma escalation_and_cleanup_use_the_one_connection_witness :
  exists s',
    repack_cleanup false RunExample.job
      (RunExample.serving [command_ok; RunExample.void] [])
    = Ok tt s'
    /\ trace s'
       = [Query 0 "ROLLBACK" [];
          Query 0 SQL_REPACK_DROP [Some "16384"]]
    /\ connection s' = Some (mkPGconn 0 true).
Proof.
  refine (proj2 (proj1 (proj2 (proj2
            (escalation_and_cleanup_use_the_one_connection
               60 "16384" (lock_table RunExample.job) RunExample.job
               (RunExample.serving [command_ok; RunExample.void] [])
               (mkPGconn 0 true) _))) _)
            command_ok RunExample.void [] _ _ _).
  - reflexivity.
  - reflexivity.
  - reflexivity.
  - reflexivity.
  - reflexivity.
Defined.

(** * The mode of a run under --no-order *)







